(** * Architecture diagram scripts of the e-commerce documentation

    Every program of the repository is a straight-line Python script that
    builds one diagram with the [diagrams] package: it opens a [Diagram]
    context, constructs nodes inside (possibly nested) [Cluster] contexts,
    connects them with the operators [>>], [<<] and [-], and leaves the
    context, which renders the picture.

    The scripts are embedded as computations of a state-and-exception monad
    over an explicit interpreter state ([World]): the module namespace, the two
    context variables of the package, the declarations accumulated by the
    diagram, the files written and the console output.  The operators of the
    package, which the scripts only call, are modelled in [Module diagrams]. *)

From Stdlib Require Import String Ascii.
From stdpp Require Import base strings gmap list.

Set Default Proof Using "Type".
Set Warnings "-register-all".
Set Warnings "-notation-overridden".
Set Warnings "-notation-incompatible-prefix".
Local Open Scope string_scope.

(** ** Python dictionaries of strings

    Keyword arguments and attribute dictionaries keep insertion order (the
    order reaches the generated graph source), so they are association lists
    in which a key occurs at most once. *)

Definition Attrs := list (string * string).

Fixpoint dict_get (k : string) (d : Attrs) : option string :=
  match d with
  | [] => None
  | (k', v) :: r => if decide (k = k') then Some v else dict_get k r
  end.

(** [d[k] = v]: an existing key keeps its position. *)
Fixpoint dict_set (k v : string) (d : Attrs) : Attrs :=
  match d with
  | [] => [(k, v)]
  | (k', v') :: r =>
      if decide (k = k') then (k, v) :: r else (k', v') :: dict_set k v r
  end.

(** [d.update(extra)]. *)
Definition dict_update (d extra : Attrs) : Attrs :=
  foldl (fun acc kv => dict_set kv.1 kv.2 acc) d extra.

Definition dict_del (k : string) (d : Attrs) : Attrs :=
  filter (fun kv => kv.1 <> k) d.

Fixpoint has_dup (ks : list string) : bool :=
  match ks with
  | [] => false
  | k :: r => bool_decide (k ∈ r) || has_dup r
  end.

(** [str.upper()] on ASCII letters. *)
Definition upper_ascii (c : ascii) : ascii :=
  let n := nat_of_ascii c in
  if ((97 <=? n) && (n <=? 122))%nat then ascii_of_nat (n - 32) else c.

Fixpoint upper (s : string) : string :=
  match s with
  | EmptyString => EmptyString
  | String c r => String (upper_ascii c) (upper r)
  end.

Definition lower_ascii (c : ascii) : ascii :=
  let n := nat_of_ascii c in
  if ((65 <=? n) && (n <=? 90))%nat then ascii_of_nat (n + 32) else c.

Fixpoint lower (s : string) : string :=
  match s with
  | EmptyString => EmptyString
  | String c r => String (lower_ascii c) (lower r)
  end.

(** [str.split()] : the maximal runs of characters that are not white
    space. *)
Definition is_space (c : ascii) : bool :=
  let n := nat_of_ascii c in
  ((n =? 32) || ((9 <=? n) && (n <=? 13)) || ((28 <=? n) && (n <=? 31)))%nat.

Fixpoint split_from (cur : string) (s : string) : list string :=
  match s with
  | EmptyString => if decide (cur = "") then [] else [cur]
  | String c r =>
      if is_space c
      then (if decide (cur = "") then split_from "" r
            else cur :: split_from "" r)
      else split_from (cur ++ String c "") r
  end.

Definition split (s : string) : list string := split_from "" s.

(** [sep.join(parts)]. *)
Fixpoint join (sep : string) (parts : list string) : string :=
  match parts with
  | [] => ""
  | [p] => p
  | p :: r => p ++ sep ++ join sep r
  end.

(** Several groups of keyword arguments in one call:
    [f(a=..., **d, b=...)]. *)
Definition splice (groups : list Attrs) : Attrs := concat groups.

(** The line feed of Python's ["\n"]. *)
Definition LF : string := String (ascii_of_nat 10) EmptyString.
Notation "a '\n' b" := (a ++ LF ++ b)%string
  (at level 60, right associativity) : string_scope.

(** ** Objects *)

(** A [Diagram] object: its name, output file, and rendering configuration. *)
Record DiagramObj := mkDiagram {
  dg_key : nat;
  dg_name : string;
  dg_filename : string;
  dg_direction : string;
  dg_curvestyle : string;
  dg_outformat : string;
  dg_show : bool;
  dg_graph_attr : Attrs;
  dg_node_attr : Attrs;
  dg_edge_attr : Attrs
}.

(** A [Cluster] object keeps a reference to the cluster that was active when
    it was constructed. *)
Inductive ClusterObj := mkCluster {
  cl_key : nat;
  cl_label : string;
  cl_name : string;
  cl_direction : string;
  cl_graph_attr : Attrs;
  cl_parent : option ClusterObj;
  cl_depth : nat;
  cl_diagram : nat
}.

(** A node: [nd_key] is the identity of the Python object (the position in
    the order of construction), [nd_id] the random identifier it is given. *)
Record NodeObj := mkNode {
  nd_key : nat;
  nd_id : string;
  nd_class : string;
  nd_label : string;
  nd_attrs : Attrs;
  nd_cluster : option nat;
  nd_diagram : nat
}.

(** An [Edge] object under construction: the node it hangs on, if any, and
    the two direction flags. *)
Record EdgeObj := mkEdge {
  ed_node : option NodeObj;
  ed_forward : bool;
  ed_reverse : bool;
  ed_attrs : Attrs
}.

(** The values the scripts handle. *)
Inductive Value :=
| VNone
| VBool (b : bool)
| VStr (s : string)
| VDict (d : Attrs)
| VNode (n : NodeObj)
| VEdge (e : EdgeObj)
| VCluster (c : ClusterObj)
| VDiagram (d : DiagramObj)
| VList (l : list Value).

(** What a diagram accumulates, in the order of execution. *)
Inductive Decl :=
| DNode (n : NodeObj)
| DCluster (c : ClusterObj)
| DSubgraph (dg : nat) (parent : option nat) (child : nat)
| DEdge (dg : nat) (tail head : NodeObj) (attrs : Attrs).

Inductive Exn :=
| NameError (name : string)
| TypeError (msg : string)
| AttributeError (msg : string)
| ValueError (msg : string)
| IndexError (msg : string)
| EnvironmentError (msg : string)
| FileNotFoundError (path : string)
| ExternalFailure (code : nat).

(** The source handed to the layout engine. *)
Record DotFile := mkDot {
  df_diagram : DiagramObj;
  df_body : list Decl
}.

Inductive File :=
| ConfigFile (text : string)
| SourceFile (src : DotFile)
| ImageFile (fmt : string) (structure : DotFile) (pixels : nat).

Inductive Event :=
| EvPrint (line : string)
| EvRaise (e : Exn)
| EvClosed (dg : nat).

(** ** The interpreter state *)

(** What a run receives from outside and never chooses itself: command line,
    environment variables, the files on disk when it starts, the random
    identifiers, the failures of the package and of the external layout
    program at each step, and the pixels that program produces. *)
Record ProcessEnv := mkEnv {
  argv : list string;
  environ : list (string * string);
  disk : gmap string File;
  uuid4 : nat -> string;
  rasterise : nat -> DotFile -> nat;
  faults : nat -> option Exn
}.

(** The environment in which nothing fails. *)
Definition no_faults : nat -> option Exn := fun _ => None.

Record World := mkWorld {
  env : ProcessEnv;
  clock : nat;
  allocated : nat;
  globals : gmap string Value;
  diagram_ctx : option DiagramObj;
  cluster_ctx : option ClusterObj;
  graph : list Decl;
  files : list (string * option File);
  trace : list Event
}.

Definition set_clock (n : nat) (w : World) : World :=
  mkWorld (env w) n (allocated w) (globals w) (diagram_ctx w) (cluster_ctx w)
          (graph w) (files w) (trace w).
Definition set_allocated (n : nat) (w : World) : World :=
  mkWorld (env w) (clock w) n (globals w) (diagram_ctx w) (cluster_ctx w)
          (graph w) (files w) (trace w).
Definition set_globals (g : gmap string Value) (w : World) : World :=
  mkWorld (env w) (clock w) (allocated w) g (diagram_ctx w) (cluster_ctx w)
          (graph w) (files w) (trace w).
Definition set_diagram_ctx (d : option DiagramObj) (w : World) : World :=
  mkWorld (env w) (clock w) (allocated w) (globals w) d (cluster_ctx w)
          (graph w) (files w) (trace w).
Definition set_cluster_ctx (c : option ClusterObj) (w : World) : World :=
  mkWorld (env w) (clock w) (allocated w) (globals w) (diagram_ctx w) c
          (graph w) (files w) (trace w).
Definition set_graph (g : list Decl) (w : World) : World :=
  mkWorld (env w) (clock w) (allocated w) (globals w) (diagram_ctx w)
          (cluster_ctx w) g (files w) (trace w).
Definition set_files (f : list (string * option File)) (w : World) : World :=
  mkWorld (env w) (clock w) (allocated w) (globals w) (diagram_ctx w)
          (cluster_ctx w) (graph w) f (trace w).
Definition set_trace (t : list Event) (w : World) : World :=
  mkWorld (env w) (clock w) (allocated w) (globals w) (diagram_ctx w)
          (cluster_ctx w) (graph w) (files w) t.

(** The file system is the disk of the environment overlaid with the
    changes of the run, latest first: [Some f] for a file written, [None] for
    a file removed. *)
Fixpoint changed (path : string) (log : list (string * option File))
  : option (option File) :=
  match log with
  | [] => None
  | (p, f) :: r => if decide (path = p) then Some f else changed path r
  end.

Definition file_at (w : World) (path : string) : option File :=
  match changed path (files w) with
  | Some f => f
  | None => disk (env w) !! path
  end.

(** A fresh interpreter process. *)
Definition boot (e : ProcessEnv) : World :=
  mkWorld e 0 0 ∅ None None [] [] [].

(** ** The monad of statements and expressions *)

Inductive Res (A : Type) :=
| Ok (a : A) (w : World)
| Raise (e : Exn) (w : World).
Arguments Ok {A} a w.
Arguments Raise {A} e w.

Definition M (A : Type) := World -> Res A.

Definition ret {A} (a : A) : M A := fun w => Ok a w.

Definition bind {A B} (m : M A) (k : A -> M B) : M B :=
  fun w => match m w with
           | Ok a w' => k a w'
           | Raise e w' => Raise e w'
           end.

Definition raise {A} (e : Exn) : M A :=
  fun w => Raise e (set_trace (trace w ++ [EvRaise e]) w).

Declare Scope py_scope.
Delimit Scope py_scope with py.
Bind Scope py_scope with M.

Notation "x <- m ;; k" := (bind m (fun x => k))
  (at level 100, m at next level, right associativity) : py_scope.
Notation "m ;; k" := (bind m (fun _ => k))
  (at level 100, right associativity) : py_scope.

Local Open Scope py_scope.

Definition final {A} (r : Res A) : World :=
  match r with Ok _ w => w | Raise _ w => w end.

Definition succeeded {A} (r : Res A) : bool :=
  match r with Ok _ _ => true | Raise _ _ => false end.

(** A Python block: statements in sequence. *)
Fixpoint block (stmts : list (M unit)) : M unit :=
  match stmts with
  | [] => ret tt
  | s :: r => s ;; block r
  end.

(** Every call into the package or the operating system may fail; whether
    it does at a given step is decided by the environment. *)
Definition fault_point : M unit :=
  fun w =>
    let w' := set_clock (S (clock w)) w in
    match faults (env w) (clock w) with
    | Some e => raise e w'
    | None => Ok tt w'
    end.

(** Reading and assigning a name of the module namespace. *)
Definition getvar (x : string) : M Value :=
  fun w => match globals w !! x with
           | Some v => Ok v w
           | None => raise (NameError x) w
           end.

Definition setvar (x : string) (v : Value) : M unit :=
  fun w => Ok tt (set_globals (<[x := v]> (globals w)) w).

Definition assign (x : string) (e : M Value) : M unit :=
  v <- e ;; setvar x v.

(** An expression statement: the value is dropped. *)
Definition expr (e : M Value) : M unit := _ <- e ;; ret tt.

(** Something observable happens. *)
Definition note (ev : Event) : M unit :=
  fun w => Ok tt (set_trace (trace w ++ [ev]) w).

Definition print (line : string) : M unit := note (EvPrint line).

Definition declare (d : Decl) : M unit :=
  fun w => Ok tt (set_graph (graph w ++ [d]) w).

Definition fresh : M nat :=
  fun w => Ok (allocated w) (set_allocated (S (allocated w)) w).

Definition ask {A} (f : World -> A) : M A := fun w => Ok (f w) w.

(** ** Expressions of the scripts *)

Definition str (s : string) : M Value := ret (VStr s).

(** A list display [[e1, ..., en]]: the elements are evaluated left to
    right. *)
Fixpoint PyList_eval (es : list (M Value)) : M (list Value) :=
  match es with
  | [] => ret []
  | e :: r => v <- e ;; vs <- PyList_eval r ;; ret (v :: vs)
  end.

Definition PyList (es : list (M Value)) : M Value :=
  vs <- PyList_eval es ;; ret (VList vs).

(** Subscription [e[i]] with a non-negative literal index. *)
Definition index (e : M Value) (i : nat) : M Value :=
  v <- e ;;
  match v with
  | VList l =>
      match l !! i with
      | Some x => ret x
      | None => raise (IndexError "list index out of range")
      end
  | _ => raise (TypeError "object is not subscriptable")
  end.

(** Attribute reference [e.name]; the scripts read [label] of a node. *)
Definition attr (e : M Value) (name : string) : M Value :=
  v <- e ;;
  match v with
  | VNode n =>
      if decide (name = "label") then ret (VStr (nd_label n))
      else if decide (name = "nodeid") then ret (VStr (nd_id n))
      else raise (AttributeError name)
  | VCluster c =>
      if decide (name = "label") then ret (VStr (cl_label c))
      else if decide (name = "name") then ret (VStr (cl_name c))
      else raise (AttributeError name)
  | _ => raise (AttributeError name)
  end.

(** A binary operator: left operand, then right operand, then the
    operation. *)
Definition binop (op : Value -> Value -> M Value) (e1 e2 : M Value) : M Value :=
  a <- e1 ;; b <- e2 ;; op a b.

(** [for x in it: body] over a list. *)
Fixpoint for_each (x : string) (l : list Value) (body : M unit) : M unit :=
  match l with
  | [] => ret tt
  | v :: r => setvar x v ;; body ;; for_each x r body
  end.

Definition for_ (x : string) (it : M Value) (body : list (M unit)) : M unit :=
  v <- it ;;
  match v with
  | VList l => for_each x l (block body)
  | _ => raise (TypeError "object is not iterable")
  end.

(** The body of a [with] statement: [__exit__] runs on both ways out of the
    body; an exception of the body is raised again unless [__exit__] returns
    a true value, and an exception of [__exit__] replaces it. *)
Definition finally_exit (exit : M bool) (body : M unit) : M unit :=
  fun w =>
    match body w with
    | Ok _ w' => (_ <- exit ;; ret tt) w'
    | Raise e w' =>
        match exit w' with
        | Ok true w'' => Ok tt w''
        | Ok false w'' => Raise e w''
        | Raise e' w'' => Raise e' w''
        end
    end.

(** [with ctx as target: body], for a context manager given by its
    [__enter__] and [__exit__]. *)
Definition with_as (enter : Value -> M Value) (exit : Value -> M bool)
    (ctx : M Value) (target : option string) (body : list (M unit)) : M unit :=
  mgr <- ctx ;;
  v <- enter mgr ;;
  match target with Some x => setvar x v | None => ret tt end ;;
  finally_exit (exit mgr) (block body).

(** ** The [diagrams] package, as the scripts use it *)

Module diagrams.

(** Modelled from the spec: the context variable of the package that holds
    the diagram under construction (the package itself is not part of the
    repository; the scripts only import it). *)
Definition getdiagram : M (option DiagramObj) := ask diagram_ctx.
Definition setdiagram (d : option DiagramObj) : M unit :=
  fun w => Ok tt (set_diagram_ctx d w).

(** Modelled from the spec: the cluster scope active at a point of the
    script ("scope is a stack: entering a cluster pushes, exiting pops");
    the stack is the chain of [cl_parent] references below the cluster held
    by the context variable. *)
Definition getcluster : M (option ClusterObj) := ask cluster_ctx.
Definition setcluster (c : option ClusterObj) : M unit :=
  fun w => Ok tt (set_cluster_ctx c w).

Definition directions : list string := ["TB"; "BT"; "LR"; "RL"].
Definition curvestyles : list string := ["ortho"; "curved"].
Definition outformats : list string := ["png"; "jpg"; "svg"; "pdf"; "dot"].

Definition reject_duplicates {V} (kwargs : list (string * V)) : M unit :=
  if has_dup kwargs.*1
  then raise (TypeError "got multiple values for keyword argument")
  else ret tt.

(** *** Edge objects *)

(** Modelled from the spec: the constructor of an [Edge] object ("a label
    describing the interaction, a style class and optional layout hints");
    [label], [color] and [style] are named parameters, the other keywords are
    passed through unchecked. The default font attributes of the package are
    left out. *)
Definition Edge_init (node : option NodeObj) (forward reverse : bool)
    (kwargs : Attrs) : EdgeObj :=
  let named k :=
    match dict_get k kwargs with
    | Some v => if decide (v = "") then [] else [(k, v)]
    | None => []
    end in
  let rest := dict_del "label" (dict_del "color" (dict_del "style" kwargs)) in
  mkEdge node forward reverse
         (dict_update (named "label" ++ named "color" ++ named "style")%list rest).

(** The constructor as the scripts call it, with keywords only: no node and
    no direction yet. *)
Definition Edge (kwargs : Attrs) : M Value :=
  reject_duplicates kwargs ;;
  ret (VEdge (Edge_init None false false kwargs)).

Definition direction_of (e : EdgeObj) : string :=
  if ed_forward e && ed_reverse e then "both"
  else if ed_forward e then "forward"
  else if ed_reverse e then "back"
  else "none".

(** Modelled from the spec: the attributes an edge is declared with; the
    direction of the arrow is the attribute [dir]. *)
Definition Edge_attrs (e : EdgeObj) : Attrs :=
  dict_set "dir" (direction_of e) (ed_attrs e).

(** *** Nodes *)

(** Modelled from the spec: "constructing a node registers it in the
    enclosing cluster scope active at construction time"; outside a diagram
    context the constructor fails. The node gets a random identifier unless
    [nodeid] is given. The icon attributes of the node classes are left
    out. *)
Definition Node (cls : string) (label : string) (kwargs : Attrs) : M Value :=
  fault_point ;;
  reject_duplicates kwargs ;;
  k <- fresh ;;
  rnd <- ask (fun w => uuid4 (env w) k) ;;
  d <- getdiagram ;;
  match d with
  | None => raise (EnvironmentError "Global diagrams context not set up")
  | Some dg =>
      c <- getcluster ;;
      let n := mkNode k (default rnd (dict_get "nodeid" kwargs)) cls label
                      (dict_del "nodeid" kwargs) (cl_key <$> c) (dg_key dg) in
      declare (DNode n) ;;
      ret (VNode n)
  end.

(** Modelled from the spec: "connecting two nodes ... appends a directed edge
    to the diagram's edge list and returns the target node"; there is "no
    validation beyond existence of endpoints": a target that is not a node
    has no identifier to declare. The edge goes to the diagram of the source
    node. *)
Definition Node_connect (self : NodeObj) (node : Value) (edge : EdgeObj)
  : M Value :=
  fault_point ;;
  match node with
  | VNode n2 =>
      declare (DEdge (nd_diagram self) self n2 (Edge_attrs edge)) ;;
      ret node
  | _ => raise (AttributeError "nodeid")
  end.

Fixpoint connect_each (self : NodeObj) (nodes : list Value) (edge : EdgeObj)
  : M unit :=
  match nodes with
  | [] => ret tt
  | n :: r => _ <- Node_connect self n edge ;; connect_each self r edge
  end.

Definition set_node (n : NodeObj) (e : EdgeObj) : EdgeObj :=
  mkEdge (Some n) (ed_forward e) (ed_reverse e) (ed_attrs e).
Definition set_forward (e : EdgeObj) : EdgeObj :=
  mkEdge (ed_node e) true (ed_reverse e) (ed_attrs e).
Definition set_reverse (e : EdgeObj) : EdgeObj :=
  mkEdge (ed_node e) (ed_forward e) true (ed_attrs e).
Definition set_attrs (a : Attrs) (e : EdgeObj) : EdgeObj :=
  mkEdge (ed_node e) (ed_forward e) (ed_reverse e) a.

(** Modelled from the spec: [Edge.connect], the second half of
    [a >> Edge(...) >> b]: an edge that already hangs on a node is declared
    from that node to the operand; an edge without a node is hung on the
    operand. An edge object is a value here: the operators return the updated
    edge, which is what the scripts use (no script uses an [Edge] object
    twice). *)
Definition Edge_connect (self : EdgeObj) (other : Value) : M Value :=
  match other with
  | VList l =>
      match ed_node self, l with
      | Some n, _ => connect_each n l self ;; ret other
      | None, [] => ret other
      | None, _ :: _ => raise (AttributeError "connect")
      end
  | VEdge o => ret (VEdge (set_attrs (ed_attrs o) self))
  | _ =>
      match ed_node self, other with
      | Some n, _ => Node_connect n other self
      | None, VNode n => ret (VEdge (set_node n self))
      | None, _ => raise (TypeError "an edge hangs on a node")
      end
  end.

(** Modelled from the spec: the edge operators with a node on the left,
    [self >> other], [self << other] and [self - other], for [other] a list
    of nodes, a node, or an edge. *)
Definition Node_rshift (self : NodeObj) (other : Value) : M Value :=
  match other with
  | VList l =>
      connect_each self l (Edge_init (Some self) true false []) ;; ret other
  | VNode _ => Node_connect self other (Edge_init (Some self) true false [])
  | VEdge e => ret (VEdge (set_node self (set_forward e)))
  | _ => raise (AttributeError "forward")
  end.

Definition Node_lshift (self : NodeObj) (other : Value) : M Value :=
  match other with
  | VList l =>
      connect_each self l (Edge_init (Some self) false true []) ;; ret other
  | VNode _ => Node_connect self other (Edge_init (Some self) false true [])
  | VEdge e => Edge_connect (set_reverse e) (VNode self)
  | _ => raise (AttributeError "reverse")
  end.

Definition Node_sub (self : NodeObj) (other : Value) : M Value :=
  match other with
  | VList l =>
      connect_each self l (Edge_init (Some self) false false []) ;; ret other
  | VNode _ => Node_connect self other (Edge_init (Some self) false false [])
  | VEdge e => ret (VEdge (set_node self e))
  | _ => raise (AttributeError "node")
  end.

(** The same operators with an edge on the left. *)
Definition Edge_rshift (self : EdgeObj) (other : Value) : M Value :=
  Edge_connect (set_forward self) other.
Definition Edge_lshift (self : EdgeObj) (other : Value) : M Value :=
  Edge_connect (set_reverse self) other.
Definition Edge_sub (self : EdgeObj) (other : Value) : M Value :=
  Edge_connect self other.

(** Modelled from the spec: the reflected operators, reached when the left
    operand is a list ([[a, b] >> c]): every element is connected to
    [self]. *)
Fixpoint connect_all (mark : EdgeObj -> EdgeObj) (fresh_edge : EdgeObj)
    (self : NodeObj) (others : list Value) : M unit :=
  match others with
  | [] => ret tt
  | VEdge e :: r =>
      _ <- Edge_connect (mark e) (VNode self) ;;
      connect_all mark fresh_edge self r
  | VNode o :: r =>
      _ <- Node_connect o (VNode self) fresh_edge ;;
      connect_all mark fresh_edge self r
  | _ :: _ => raise (AttributeError "connect")
  end.

Definition Node_reflected (mark : EdgeObj -> EdgeObj) (forward reverse : bool)
    (self : NodeObj) (other : Value) : M Value :=
  match other with
  | VList l =>
      connect_all mark (Edge_init (Some self) forward reverse []) self l ;;
      ret (VNode self)
  | _ => raise (TypeError "object is not iterable")
  end.

Definition Node_rrshift := Node_reflected set_forward true false.
Definition Node_rlshift := Node_reflected set_reverse false true.
Definition Node_rsub := Node_reflected (fun e => e) false false.

(** *** Keyword arguments of the two context managers *)

Definition kw_str (kwargs : list (string * Value)) (k dflt : string)
  : M string :=
  match list_find (fun kv => kv.1 = k) kwargs with
  | None => ret dflt
  | Some (_, (_, VStr s)) => ret s
  | Some _ => raise (AttributeError k)
  end.

Definition kw_bool (kwargs : list (string * Value)) (k : string) (dflt : bool)
  : M bool :=
  match list_find (fun kv => kv.1 = k) kwargs with
  | None => ret dflt
  | Some (_, (_, VBool b)) => ret b
  | Some _ => raise (TypeError k)
  end.

Definition kw_dict (kwargs : list (string * Value)) (k : string) : M Attrs :=
  match list_find (fun kv => kv.1 = k) kwargs with
  | None | Some (_, (_, VNone)) => ret []
  | Some (_, (_, VDict d)) => ret d
  | Some _ => raise (TypeError k)
  end.

Definition reject_unknown (known : list string) (kwargs : list (string * Value))
  : M unit :=
  if forallb (fun kv => bool_decide (kv.1 ∈ known)) kwargs then ret tt
  else raise (TypeError "got an unexpected keyword argument").

(** *** Clusters *)

(** Modelled from the spec: a [Cluster] is "a named, optionally styled visual
    grouping of nodes and/or nested clusters"; its parent is the cluster scope
    active when it is constructed. *)
Definition Cluster (label : M Value) (kwargs : list (string * Value))
  : M Value :=
  l <- label ;;
  fault_point ;;
  reject_duplicates kwargs ;;
  reject_unknown ["direction"; "graph_attr"] kwargs ;;
  direction <- kw_str kwargs "direction" "LR" ;;
  graph_attr <- kw_dict kwargs "graph_attr" ;;
  match l with
  | VStr lbl =>
      if bool_decide (upper direction ∈ directions) then
        d <- getdiagram ;;
        match d with
        | None => raise (EnvironmentError "Global diagrams context not set up")
        | Some dg =>
            k <- fresh ;;
            parent <- getcluster ;;
            let depth := match parent with
                         | Some p => S (cl_depth p)
                         | None => 0
                         end in
            let c := mkCluster k lbl ("cluster_" ++ lbl) direction graph_attr
                               parent depth (dg_key dg) in
            declare (DCluster c) ;;
            ret (VCluster c)
        end
      else raise (ValueError "not a valid direction")
  | _ => raise (TypeError "can only concatenate str")
  end.

(** Modelled from the spec: "entering a cluster pushes". *)
Definition Cluster_enter (self : ClusterObj) : M Value :=
  fault_point ;;
  setcluster (Some self) ;;
  ret (VCluster self).

(** Modelled from the spec: "exiting pops": the cluster is handed to its
    parent, or to the diagram when it has none, and the parent becomes the
    active scope again. The exception of the body, if any, is not
    suppressed. *)
Definition Cluster_exit (self : ClusterObj) : M bool :=
  fault_point ;;
  declare (DSubgraph (cl_diagram self) (cl_key <$> cl_parent self)
                     (cl_key self)) ;;
  setcluster (cl_parent self) ;;
  ret false.

(** *** Diagrams *)

(** Modelled from the spec: a [Diagram] is "a named collection of nodes,
    edges, and clusters, plus global rendering configuration (direction of
    flow, spacing, output format, background)". A single output format is
    modelled, as all scripts pass one; the defaults of the package for the
    graph, node and edge attributes are left out. *)
Definition Diagram (name : M Value) (kwargs : list (string * Value))
  : M Value :=
  nm <- name ;;
  fault_point ;;
  reject_duplicates kwargs ;;
  reject_unknown ["filename"; "direction"; "curvestyle"; "outformat";
                  "autolabel"; "show"; "strict"; "graph_attr"; "node_attr";
                  "edge_attr"] kwargs ;;
  filename <- kw_str kwargs "filename" "" ;;
  direction <- kw_str kwargs "direction" "LR" ;;
  curvestyle <- kw_str kwargs "curvestyle" "ortho" ;;
  outformat <- kw_str kwargs "outformat" "png" ;;
  show <- kw_bool kwargs "show" true ;;
  graph_attr <- kw_dict kwargs "graph_attr" ;;
  node_attr <- kw_dict kwargs "node_attr" ;;
  edge_attr <- kw_dict kwargs "edge_attr" ;;
  match nm with
  | VStr n =>
      if negb (bool_decide (upper direction ∈ directions)) then
        raise (ValueError "not a valid direction")
      else if negb (bool_decide (lower curvestyle ∈ curvestyles)) then
        raise (ValueError "not a valid curvestyle")
      else if negb (bool_decide (lower outformat ∈ outformats)) then
        raise (ValueError "not a valid output format")
      else
        let file :=
          if decide (filename = "")
          then (if decide (n = "") then "diagrams_image"
                else lower (join "_" (split n)))
          else filename in
        k <- fresh ;;
        ret (VDiagram (mkDiagram k n file direction curvestyle outformat
                                 show graph_attr node_attr edge_attr))
  | _ => raise (AttributeError "split")
  end.

Definition decl_diagram (d : Decl) : nat :=
  match d with
  | DNode n => nd_diagram n
  | DCluster c => cl_diagram c
  | DSubgraph dg _ _ => dg
  | DEdge dg _ _ _ => dg
  end.

(** The declarations that belong to one diagram. *)
Definition body_of (dg : nat) (g : list Decl) : list Decl :=
  filter (fun d => decl_diagram d = dg) g.

Definition write_file (path : string) (f : File) : M unit :=
  fun w => Ok tt (set_files ((path, Some f) :: files w) w).

(** [os.remove(path)]. *)
Definition os_remove (path : string) : M unit :=
  fault_point ;;
  f <- ask (fun w => file_at w path) ;;
  match f with
  | None => raise (FileNotFoundError path)
  | Some _ => fun w => Ok tt (set_files ((path, None) :: files w) w)
  end.

(** Modelled from the spec: export ("input is the complete diagram ...;
    output is a single image file at a caller-specified path"): the graph
    source is saved under the file name of the diagram and handed to the
    external layout program, which writes the image next to it. The
    structure of the image file is the source it was made from; the pixels
    are chosen by the layout program. Either step may fail. *)
Definition render (self : DiagramObj) : M unit :=
  fault_point ;;
  g <- ask graph ;;
  let src := mkDot self (body_of (dg_key self) g) in
  write_file (dg_filename self) (SourceFile src) ;;
  fault_point ;;
  px <- ask (fun w => rasterise (env w) (clock w) src) ;;
  write_file (dg_filename self ++ "." ++ dg_outformat self)
             (ImageFile (dg_outformat self) src px).

Definition Diagram_enter (self : DiagramObj) : M Value :=
  fault_point ;;
  setdiagram (Some self) ;;
  ret (VDiagram self).

(** Modelled from the spec: leaving the diagram context exports the diagram
    ("build, style, layout, export, exit"), removes the graph source,
    "leaving only the image", and clears the context variable. The
    exception of the body, if any, is not suppressed. *)
Definition Diagram_exit (self : DiagramObj) : M bool :=
  render self ;;
  os_remove (dg_filename self) ;;
  setdiagram None ;;
  note (EvClosed (dg_key self)) ;;
  ret false.

(** *** The operators and the [with] statement of the scripts *)

Definition unsupported {A} (op : string) : M A :=
  raise (TypeError ("unsupported operand type(s) for " ++ op)).

(** [a >> b]: the method of the left operand; a list has none, and the
    reflected method of the right operand is tried. The reflected operators
    of an [Edge] (a list on the left of an edge) are not modelled: no script
    reaches them. *)
Definition rshift (a b : Value) : M Value :=
  match a, b with
  | VNode n, _ => Node_rshift n b
  | VEdge e, _ => Edge_rshift e b
  | VList _, VNode n => Node_rrshift n a
  | _, _ => unsupported ">>"
  end.

Definition lshift (a b : Value) : M Value :=
  match a, b with
  | VNode n, _ => Node_lshift n b
  | VEdge e, _ => Edge_lshift e b
  | VList _, VNode n => Node_rlshift n a
  | _, _ => unsupported "<<"
  end.

Definition sub (a b : Value) : M Value :=
  match a, b with
  | VNode n, _ => Node_sub n b
  | VEdge e, _ => Edge_sub e b
  | VList _, VNode n => Node_rsub n a
  | _, _ => unsupported "-"
  end.

Definition enter (mgr : Value) : M Value :=
  match mgr with
  | VDiagram d => Diagram_enter d
  | VCluster c => Cluster_enter c
  | _ => raise (AttributeError "__enter__")
  end.

Definition exit (mgr : Value) : M bool :=
  match mgr with
  | VDiagram d => Diagram_exit d
  | VCluster c => Cluster_exit c
  | _ => raise (AttributeError "__exit__")
  end.

End diagrams.

(** ** Surface syntax of the scripts *)

Notation "'$' x" := (getvar x) (at level 9, x at level 0, format "'$' x")
  : py_scope.
Notation "x ::= e" := (assign x e%py) (at level 90, no associativity)
  : py_scope.
Notation "a >> b" := (binop diagrams.rshift a%py b%py)
  (at level 57, left associativity) : py_scope.
Notation "a << b" := (binop diagrams.lshift a%py b%py)
  (at level 57, left associativity) : py_scope.
Notation "a '--' b" := (binop diagrams.sub a%py b%py)
  (at level 50, left associativity) : py_scope.

Definition with_ := with_as diagrams.enter diagrams.exit.

(** A script: the statements of the module, run from a fresh interpreter. *)
Definition Script := list (M unit).
Definition run (s : Script) (e : ProcessEnv) : Res unit := block s (boot e).

(** * The scripts

    One module per script, named after the file. Each module lists the node
    classes the script imports, its configuration constants, and [main], the
    statements of the script in order. Names assigned by the script live in
    the module namespace of the interpreter state and are written [$"name"]. *)

(** *** [c4/c1/c1_system_context_diagram.py] *)

Module c1_system_context_diagram.
Import diagrams.

Definition User := Node "diagrams.onprem.client.User".
Definition Server := Node "diagrams.onprem.compute.Server".
Definition Blank := Node "diagrams.generic.blank.Blank".
Definition Internet := Node "diagrams.onprem.network.Internet".
Definition Vault := Node "diagrams.onprem.security.Vault".

Definition diagram_name : string := "C1 E-Commerce Platform System Context Diagram".

Definition output_filename : string := "c1_system_context_diagram".

Definition graph_attr : Attrs :=
  [("fontsize", "20");
   ("bgcolor", "transparent");
   ("splines", "spline");
   ("nodesep", "1.2");
   ("ranksep", "1.8")].

Definition main : Script := [
  with_ (Diagram (str diagram_name) [("show", VBool false);
      ("filename", VStr output_filename); ("graph_attr", VDict graph_attr);
      ("direction", VStr "LR"); ("outformat", VStr "jpg")]) None [
    "customer" ::= User ("Customer"
        \n "(Uses the platform to browse and purchase products)") [];
    "admin_user" ::= User ("Admin User"
        \n "(Manages platform content, users, and orders)") [];
    "payment_gateway" ::= Server ("External Payment Gateway"
        \n "(e.g., Stripe, PayPal)" \n "Processes payments") [];
    "shipping_provider" ::= Server ("External Shipping Provider"
        \n "(e.g., FedEx, DHL)" \n "Handles order fulfillment logistics") [];
    "identity_provider" ::= Vault ("External Identity Provider"
        \n "(e.g., Auth0, Okta)" \n "Manages user authentication") [];
    with_ (Cluster (str "Our E-Commerce Ecosystem") []) None [
      "ecommerce_system" ::= Server ("E-Commerce Platform"
          \n "(The software system being built)") []
    ];
    expr ($"customer" >> Edge [("label", "Uses (HTTPS)")]
        >> $"ecommerce_system");
    expr ($"admin_user" >> Edge [("label", "Manages (HTTPS)")]
        >> $"ecommerce_system");
    expr ($"ecommerce_system"
        >> Edge [("label", "Processes Payments Via (API/HTTPS)")]
        >> $"payment_gateway");
    expr ($"ecommerce_system" >> Edge [("label", "Arranges Shipping Via (API)")]
        >> $"shipping_provider");
    expr ($"ecommerce_system"
        >> Edge [("label", "Authenticates Users Via (OAuth/SAML)")]
        >> $"identity_provider")
  ];
  print ("Diagram '" ++ diagram_name ++ "' was generated as '"
      ++ output_filename ++ ".jpg'")
].

End c1_system_context_diagram.


(** *** [c4/c2/c2_container_diagram.py] *)

Module c2_container_diagram.
Import diagrams.

Definition Mobile := Node "diagrams.generic.device.Mobile".
Definition Tablet := Node "diagrams.generic.device.Tablet".
Definition Blank := Node "diagrams.generic.blank.Blank".
Definition User := Node "diagrams.onprem.client.User".
Definition Users := Node "diagrams.onprem.client.Users".
Definition Internet := Node "diagrams.onprem.network.Internet".
Definition Server := Node "diagrams.onprem.compute.Server".
Definition PostgreSQL := Node "diagrams.onprem.database.PostgreSQL".
Definition MongoDB := Node "diagrams.onprem.database.MongoDB".
Definition Cassandra := Node "diagrams.onprem.database.Cassandra".
Definition Redis := Node "diagrams.onprem.inmemory.Redis".
Definition Kafka := Node "diagrams.onprem.queue.Kafka".
Definition Elasticsearch := Node "diagrams.elastic.elasticsearch.Elasticsearch".
Definition Vault := Node "diagrams.onprem.security.Vault".
Definition EC2 := Node "diagrams.aws.compute.EC2".
Definition RDS := Node "diagrams.aws.database.RDS".
Definition DocumentDB := Node "diagrams.aws.database.DocumentDB".
Definition SQS := Node "diagrams.aws.integration.SQS".
Definition SNS := Node "diagrams.aws.integration.SNS".
Definition APIGateway := Node "diagrams.aws.network.APIGateway".

Definition diagram_name : string := "C2 E-Commerce Platform Container Diagram".

Definition output_filename : string := "c2_container_diagram".

Definition graph_attr : Attrs :=
  [("fontsize", "18");
   ("bgcolor", "transparent");
   ("splines", "ortho");
   ("nodesep", "1.0");
   ("ranksep", "1.8");
   ("concentrate", "true");
   ("compound", "true")].

Definition main : Script := [
  with_ (Diagram (str diagram_name) [("show", VBool false);
      ("filename", VStr output_filename); ("graph_attr", VDict graph_attr);
      ("direction", VStr "LR"); ("outformat", VStr "jpg")]) None [
    "customer" ::= User ("Customer" \n "(Web/Mobile User)") [];
    "admin_user" ::= User ("Admin User" \n "(Manages platform)") [];
    "external_payment_gateway" ::= Server ("External Payment Gateway"
        \n "(e.g., Stripe, PayPal)") [];
    "external_shipping_provider" ::= Server ("External Shipping Provider"
        \n "(e.g., FedEx, DHL)") [];
    "external_identity_provider" ::= Vault ("External Identity Provider"
        \n "(e.g., Auth0, Okta)") [];
    with_ (Cluster (str "E-Commerce Platform (Software System)") []) None [
      with_ (Cluster (str "Frontend Applications") []) None [
        "web_app" ::= Server ("Web Application" \n "(React/Vue/Angular)") [];
        "mobile_app" ::= Mobile ("Mobile Application" \n "(iOS/Android)") []
      ];
      with_ (Cluster (str "API Layer") []) None [
        "api_gateway" ::= APIGateway ("API Gateway"
            \n "(Handles external requests, routes to services)") []
      ];
      with_ (Cluster (str "Microservices (Backend Systems)") []) None [
        "product_service" ::= Server ("Product Service"
            \n "(Manages product catalog, pricing)") [];
        "order_service" ::= Server ("Order Service"
            \n "(Manages orders, cart, checkout)") [];
        "payment_service" ::= Server ("Payment Service"
            \n "(Processes payments)") [];
        "user_service" ::= Server ("User Service"
            \n "(Manages user accounts, profiles)") [];
        "inventory_service" ::= Server ("Inventory Service"
            \n "(Manages stock levels - if separate)") [];
        "notification_service" ::= Server ("Notification Service"
            \n "(Handles emails, SMS, push notifications)") [];
        "search_service_container" ::= Server ("Search Service"
            \n "(Provides search capabilities - distinct from index)") []
      ];
      with_ (Cluster (str "Data Stores") []) None [
        "product_db" ::= PostgreSQL ("Product DB" \n "(PostgreSQL)") [];
        "order_db" ::= MongoDB ("Order DB" \n "(MongoDB)") [];
        "user_db" ::= PostgreSQL ("User DB"
            \n "(PostgreSQL - for user profiles)") [];
        "inventory_db" ::= Redis ("Inventory DB"
            \n "(Redis - for fast stock checks)") [];
        "payment_db" ::= Cassandra ("Payment DB"
            \n "(Cassandra - for transaction logs)") []
      ];
      with_ (Cluster (str "Search & Caching") []) None [
        "search_index" ::= Elasticsearch ("Search Index" \n "(Elasticsearch)")
            [];
        "cache" ::= Redis ("Distributed Cache" \n "(Redis)") []
      ];
      with_ (Cluster (str "Messaging Infrastructure") []) None [
        "message_broker" ::= Kafka ("Message Broker" \n "(Kafka/RabbitMQ)"
            \n "Event-driven communication") []
      ];
      expr ($"web_app" >> Edge [("label", "Makes API calls (HTTPS)")]
          >> $"api_gateway");
      expr ($"mobile_app" >> Edge [("label", "Makes API calls (HTTPS)")]
          >> $"api_gateway");
      expr ($"api_gateway" >> Edge [("label", "Routes to")]
          >> $"product_service");
      expr ($"api_gateway" >> Edge [("label", "Routes to")]
          >> $"order_service");
      expr ($"api_gateway" >> Edge [("label", "Routes to")]
          >> $"payment_service");
      expr ($"api_gateway" >> Edge [("label", "Routes to")] >> $"user_service");
      expr ($"api_gateway" >> Edge [("label", "Routes to")]
          >> $"search_service_container");
      expr ($"api_gateway" >> Edge [("label", "Routes to (async trigger)")]
          >> $"notification_service");
      expr ($"order_service" >> Edge [("label", "Requests product info")]
          >> $"product_service");
      expr ($"order_service" >> Edge [("label", "Requests inventory check")]
          >> $"inventory_service");
      expr ($"order_service" >> Edge [("label", "Initiates payment")]
          >> $"payment_service");
      expr ($"order_service" >> Edge [("label", "Publishes OrderCreated event")]
          >> $"message_broker");
      expr ($"inventory_service"
          >> Edge [("label", "Reads/Writes stock levels")] >> $"inventory_db");
      expr ($"payment_service"
          >> Edge [("label", "Publishes PaymentProcessed event")]
          >> $"message_broker");
      expr ($"product_service"
          >> Edge [("label", "Publishes ProductUpdated event")]
          >> $"message_broker");
      expr ($"inventory_service"
          >> Edge [("label", "Publishes StockUpdated event")]
          >> $"message_broker");
      expr ($"user_service"
          >> Edge [("label", "Publishes UserRegistered event")]
          >> $"message_broker");
      expr ($"search_service_container" >> Edge [("label", "Queries/Manages")]
          >> $"search_index");
      expr ($"message_broker" >> Edge [("label", "OrderCreated event")]
          >> $"notification_service");
      expr ($"message_broker" >> Edge [("label", "PaymentProcessed event")]
          >> $"order_service");
      expr ($"message_broker" >> Edge [("label", "ProductUpdated event")]
          >> $"search_service_container");
      expr ($"message_broker" >> Edge [("label", "PaymentProcessed event")]
          >> $"notification_service");
      expr ($"message_broker" >> Edge [("label", "StockUpdated event")]
          >> $"product_service");
      expr ($"message_broker" >> Edge [("label", "UserRegistered event")]
          >> $"notification_service");
      expr ($"product_service" >> Edge [("label", "Reads/Writes")]
          >> $"product_db");
      expr ($"product_service" >> Edge [("label", "Updates")]
          >> $"search_index");
      expr ($"product_service" >> Edge [("label", "Uses")] >> $"cache");
      expr ($"order_service" >> Edge [("label", "Reads/Writes")]
          >> $"order_db");
      expr ($"order_service" >> Edge [("label", "Uses")] >> $"cache");
      expr ($"payment_service" >> Edge [("label", "Reads/Writes")]
          >> $"payment_db");
      expr ($"user_service" >> Edge [("label", "Reads/Writes")] >> $"user_db");
      expr ($"inventory_service" >> Edge [("label", "Reads/Writes")]
          >> $"inventory_db");
      expr ($"search_service_container" >> Edge [("label", "Queries")]
          >> $"search_index");
      expr ($"notification_service")
    ];
    expr ($"customer" >> Edge [("label", "Uses")] >> $"web_app");
    expr ($"customer" >> Edge [("label", "Uses")] >> $"mobile_app");
    expr ($"admin_user" >> Edge [("label", "Accesses Admin Panel via")]
        >> $"web_app");
    expr ($"payment_service"
        >> Edge [("label", "Processes payments via (HTTPS)")]
        >> $"external_payment_gateway");
    expr ($"order_service"
        >> Edge [("label", "Gets shipping rates/labels from (API)")]
        >> $"external_shipping_provider");
    expr ($"user_service" >> Edge [("label", "Authenticates via (OAuth/SAML)")]
        >> $"external_identity_provider");
    expr ($"api_gateway"
        >> Edge [("label", "Delegates authentication (sometimes)")]
        >> $"external_identity_provider")
  ];
  print ("Diagram '" ++ diagram_name ++ "' was generated as '"
      ++ output_filename ++ ".jpg'")
].

End c2_container_diagram.


(** *** [c4/c3/inventory-service/c3_inventory_service_diagram.py] *)

Module c3_inventory_service_diagram.
Import diagrams.

Definition Server := Node "diagrams.onprem.compute.Server".
Definition PostgreSQL := Node "diagrams.onprem.database.PostgreSQL".
Definition Redis := Node "diagrams.onprem.inmemory.Redis".
Definition Kafka := Node "diagrams.onprem.queue.Kafka".
Definition User := Node "diagrams.onprem.client.User".
Definition Users := Node "diagrams.onprem.client.Users".

Definition diagram_name : string := "C3 Inventory Service Component Diagram".

Definition output_filename : string := "c3_inventory_service_diagram".

Definition graph_attr : Attrs :=
  [("fontsize", "20");
   ("bgcolor", "transparent");
   ("splines", "ortho");
   ("nodesep", "1.2");
   ("ranksep", "1.8");
   ("concentrate", "true");
   ("compound", "true")].

Definition main : Script := [
  with_ (Diagram (str diagram_name) [("show", VBool false);
      ("filename", VStr output_filename); ("graph_attr", VDict graph_attr);
      ("direction", VStr "LR"); ("outformat", VStr "jpg")]) None [
    "admin" ::= User "Admin/Warehouse Users" [];
    "product_service" ::= Server "Product Service" [];
    "order_service" ::= Server "Order Service" [];
    "frontend" ::= Users "Frontend Applications" [];
    "inventory_db" ::= PostgreSQL ("Inventory Database" \n "(PostgreSQL)") [];
    "inventory_cache" ::= Redis ("Inventory Cache" \n "(Redis)") [];
    "msg_broker" ::= Kafka ("Message Broker" \n "(e.g., Kafka, RabbitMQ)") [];
    with_ (Cluster (str ("Inventory Service Container"
        \n "(Manages stock levels and inventory operations)")) []) None [
      "api_interface" ::= Server ("Inventory API Interface"
          \n "[Component: NestJS Controller]" \n "Exposes inventory endpoints")
          [];
      "inventory_manager" ::= Server ("Inventory Manager"
          \n "[Component: NestJS Service]" \n "Core inventory operations logic")
          [];
      "reservation_service" ::= Server ("Reservation Service"
          \n "[Component: NestJS Service]"
          \n "Reserves inventory during checkout") [];
      "allocation_service" ::= Server ("Allocation Service"
          \n "[Component: NestJS Service]"
          \n "Allocates inventory for fulfilled orders") [];
      "reporting_service" ::= Server ("Reporting Service"
          \n "[Component: NestJS Service]"
          \n "Inventory analytics and reporting") [];
      "domain_entities" ::= Server ("Inventory Domain Entities"
          \n "[Component: TypeORM Entities]" \n "StockItem, Warehouse, etc.")
          [];
      "inventory_repository" ::= Server ("Inventory Repository"
          \n "[Component: TypeORM Repository]"
          \n "Data access for inventory entities") [];
      "cache_manager" ::= Server ("Cache Manager" \n "[Component: Cache Client]"
          \n "Manages fast access to inventory levels") [];
      "event_publisher" ::= Server ("Event Publisher"
          \n "[Component: Message Client]" \n "Publishes inventory events") [];
      "event_consumer" ::= Server ("Event Consumer"
          \n "[Component: Message Client]"
          \n "Consumes order and product events") [];
      expr ($"api_interface" >> Edge [("label", "Uses")]
          >> $"inventory_manager");
      expr ($"api_interface" >> Edge [("label", "Uses")]
          >> $"reservation_service");
      expr ($"api_interface" >> Edge [("label", "Uses")]
          >> $"allocation_service");
      expr ($"api_interface" >> Edge [("label", "Uses")]
          >> $"reporting_service");
      expr ($"event_consumer" >> Edge [("label", "Triggers")]
          >> $"reservation_service");
      expr ($"event_consumer" >> Edge [("label", "Triggers")]
          >> $"allocation_service");
      expr ($"inventory_manager" >> Edge [("label", "Uses")]
          >> $"domain_entities");
      expr ($"reservation_service" >> Edge [("label", "Uses")]
          >> $"domain_entities");
      expr ($"allocation_service" >> Edge [("label", "Uses")]
          >> $"domain_entities");
      expr ($"reporting_service" >> Edge [("label", "Uses")]
          >> $"domain_entities");
      expr ($"inventory_manager" >> Edge [("label", "Persists via")]
          >> $"inventory_repository");
      expr ($"reservation_service" >> Edge [("label", "Persists via")]
          >> $"inventory_repository");
      expr ($"allocation_service" >> Edge [("label", "Persists via")]
          >> $"inventory_repository");
      expr ($"reporting_service" >> Edge [("label", "Reads data via")]
          >> $"inventory_repository");
      expr ($"inventory_manager" >> Edge [("label", "Uses")]
          >> $"cache_manager");
      expr ($"reservation_service" >> Edge [("label", "Uses")]
          >> $"cache_manager");
      expr ($"inventory_manager" >> Edge [("label", "Publishes via")]
          >> $"event_publisher");
      expr ($"reservation_service" >> Edge [("label", "Publishes via")]
          >> $"event_publisher");
      expr ($"allocation_service" >> Edge [("label", "Publishes via")]
          >> $"event_publisher")
    ];
    expr ($"admin" >> Edge [("label", "Manages inventory")]
        >> $"api_interface");
    expr ($"product_service" >> Edge [("label", "Gets inventory levels")]
        >> $"api_interface");
    expr ($"order_service" >> Edge [("label", "Reserves/allocates items")]
        >> $"api_interface");
    expr ($"frontend" >> Edge [("label", "Views availability")]
        >> $"api_interface");
    expr ($"msg_broker" >> Edge [("label", "Order/Product events")]
        >> $"event_consumer");
    expr ($"inventory_repository" >> Edge [("label", "Reads/Writes")]
        >> $"inventory_db");
    expr ($"cache_manager" >> Edge [("label", "Reads/Writes")]
        >> $"inventory_cache");
    expr ($"event_publisher" >> Edge [("label", "Publishes events")]
        >> $"msg_broker")
  ];
  print ("Diagram '" ++ diagram_name ++ "' was generated as '"
      ++ output_filename ++ ".jpg'")
].

End c3_inventory_service_diagram.


(** *** [c4/c3/notification-service/c3_notification_service_diagram.py] *)

Module c3_notification_service_diagram.
Import diagrams.

Definition Server := Node "diagrams.onprem.compute.Server".
Definition MongoDB := Node "diagrams.onprem.database.MongoDB".
Definition Kafka := Node "diagrams.onprem.queue.Kafka".
Definition User := Node "diagrams.onprem.client.User".
Definition Users := Node "diagrams.onprem.client.Users".
Definition SNS := Node "diagrams.aws.integration.SNS".

Definition diagram_name : string := "C3 Notification Service Component Diagram".

Definition output_filename : string := "c3_notification_service_diagram".

Definition graph_attr : Attrs :=
  [("fontsize", "20");
   ("bgcolor", "transparent");
   ("splines", "ortho");
   ("nodesep", "1.2");
   ("ranksep", "1.8");
   ("concentrate", "true");
   ("compound", "true")].

Definition main : Script := [
  with_ (Diagram (str diagram_name) [("show", VBool false);
      ("filename", VStr output_filename); ("graph_attr", VDict graph_attr);
      ("direction", VStr "LR"); ("outformat", VStr "jpg")]) None [
    "other_services" ::= Server ("Other Microservices"
        \n "(Order, User, Product, etc.)") [];
    "admin" ::= User ("Admin Users" \n "(Manages notification templates)") [];
    "notification_db" ::= MongoDB ("Notification Database" \n "(MongoDB)") [];
    "msg_broker" ::= Kafka ("Message Broker" \n "(e.g., Kafka, RabbitMQ)") [];
    "email_provider" ::= SNS ("Email Service Provider"
        \n "(e.g., SendGrid, Mailchimp)") [];
    "sms_provider" ::= SNS ("SMS Service Provider" \n "(e.g., Twilio)") [];
    "push_provider" ::= SNS ("Push Notification Provider"
        \n "(e.g., Firebase FCM)") [];
    with_ (Cluster (str ("Notification Service Container"
        \n "(Handles emails, SMS, push notifications)")) []) None [
      "api_interface" ::= Server ("API Interface"
          \n "[Component: NestJS Controller]"
          \n "Exposes notification endpoints") [];
      "notification_manager" ::= Server ("Notification Manager"
          \n "[Component: NestJS Service]"
          \n "Orchestrates notification delivery") [];
      "template_engine" ::= Server ("Template Engine"
          \n "[Component: Template Service]" \n "Renders notification content")
          [];
      "delivery_scheduler" ::= Server ("Delivery Scheduler"
          \n "[Component: Queue Service]" \n "Handles timing and retries") [];
      "notification_templates" ::= Server ("Notification Templates"
          \n "[Component: Domain Entities]" \n "Email/SMS/Push templates") [];
      "notification_preferences" ::= Server ("User Notification Preferences"
          \n "[Component: Domain Entities]"
          \n "User channel/frequency settings") [];
      "notification_repository" ::= Server ("Notification Repository"
          \n "[Component: Repository]"
          \n "Stores notification records and templates") [];
      "event_consumer" ::= Server ("Event Consumer"
          \n "[Component: Message Client]"
          \n "Consumes events from other services") [];
      "email_gateway" ::= Server ("Email Gateway"
          \n "[Component: Integration Client]" \n "Sends emails") [];
      "sms_gateway" ::= Server ("SMS Gateway"
          \n "[Component: Integration Client]" \n "Sends SMS messages") [];
      "push_gateway" ::= Server ("Push Gateway"
          \n "[Component: Integration Client]" \n "Sends push notifications")
          [];
      expr ($"api_interface" >> Edge [("label", "Uses")]
          >> $"notification_manager");
      expr ($"event_consumer" >> Edge [("label", "Triggers")]
          >> $"notification_manager");
      expr ($"notification_manager" >> Edge [("label", "Renders with")]
          >> $"template_engine");
      expr ($"notification_manager" >> Edge [("label", "Schedules via")]
          >> $"delivery_scheduler");
      expr ($"notification_manager" >> Edge [("label", "Uses")]
          >> $"notification_preferences");
      expr ($"template_engine" >> Edge [("label", "Uses")]
          >> $"notification_templates");
      expr ($"delivery_scheduler" >> Edge [("label", "Sends via")]
          >> $"email_gateway");
      expr ($"delivery_scheduler" >> Edge [("label", "Sends via")]
          >> $"sms_gateway");
      expr ($"delivery_scheduler" >> Edge [("label", "Sends via")]
          >> $"push_gateway");
      expr ($"notification_repository" >> Edge [("label", "Persists")]
          >> $"notification_templates");
      expr ($"notification_repository" >> Edge [("label", "Persists")]
          >> $"notification_preferences")
    ];
    expr ($"other_services" >> Edge [("label", "Direct API calls")]
        >> $"api_interface");
    expr ($"msg_broker" >> Edge [("label", "Events (OrderCreated, etc.)")]
        >> $"event_consumer");
    expr ($"admin" >> Edge [("label", "Manages templates")]
        >> $"api_interface");
    expr ($"notification_repository" >> Edge [("label", "Reads/Writes")]
        >> $"notification_db");
    expr ($"email_gateway" >> Edge [("label", "Sends via")]
        >> $"email_provider");
    expr ($"sms_gateway" >> Edge [("label", "Sends via")] >> $"sms_provider");
    expr ($"push_gateway" >> Edge [("label", "Sends via")] >> $"push_provider")
  ];
  print ("Diagram '" ++ diagram_name ++ "' was generated as '"
      ++ output_filename ++ ".jpg'")
].

End c3_notification_service_diagram.


(** *** [c4/c3/order-service/c3_order_service_diagram.py] *)

Module c3_order_service_diagram.
Import diagrams.

Definition Server := Node "diagrams.onprem.compute.Server".
Definition PostgreSQL := Node "diagrams.onprem.database.PostgreSQL".
Definition Kafka := Node "diagrams.onprem.queue.Kafka".
Definition Custom := Node "diagrams.custom.Custom".

Definition diagram_name : string := "C3 Order Service Component Diagram".

Definition output_filename : string := "c3_order_service_diagram".

Definition graph_attr : Attrs :=
  [("fontsize", "20");
   ("bgcolor", "transparent");
   ("splines", "ortho");
   ("nodesep", "1.2");
   ("ranksep", "1.8");
   ("concentrate", "true");
   ("compound", "true")].

Definition main : Script := [
  with_ (Diagram (str diagram_name) [("show", VBool false);
      ("filename", VStr output_filename); ("graph_attr", VDict graph_attr);
      ("direction", VStr "LR"); ("outformat", VStr "jpg")]) None [
    "api_gateway" ::= Server ("API Gateway" \n "[External Container]") [];
    "payment_service" ::= Server ("Payment Service" \n "[External Container]")
        [];
    "message_broker" ::= Kafka ("Message Broker (RabbitMQ)"
        \n "[External Container]") [];
    "order_db" ::= PostgreSQL ("Order DB (PostgreSQL)"
        \n "[External Container]") [];
    with_ (Cluster (str "Order Service Container") []) None [
      "api_controller" ::= Server ("Order API Controller"
          \n "[Component: NestJS Controller]"
          \n "Handles incoming HTTP requests for orders and carts") [];
      "app_service" ::= Server ("Order Application Service"
          \n "[Component: NestJS Service]"
          \n "Core business logic for order creation, updates, and management")
          [];
      "cart_component" ::= Server ("Cart Management Component"
          \n "[Component: NestJS Service/Module]"
          \n "Manages shopping cart logic") [];
      "domain_entities" ::= Server ("Order Domain Entities"
          \n "[Component: TypeORM Entities/Classes]"
          \n "Represents Order, OrderItem, etc.") [];
      "order_repo" ::= Server ("Order Repository"
          \n "[Component: TypeORM Repository]"
          \n "Data access for order entities") [];
      "payment_client" ::= Server ("Payment Service Client"
          \n "[Component: HTTP Client Wrapper]"
          \n "Communicates with the Payment Service") [];
      "event_publisher" ::= Server ("Event Publisher"
          \n "[Component: RabbitMQ Client Wrapper]"
          \n "Publishes domain events") [];
      expr ($"api_controller" >> Edge [("label", "Routes to")]
          >> $"app_service");
      expr ($"api_controller" >> Edge [("label", "Routes to")]
          >> $"cart_component");
      expr ($"app_service" >> Edge [("label", "Uses")] >> $"domain_entities");
      expr ($"app_service" >> Edge [("label", "Persists via")]
          >> $"order_repo");
      expr ($"app_service" >> Edge [("label", "Requests payment")]
          >> $"payment_client");
      expr ($"app_service" >> Edge [("label", "Publishes events")]
          >> $"event_publisher");
      expr ($"cart_component" >> Edge [("label", "Uses")]
          >> $"domain_entities");
      expr ($"cart_component" >> Edge [("label", "Persists via")]
          >> $"order_repo")
    ];
    expr ($"api_gateway" >> Edge [("label", "Routes HTTP requests to")]
        >> $"api_controller");
    expr ($"order_repo" >> Edge [("label", "Reads/Writes [SQL]")]
        >> $"order_db");
    expr ($"payment_client"
        >> Edge [("label", "Requests payment processing [HTTPS/JSON]")]
        >> $"payment_service");
    expr ($"event_publisher"
        >> Edge [("label", "Publishes 'OrderCreated' etc. [AMQP]")]
        >> $"message_broker")
  ];
  print ("Diagram '" ++ diagram_name ++ "' was generated as '"
      ++ output_filename ++ ".jpg'")
].

End c3_order_service_diagram.


(** *** [c4/c3/payment-service/c3_payment_service_diagram.py] *)

Module c3_payment_service_diagram.
Import diagrams.

Definition Server := Node "diagrams.onprem.compute.Server".
Definition PostgreSQL := Node "diagrams.onprem.database.PostgreSQL".
Definition Kafka := Node "diagrams.onprem.queue.Kafka".
Definition User := Node "diagrams.onprem.client.User".
Definition General := Node "diagrams.aws.general.General".
Definition KeyVaults := Node "diagrams.azure.security.KeyVaults".

Definition diagram_name : string := "C3 Payment Service Component Diagram".

Definition output_filename : string := "c3_payment_service_diagram".

Definition graph_attr : Attrs :=
  [("fontsize", "20");
   ("bgcolor", "transparent");
   ("splines", "ortho");
   ("nodesep", "1.0");
   ("ranksep", "1.5");
   ("concentrate", "true");
   ("compound", "true")].

Definition main : Script := [
  with_ (Diagram (str diagram_name) [("show", VBool false);
      ("filename", VStr output_filename); ("graph_attr", VDict graph_attr);
      ("direction", VStr "LR"); ("outformat", VStr "jpg")]) None [
    "order_service" ::= Server "Order Service" [];
    "admin_user" ::= User ("Admin User/System"
        \n "(for refunds, configuration)") [];
    "payment_gateway_stripe" ::= General ("External Payment Gateway"
        \n "(e.g., Stripe)") [];
    "payment_gateway_paypal" ::= General ("External Payment Gateway"
        \n "(e.g., PayPal)") [];
    "fraud_service" ::= KeyVaults ("External Fraud Detection Service"
        \n "(Optional)") [];
    "payment_db" ::= PostgreSQL ("Payment Database"
        \n "(e.g., PostgreSQL, MySQL)") [];
    "msg_broker" ::= Kafka ("Message Broker" \n "(e.g., Kafka, RabbitMQ)") [];
    with_ (Cluster (str ("Payment Service Container"
        \n "(Handles payment processing, gateway integrations)")) []) None [
      "api_interface" ::= Server ("API Interface" \n "(REST/gRPC)"
          \n "Exposes payment operations") [];
      "processor" ::= Server ("Payment Processing Component"
          \n "Orchestrates payment authorization, capture, refunds") [];
      "gateway_integration" ::= Server ("Payment Gateway Integration Component"
          \n "Adapters for external payment gateways") [];
      "transaction_mgr" ::= Server ("Transaction Management Component"
          \n "Manages payment transaction lifecycle and history") [];
      "fraud_integration" ::= Server ("Fraud Detection Integration Component"
          \n "(Optional) Connects to fraud screening services") [];
      "persistence" ::= Server ("Data Persistence Component"
          \n "Stores transaction data, gateway configs") [];
      "event_publishing" ::= Server ("Event Publishing Component"
          \n "Publishes payment status events") [];
      expr ($"api_interface" >> Edge [("label", "Requests")] >> $"processor");
      expr ($"processor" >> Edge [("label", "Uses")] >> $"gateway_integration");
      expr ($"processor" >> Edge [("label", "Updates/Reads")]
          >> $"transaction_mgr");
      expr ($"processor" >> Edge [("label", "Consults (optional)")]
          >> $"fraud_integration");
      expr ($"transaction_mgr" >> Edge [("label", "Uses")] >> $"persistence");
      expr ($"processor" >> Edge [("label", "Publishes via")]
          >> $"event_publishing");
      expr ($"gateway_integration" >> Edge [("label", "Stores config/logs via")]
          >> $"persistence")
    ];
    expr ($"order_service"
        >> Edge [("label", "Initiates Payment, Receives Status")]
        >> $"api_interface");
    expr ($"admin_user" >> Edge [("label", "Manages Refunds, Configuration")]
        >> $"api_interface");
    expr ($"gateway_integration" >> Edge [("label", "Processes via")]
        >> $"payment_gateway_stripe");
    expr ($"gateway_integration" >> Edge [("label", "Processes via")]
        >> $"payment_gateway_paypal");
    expr ($"fraud_integration" >> Edge [("label", "Checks transaction with")]
        >> $"fraud_service");
    expr ($"persistence" >> Edge [("label", "Reads/Writes")] >> $"payment_db");
    expr ($"event_publishing" >> Edge [("label", "Sends events to")]
        >> $"msg_broker")
  ];
  print ("Diagram '" ++ diagram_name ++ "' was generated as '"
      ++ output_filename ++ ".jpg'")
].

End c3_payment_service_diagram.


(** *** [c4/c3/product-service/c3_product_service_diagram.py] *)

Module c3_product_service_diagram.
Import diagrams.

Definition Server := Node "diagrams.onprem.compute.Server".
Definition PostgreSQL := Node "diagrams.onprem.database.PostgreSQL".
Definition MongoDB := Node "diagrams.onprem.database.MongoDB".
Definition Kafka := Node "diagrams.onprem.queue.Kafka".
Definition Elasticsearch := Node "diagrams.elastic.elasticsearch.Elasticsearch".
Definition User := Node "diagrams.onprem.client.User".
Definition Users := Node "diagrams.onprem.client.Users".

Definition diagram_name : string := "C3 Product Service Component Diagram".

Definition output_filename : string := "c3_product_service_diagram".

Definition graph_attr : Attrs :=
  [("fontsize", "20");
   ("bgcolor", "transparent");
   ("splines", "ortho");
   ("nodesep", "1.0");
   ("ranksep", "1.5");
   ("concentrate", "true");
   ("compound", "true")].

Definition main : Script := [
  with_ (Diagram (str diagram_name) [("show", VBool false);
      ("filename", VStr output_filename); ("graph_attr", VDict graph_attr);
      ("direction", VStr "LR"); ("outformat", VStr "jpg")]) None [
    "frontend" ::= Users "Frontend Applications" [];
    "admin_portal" ::= User "Admin Portal" [];
    "order_service" ::= Server "Order Service" [];
    "recommendation_service" ::= Server "Recommendation Service" [];
    "product_db" ::= PostgreSQL ("Product Database"
        \n "(e.g., PostgreSQL, MongoDB)") [];
    "search_index" ::= Elasticsearch ("Search Index" \n "(e.g., Elasticsearch)")
        [];
    "msg_broker" ::= Kafka ("Message Broker" \n "(e.g., Kafka, RabbitMQ)") [];
    with_ (Cluster (str ("Product Service Container"
        \n "(Manages product info, inventory, pricing, search)")) []) None [
      "api_interface" ::= Server ("API Interface" \n "(REST/GraphQL)"
          \n "Exposes product functionalities") [];
      "catalog" ::= Server ("Product Catalog Component"
          \n "Core logic for product details, categories, attributes") [];
      "inventory" ::= Server ("Inventory Component"
          \n "Tracks stock levels, availability") [];
      "pricing" ::= Server ("Pricing Component"
          \n "Calculates prices, handles promotions") [];
      "search" ::= Server ("Search Integration Component"
          \n "Manages product indexing, interfaces with Search Index") [];
      "review" ::= Server ("Review Management Component"
          \n "Handles product reviews") [];
      "persistence" ::= Server ("Data Persistence Component"
          \n "DB interactions for product, inventory, reviews") [];
      "event_publishing" ::= Server ("Event Publishing Component"
          \n "Publishes domain events") [];
      expr ($"api_interface" >> Edge [("label", "Delegates to")] >> $"catalog");
      expr ($"api_interface" >> Edge [("label", "Delegates to")]
          >> $"inventory");
      expr ($"api_interface" >> Edge [("label", "Delegates to")] >> $"pricing");
      expr ($"api_interface" >> Edge [("label", "Queries")] >> $"search");
      expr ($"api_interface" >> Edge [("label", "Delegates to")] >> $"review");
      expr ($"catalog" >> Edge [("label", "Uses for product data")]
          >> $"persistence");
      expr ($"inventory" >> Edge [("label", "Uses for inventory data")]
          >> $"persistence");
      expr ($"review" >> Edge [("label", "Uses for review data")]
          >> $"persistence");
      expr ($"pricing" >> Edge [("label", "Uses for pricing rules (optional)")]
          >> $"persistence");
      expr ($"catalog" >> Edge [("label", "Notifies for indexing")]
          >> $"search");
      expr ($"inventory" >> Edge [("label", "Notifies stock for indexing")]
          >> $"search");
      expr ($"catalog" >> Edge [("label", "Publishes changes")]
          >> $"event_publishing");
      expr ($"inventory" >> Edge [("label", "Publishes stock updates")]
          >> $"event_publishing");
      expr ($"pricing" >> Edge [("label", "Publishes price changes")]
          >> $"event_publishing");
      expr ($"review" >> Edge [("label", "Publishes new reviews")]
          >> $"event_publishing")
    ];
    expr ($"frontend" >> Edge [("label", "Gets product info, search")]
        >> $"api_interface");
    expr ($"admin_portal" >> Edge [("label", "Manages product catalog")]
        >> $"api_interface");
    expr ($"order_service" >> Edge [("label", "Gets product details, prices")]
        >> $"api_interface");
    expr ($"recommendation_service" >> Edge [("label", "Gets product metadata")]
        >> $"api_interface");
    expr ($"persistence" >> Edge [("label", "Reads/Writes")] >> $"product_db");
    expr ($"search" >> Edge [("label", "Indexes/Queries")] >> $"search_index");
    expr ($"event_publishing" >> Edge [("label", "Sends events to")]
        >> $"msg_broker")
  ];
  print ("Diagram '" ++ diagram_name ++ "' was generated as '"
      ++ output_filename ++ ".jpg'")
].

End c3_product_service_diagram.


(** *** [c4/c3/search-service/c3_search_service_diagram.py] *)

Module c3_search_service_diagram.
Import diagrams.

Definition Server := Node "diagrams.onprem.compute.Server".
Definition MongoDB := Node "diagrams.onprem.database.MongoDB".
Definition Kafka := Node "diagrams.onprem.queue.Kafka".
Definition Elasticsearch := Node "diagrams.elastic.elasticsearch.Elasticsearch".
Definition Users := Node "diagrams.onprem.client.Users".

Definition diagram_name : string := "C3 Search Service Component Diagram".

Definition output_filename : string := "c3_search_service_diagram".

Definition graph_attr : Attrs :=
  [("fontsize", "20");
   ("bgcolor", "transparent");
   ("splines", "ortho");
   ("nodesep", "1.2");
   ("ranksep", "1.8");
   ("concentrate", "true");
   ("compound", "true")].

Definition main : Script := [
  with_ (Diagram (str diagram_name) [("show", VBool false);
      ("filename", VStr output_filename); ("graph_attr", VDict graph_attr);
      ("direction", VStr "LR"); ("outformat", VStr "jpg")]) None [
    "frontend" ::= Users "Frontend Applications" [];
    "product_service" ::= Server "Product Service" [];
    "inventory_service" ::= Server "Inventory Service" [];
    "search_config_db" ::= MongoDB ("Search Configuration DB" \n "(MongoDB)")
        [];
    "msg_broker" ::= Kafka ("Message Broker" \n "(e.g., Kafka, RabbitMQ)") [];
    "elasticsearch_cluster" ::= Elasticsearch "Elasticsearch Cluster" [];
    with_ (Cluster (str ("Search Service Container"
        \n "(Provides search capabilities across catalog)")) []) None [
      "api_interface" ::= Server ("Search API Interface"
          \n "[Component: NestJS Controller]" \n "Exposes search endpoints") [];
      "search_orchestrator" ::= Server ("Search Orchestrator"
          \n "[Component: NestJS Service]" \n "Coordinates search operations")
          [];
      "query_builder" ::= Server ("Query Builder"
          \n "[Component: Query Service]" \n "Builds Elasticsearch queries") [];
      "facet_manager" ::= Server ("Facet Manager"
          \n "[Component: Filter Service]"
          \n "Handles filtering and faceted search") [];
      "result_processor" ::= Server ("Result Processor"
          \n "[Component: Processor Service]"
          \n "Transforms and enriches results") [];
      "search_configuration" ::= Server ("Search Configuration"
          \n "[Component: Domain Entities]"
          \n "Defines searchable attributes, boosts, etc.") [];
      "search_repository" ::= Server ("Search Repository"
          \n "[Component: Repository]" \n "Manages configuration storage") [];
      "index_manager" ::= Server ("Index Manager"
          \n "[Component: Integration Service]"
          \n "Manages Elasticsearch indexes") [];
      "event_consumer" ::= Server ("Event Consumer"
          \n "[Component: Message Client]"
          \n "Consumes product/inventory events") [];
      expr ($"api_interface" >> Edge [("label", "Uses")]
          >> $"search_orchestrator");
      expr ($"event_consumer" >> Edge [("label", "Updates via")]
          >> $"index_manager");
      expr ($"search_orchestrator" >> Edge [("label", "Uses")]
          >> $"query_builder");
      expr ($"search_orchestrator" >> Edge [("label", "Uses")]
          >> $"facet_manager");
      expr ($"search_orchestrator" >> Edge [("label", "Uses")]
          >> $"result_processor");
      expr ($"query_builder" >> Edge [("label", "Configures using")]
          >> $"search_configuration");
      expr ($"facet_manager" >> Edge [("label", "Configures using")]
          >> $"search_configuration");
      expr ($"index_manager" >> Edge [("label", "Manages")]
          >> $"search_configuration");
      expr ($"search_repository" >> Edge [("label", "Persists")]
          >> $"search_configuration")
    ];
    expr ($"frontend" >> Edge [("label", "Search requests")]
        >> $"api_interface");
    expr ($"product_service" >> Edge [("label", "Direct index requests")]
        >> $"api_interface");
    expr ($"msg_broker" >> Edge [("label", "Product/Inventory events")]
        >> $"event_consumer");
    expr ($"search_repository" >> Edge [("label", "Reads/Writes")]
        >> $"search_config_db");
    expr ($"query_builder" >> Edge [("label", "Queries")]
        >> $"elasticsearch_cluster");
    expr ($"facet_manager" >> Edge [("label", "Queries")]
        >> $"elasticsearch_cluster");
    expr ($"index_manager" >> Edge [("label", "Manages indexes")]
        >> $"elasticsearch_cluster")
  ];
  print ("Diagram '" ++ diagram_name ++ "' was generated as '"
      ++ output_filename ++ ".jpg'")
].

End c3_search_service_diagram.


(** *** [c4/c3/user-service/c3_user_service_diagram.py] *)

Module c3_user_service_diagram.
Import diagrams.

Definition Server := Node "diagrams.onprem.compute.Server".
Definition PostgreSQL := Node "diagrams.onprem.database.PostgreSQL".
Definition Kafka := Node "diagrams.onprem.queue.Kafka".
Definition User := Node "diagrams.onprem.client.User".
Definition Users := Node "diagrams.onprem.client.Users".
Definition Vault := Node "diagrams.onprem.security.Vault".

Definition diagram_name : string := "C3 User Service Component Diagram".

Definition output_filename : string := "c3_user_service_diagram".

Definition graph_attr : Attrs :=
  [("fontsize", "20");
   ("bgcolor", "transparent");
   ("splines", "ortho");
   ("nodesep", "1.2");
   ("ranksep", "1.8");
   ("concentrate", "true");
   ("compound", "true")].

Definition main : Script := [
  with_ (Diagram (str diagram_name) [("show", VBool false);
      ("filename", VStr output_filename); ("graph_attr", VDict graph_attr);
      ("direction", VStr "LR"); ("outformat", VStr "jpg")]) None [
    "customer" ::= Users "Customers" [];
    "admin" ::= User "Admin Users" [];
    "frontend" ::= Server "Frontend Applications" [];
    "other_services" ::= Server ("Other Microservices"
        \n "(Order, Product, etc.)") [];
    "identity_provider" ::= Vault ("External Identity Provider"
        \n "(e.g., Auth0, Okta)") [];
    "user_db" ::= PostgreSQL ("User Database" \n "(PostgreSQL)") [];
    "msg_broker" ::= Kafka ("Message Broker" \n "(e.g., Kafka, RabbitMQ)") [];
    with_ (Cluster (str ("User Service Container"
        \n "(Manages user accounts, profiles, and authentication)")) []) None [
      "api_interface" ::= Server ("API Interface"
          \n "[Component: NestJS Controller]"
          \n "Exposes user management endpoints") [];
      "auth_service" ::= Server ("Authentication Service"
          \n "[Component: NestJS Service]"
          \n "Handles login, registration, token verification") [];
      "profile_service" ::= Server ("Profile Management Service"
          \n "[Component: NestJS Service]" \n "Manages user profile data") [];
      "preferences_service" ::= Server ("User Preferences Service"
          \n "[Component: NestJS Service]"
          \n "Manages user settings and preferences") [];
      "domain_entities" ::= Server ("User Domain Entities"
          \n "[Component: TypeORM Entities]"
          \n "User, Profile, Preferences classes") [];
      "user_repository" ::= Server ("User Repository"
          \n "[Component: TypeORM Repository]"
          \n "Data access for user entities") [];
      "auth_provider_client" ::= Server ("Identity Provider Client"
          \n "[Component: OAuth/OIDC Client]" \n "Integrates with external IdP")
          [];
      "event_publisher" ::= Server ("Event Publisher"
          \n "[Component: Message Client]" \n "Publishes user-related events")
          [];
      expr ($"api_interface" >> Edge [("label", "Delegates auth")]
          >> $"auth_service");
      expr ($"api_interface" >> Edge [("label", "Delegates profile ops")]
          >> $"profile_service");
      expr ($"api_interface" >> Edge [("label", "Delegates preferences")]
          >> $"preferences_service");
      expr ($"auth_service" >> Edge [("label", "Uses")] >> $"domain_entities");
      expr ($"auth_service" >> Edge [("label", "Authenticates via")]
          >> $"auth_provider_client");
      expr ($"profile_service" >> Edge [("label", "Uses")]
          >> $"domain_entities");
      expr ($"profile_service" >> Edge [("label", "Persists via")]
          >> $"user_repository");
      expr ($"profile_service" >> Edge [("label", "Publishes events via")]
          >> $"event_publisher");
      expr ($"preferences_service" >> Edge [("label", "Uses")]
          >> $"domain_entities");
      expr ($"preferences_service" >> Edge [("label", "Persists via")]
          >> $"user_repository")
    ];
    expr ($"frontend"
        >> Edge [("label", "User operations (register, login, profile)")]
        >> $"api_interface");
    expr ($"other_services" >> Edge [("label", "User validation, profile data")]
        >> $"api_interface");
    expr ($"user_repository" >> Edge [("label", "Reads/Writes")] >> $"user_db");
    expr ($"auth_provider_client" >> Edge [("label", "Authenticates via")]
        >> $"identity_provider");
    expr ($"event_publisher" >> Edge [("label", "Publishes events")]
        >> $"msg_broker");
    expr ($"customer" >> Edge [("label", "Uses via frontend")] >> $"frontend");
    expr ($"admin" >> Edge [("label", "Manages users via")] >> $"frontend")
  ];
  print ("Diagram '" ++ diagram_name ++ "' was generated as '"
      ++ output_filename ++ ".jpg'")
].

End c3_user_service_diagram.


(** *** [communication-patterns/communication_styles_patterns_diagram.py] *)

Module communication_styles_patterns_diagram.
Import diagrams.

Definition Server := Node "diagrams.onprem.compute.Server".
Definition APIGateway := Node "diagrams.onprem.network.Nginx".
Definition Kafka := Node "diagrams.onprem.queue.Kafka".
Definition Vault := Node "diagrams.onprem.security.Vault".
Definition Blank := Node "diagrams.generic.blank.Blank".

Definition diagram_name : string := "Communication Styles and Patterns".

Definition output_filename : string := "communication_styles_patterns_diagram".

Definition graph_attr : Attrs :=
  [("fontsize", "18");
   ("bgcolor", "transparent");
   ("splines", "ortho");
   ("nodesep", "0.8");
   ("ranksep", "1.5");
   ("compound", "true")].

Definition edge_attr : Attrs :=
  [("fontsize", "10");
   ("fontname", "Sans-Serif")].

Definition node_attr : Attrs :=
  [("fontsize", "12");
   ("fontname", "Sans-Serif");
   ("height", "1.0");
   ("width", "2.0")].

Definition sync_color : string := "#0078d7".

Definition async_color : string := "#ff8c00".

Definition sync_edge_attrs : Attrs :=
  [("color", sync_color);
   ("style", "solid");
   ("penwidth", "2.0")].

Definition async_edge_attrs : Attrs :=
  [("color", async_color);
   ("style", "dashed");
   ("penwidth", "2.0")].

Definition main : Script := [
  with_ (Diagram (str diagram_name) [("show", VBool false);
      ("filename", VStr output_filename); ("graph_attr", VDict graph_attr);
      ("edge_attr", VDict edge_attr); ("node_attr", VDict node_attr);
      ("direction", VStr "TB"); ("outformat", VStr "jpg")]) None [
    "gateway" ::= APIGateway "API Gateway" [];
    "broker" ::= Kafka "Message Broker" [];
    with_ (Cluster (str "Internal Microservices") []) None [
      "user_service" ::= Server "User Service" [];
      "product_service" ::= Server "Product Service" [];
      "order_service" ::= Server "Order Service" [];
      "payment_service" ::= Server "Payment Service" [];
      "notification_service" ::= Server "Notification Service" [];
      "services_group1" ::= PyList [$"user_service"; $"product_service"];
      "services_group2" ::= PyList [$"order_service"; $"payment_service";
          $"notification_service"]
    ];
    with_ (Cluster (str "External Systems") []) None [
      "idp" ::= Vault "Identity Provider (IdP)" [];
      "payment_gw" ::= Server "Payment Gateway (Ext.)" [];
      "email_svc" ::= Blank "Email Service (Ext.)" [];
      "shipping_api" ::= Blank "Shipping API (Ext.)" [];
      "external_group1" ::= PyList [$"idp"; $"payment_gw"];
      "external_group2" ::= PyList [$"email_svc"; $"shipping_api"]
    ];
    expr ($"gateway"
        >> Edge (splice [[("label", "REST API Calls")]; sync_edge_attrs])
        >> $"user_service");
    expr ($"gateway"
        >> Edge (splice [[("label", "REST API Calls")]; sync_edge_attrs])
        >> $"product_service");
    expr ($"gateway"
        >> Edge (splice [[("label", "REST API Calls")]; sync_edge_attrs])
        >> $"order_service");
    expr ($"gateway"
        >> Edge (splice [[("label", "REST API Calls")]; sync_edge_attrs])
        >> $"payment_service");
    expr ($"gateway"
        >> Edge (splice [[("label", "Auth Validation")]; sync_edge_attrs])
        >> $"idp");
    expr ($"payment_service"
        >> Edge (splice [[("label", "Process Payment (HTTPS)")];
        sync_edge_attrs]) >> $"payment_gw");
    expr ($"order_service"
        >> Edge (splice [[("label", "Get Shipping Rates (HTTPS)")];
        sync_edge_attrs]) >> $"shipping_api");
    expr ($"user_service"
        >> Edge (splice [[("label", "Publishes UserRegistered")];
        async_edge_attrs]) >> $"broker");
    expr ($"product_service"
        >> Edge (splice [[("label", "Publishes ProductUpdated")];
        async_edge_attrs]) >> $"broker");
    expr ($"order_service"
        >> Edge (splice [[("label", ("Publishes OrderCreated,"
        \n "OrderShipped"))]; async_edge_attrs]) >> $"broker");
    expr ($"payment_service"
        >> Edge (splice [[("label", "Publishes PaymentProcessed")];
        async_edge_attrs]) >> $"broker");
    expr ($"broker"
        >> Edge (splice [[("label", ("Consumes All Events"
        \n "(for notifications)"))]; async_edge_attrs])
        >> $"notification_service");
    expr ($"broker"
        >> Edge (splice [[("label", ("Consumes OrderCreated"
        \n "(e.g., for inventory/analytics)"))]; async_edge_attrs])
        >> $"product_service");
    expr ($"broker"
        >> Edge (splice [[("label", ("Consumes PaymentProcessed"
        \n "(to update order status)"))]; async_edge_attrs])
        >> $"order_service");
    expr ($"notification_service"
        >> Edge (splice [[("label", "Sends Email (via API)")];
        async_edge_attrs]) >> $"email_svc")
  ];
  print ("Diagram '" ++ diagram_name ++ "' was generated as '"
      ++ output_filename ++ ".jpg'")
].

End communication_styles_patterns_diagram.


(** *** [data-model/data_flow_diagram.py] *)

Module data_flow_diagram.
Import diagrams.

Definition PredefinedProcess := Node "diagrams.programming.flowchart.PredefinedProcess".
Definition Database := Node "diagrams.programming.flowchart.Database".
Definition Document := Node "diagrams.programming.flowchart.Document".
Definition StartEnd := Node "diagrams.programming.flowchart.StartEnd".

Definition diagram_name : string := "E-Commerce Platform Data Flow Diagram".

Definition output_filename : string := "data_flow_diagram".

Definition graph_attr : Attrs :=
  [("splines", "ortho");
   ("nodesep", "0.6");
   ("ranksep", "0.8");
   ("fontsize", "18");
   ("fontname", "Arial");
   ("bgcolor", "white");
   ("concentrate", "false");
   ("compound", "true");
   ("pad", "0.75");
   ("rankdir", "LR");
   ("newrank", "true");
   ("overlap", "false");
   ("outputorder", "edgesfirst")].

Definition edge_attr : Attrs :=
  [("fontsize", "9");
   ("fontname", "Arial");
   ("fontcolor", "#444444");
   ("penwidth", "1.2");
   ("constraint", "true");
   ("tailclip", "true");
   ("headclip", "true")].

Definition node_attr : Attrs :=
  [("fontsize", "11");
   ("fontname", "Arial");
   ("margin", "0.2,0.1")].

Definition entity_attrs : Attrs :=
  [("shape", "oval");
   ("style", "filled");
   ("fillcolor", "#e6f2ff");
   ("color", "#1168bd");
   ("penwidth", "2.0")].

Definition process_attrs : Attrs :=
  [("shape", "box");
   ("style", "filled");
   ("fillcolor", "#fff8dc");
   ("color", "#ff8c00");
   ("penwidth", "2.0")].

Definition datastore_attrs : Attrs :=
  [("shape", "cylinder");
   ("style", "filled");
   ("fillcolor", "#e6ffe6");
   ("color", "#2d882d");
   ("penwidth", "2.0")].

Definition external_attrs : Attrs :=
  [("shape", "component");
   ("style", "filled");
   ("fillcolor", "#f2f2f2");
   ("color", "#333333");
   ("penwidth", "2.0")].

Definition normal_edge : Attrs :=
  [("color", "#555555");
   ("penwidth", "1.0")].

Definition data_store_edge : Attrs :=
  [("color", "#2d882d");
   ("penwidth", "1.2")].

Definition external_edge : Attrs :=
  [("color", "#1168bd");
   ("penwidth", "1.2")].

Definition event_edge : Attrs :=
  [("color", "#ff8c00");
   ("style", "dashed");
   ("penwidth", "1.2")].

Definition add_invisible_edge (node1 node2 : Value) : M Value :=
  ret node1 >> Edge [("style", "invis"); ("constraint", "true")] >> ret node2.

Definition create_rank_node : M Value :=
  StartEnd "" [("shape", "point"); ("width", "0.01"); ("height", "0.01");
      ("style", "invis")].

Definition main : Script := [
  with_ (Diagram (str diagram_name) [("show", VBool false);
      ("filename", VStr output_filename); ("graph_attr", VDict graph_attr);
      ("edge_attr", VDict edge_attr); ("node_attr", VDict node_attr);
      ("direction", VStr "LR"); ("outformat", VStr "jpg")]) None [
    with_ (Cluster (str ("External" \n "Entities"))
        [("graph_attr", VDict [("style", "dashed"); ("color", "#1168bd");
        ("bgcolor", "#f0f5ff40"); ("penwidth", "1.5")])]) None [
      "user_entity" ::= StartEnd "Customer" entity_attrs;
      "admin_entity" ::= StartEnd "Administrator" entity_attrs
    ];
    with_ (Cluster (str "Core Processes")
        [("graph_attr", VDict [("style", "dashed"); ("color", "#ff8c00");
        ("bgcolor", "#fff8f040"); ("penwidth", "1.5")])]) None [
      with_ (Cluster (str "User Management")
          [("graph_attr", VDict [("style", "dotted"); ("color", "#ff8c00");
          ("bgcolor", "transparent")])]) None [
        "auth_process" ::= PredefinedProcess ("Authentication"
            \n "Process") process_attrs;
        "user_process" ::= PredefinedProcess ("User Management"
            \n "Process") process_attrs
      ];
      with_ (Cluster (str "Product & Cart")
          [("graph_attr", VDict [("style", "dotted"); ("color", "#ff8c00");
          ("bgcolor", "transparent")])]) None [
        "catalog_process" ::= PredefinedProcess ("Catalog Management"
            \n "Process") process_attrs;
        "cart_process" ::= PredefinedProcess ("Cart Management"
            \n "Process") process_attrs
      ];
      with_ (Cluster (str "Order Processing")
          [("graph_attr", VDict [("style", "dotted"); ("color", "#ff8c00");
          ("bgcolor", "transparent")])]) None [
        "order_process" ::= PredefinedProcess ("Order Management"
            \n "Process") process_attrs;
        "payment_process" ::= PredefinedProcess ("Payment"
            \n "Processing") process_attrs;
        "fulfill_process" ::= PredefinedProcess ("Order Fulfillment"
            \n "Process") process_attrs
      ];
      "notify_process" ::= PredefinedProcess ("Notification"
          \n "Process") process_attrs
    ];
    with_ (Cluster (str ("Data" \n "Stores"))
        [("graph_attr", VDict [("style", "dashed"); ("color", "#2d882d");
        ("bgcolor", "#f0fff040"); ("penwidth", "1.5")])]) None [
      "user_db" ::= Database "User DB" datastore_attrs;
      "product_db" ::= Database "Product DB" datastore_attrs;
      "order_db" ::= Database "Order DB" datastore_attrs;
      "payment_db" ::= Database "Payment DB" datastore_attrs
    ];
    with_ (Cluster (str ("External" \n "Systems"))
        [("graph_attr", VDict [("style", "dashed"); ("color", "#333333");
        ("bgcolor", "#f8f8f840"); ("penwidth", "1.5")])]) None [
      "idp" ::= Document ("Identity" \n "Provider") external_attrs;
      "payment_gw" ::= Document ("Payment" \n "Gateway") external_attrs;
      "shipping_api" ::= Document ("Shipping" \n "Provider API") external_attrs;
      "email_service" ::= Document ("Email" \n "Service") external_attrs
    ];
    "anchor1" ::= create_rank_node;
    "anchor2" ::= create_rank_node;
    expr ($"user_entity" >> Edge (splice [[("label", "Login")]; normal_edge])
        >> $"auth_process");
    expr ($"auth_process"
        >> Edge (splice [[("label", "Auth token")]; normal_edge])
        >> $"user_entity");
    expr ($"auth_process"
        >> Edge (splice [[("label", "Verify")]; external_edge]) >> $"idp");
    expr ($"user_entity" >> Edge (splice [[("label", "Register")]; normal_edge])
        >> $"user_process");
    expr ($"user_process"
        >> Edge (splice [[("label", "Store profile")]; data_store_edge])
        >> $"user_db");
    expr ($"user_entity" >> Edge (splice [[("label", "Browse")]; normal_edge])
        >> $"catalog_process");
    expr ($"catalog_process"
        >> Edge (splice [[("label", "Products")]; normal_edge])
        >> $"user_entity");
    expr ($"catalog_process"
        >> Edge (splice [[("label", "Query")]; data_store_edge])
        >> $"product_db");
    expr ($"admin_entity" >> Edge (splice [[("label", "Manage")]; normal_edge])
        >> $"catalog_process");
    expr ($"user_entity" >> Edge (splice [[("label", "Add item")]; normal_edge])
        >> $"cart_process");
    expr ($"cart_process"
        >> Edge (splice [[("label", "Show cart")]; normal_edge])
        >> $"user_entity");
    expr ($"cart_process"
        >> Edge (splice [[("label", "Check stock")]; data_store_edge])
        >> $"product_db");
    expr ($"cart_process"
        >> Edge (splice [[("label", "Save cart")]; data_store_edge])
        >> $"order_db");
    expr ($"user_entity"
        >> Edge (splice [[("label", "Place order")]; normal_edge;
        [("minlen", "2")]]) >> $"order_process");
    expr ($"cart_process"
        >> Edge (splice [[("label", "Cart data")]; normal_edge;
        [("minlen", "1")]]) >> $"order_process");
    expr ($"order_process"
        >> Edge (splice [[("label", "Save order")]; data_store_edge;
        [("minlen", "1")]]) >> $"order_db");
    expr ($"order_process"
        >> Edge (splice [[("label", "Confirm")]; normal_edge;
        [("minlen", "1")]]) >> $"user_entity");
    expr ($"order_process"
        >> Edge (splice [[("label", "Process payment")]; normal_edge;
        [("minlen", "1")]]) >> $"payment_process");
    expr ($"payment_process"
        >> Edge (splice [[("label", "Auth request")]; external_edge;
        [("minlen", "1")]]) >> $"payment_gw");
    expr ($"payment_gw"
        >> Edge (splice [[("label", "Authorize")]; external_edge;
        [("minlen", "1")]]) >> $"payment_process");
    expr ($"payment_process"
        >> Edge (splice [[("label", "Record")]; data_store_edge;
        [("minlen", "1")]]) >> $"payment_db");
    expr ($"payment_process"
        >> Edge (splice [[("label", "Status")]; normal_edge; [("minlen", "1")]])
        >> $"order_process");
    expr ($"order_process"
        >> Edge (splice [[("label", "Order created")]; event_edge;
        [("minlen", "1")]]) >> $"notify_process");
    expr ($"payment_process"
        >> Edge (splice [[("label", "Payment complete")]; event_edge;
        [("minlen", "1")]]) >> $"notify_process");
    expr ($"admin_entity"
        >> Edge (splice [[("label", "Manage")]; normal_edge; [("minlen", "1")]])
        >> $"fulfill_process");
    expr ($"fulfill_process"
        >> Edge (splice [[("label", "Order info")]; data_store_edge;
        [("minlen", "1")]]) >> $"order_db");
    expr ($"fulfill_process"
        >> Edge (splice [[("label", "Update status")]; data_store_edge;
        [("minlen", "1")]]) >> $"order_db");
    expr ($"fulfill_process"
        >> Edge (splice [[("label", "Ship request")]; external_edge;
        [("minlen", "1")]]) >> $"shipping_api");
    expr ($"shipping_api"
        >> Edge (splice [[("label", "Ship label")]; external_edge;
        [("minlen", "1")]]) >> $"fulfill_process");
    expr ($"order_process"
        >> Edge (splice [[("label", "Update inventory")]; data_store_edge;
        [("minlen", "1")]]) >> $"product_db");
    expr ($"fulfill_process"
        >> Edge (splice [[("label", "Ship event")]; event_edge;
        [("minlen", "1")]]) >> $"notify_process");
    expr ($"notify_process"
        >> Edge (splice [[("label", "Send email")]; external_edge;
        [("minlen", "1")]]) >> $"email_service");
    expr ($"email_service"
        >> Edge (splice [[("label", "Deliver")]; external_edge;
        [("minlen", "1")]]) >> $"user_entity");
    expr (binop add_invisible_edge $"anchor1" $"order_process");
    expr (binop add_invisible_edge $"anchor1" $"cart_process");
    expr (binop add_invisible_edge $"anchor2" $"payment_db");
    expr (binop add_invisible_edge $"anchor2" $"product_db")
  ];
  print ("Enhanced diagram '" ++ diagram_name
      ++ "' generation initiated. Output: '" ++ output_filename ++ ".jpg'");
  print ("" \n "Key enhancements:");
  print "- Left-to-right layout for better flow visualization";
  print "- Functional clustering of related processes";
  print "- Styled nodes with distinctive shapes and colors";
  print "- Simplified, more readable connection labels";
  print "- Added event flow as a distinct connection type";
  print "- Improved background colors and contrast";
  print "- Better spacing and organization of components"
].

End data_flow_diagram.


(** *** [deployment/aws_eks_deployment_diagram.py] *)

Module aws_eks_deployment_diagram.
Import diagrams.

Definition EKS := Node "diagrams.aws.compute.EKS".
Definition EC2 := Node "diagrams.aws.compute.EC2".
Definition ECR := Node "diagrams.aws.compute.ECR".
Definition ELB := Node "diagrams.aws.network.ELB".
Definition VPC := Node "diagrams.aws.network.VPC".
Definition PrivateSubnet := Node "diagrams.aws.network.PrivateSubnet".
Definition PublicSubnet := Node "diagrams.aws.network.PublicSubnet".
Definition InternetGateway := Node "diagrams.aws.network.InternetGateway".
Definition NATGateway := Node "diagrams.aws.network.NATGateway".
Definition RDS := Node "diagrams.aws.database.RDS".
Definition ElastiCache := Node "diagrams.aws.database.ElastiCache".
Definition S3 := Node "diagrams.aws.storage.S3".
Definition EFS := Node "diagrams.aws.storage.EFS".
Definition Cloudwatch := Node "diagrams.aws.management.Cloudwatch".
Definition IAM := Node "diagrams.aws.security.IAM".
Definition Codebuild := Node "diagrams.aws.devtools.Codebuild".
Definition Codecommit := Node "diagrams.aws.devtools.Codecommit".
Definition Codedeploy := Node "diagrams.aws.devtools.Codedeploy".
Definition Codepipeline := Node "diagrams.aws.devtools.Codepipeline".
Definition HPA := Node "diagrams.k8s.clusterconfig.HPA".
Definition Deployment := Node "diagrams.k8s.compute.Deployment".
Definition Pod := Node "diagrams.k8s.compute.Pod".
Definition ReplicaSet := Node "diagrams.k8s.compute.ReplicaSet".
Definition StatefulSet := Node "diagrams.k8s.compute.StatefulSet".
Definition Ingress := Node "diagrams.k8s.network.Ingress".
Definition Service := Node "diagrams.k8s.network.Service".
Definition PV := Node "diagrams.k8s.storage.PV".
Definition PVC := Node "diagrams.k8s.storage.PVC".
Definition StorageClass := Node "diagrams.k8s.storage.StorageClass".
Definition APIServer := Node "diagrams.k8s.controlplane.APIServer".
Definition Scheduler := Node "diagrams.k8s.controlplane.Scheduler".
Definition ControllerManager := Node "diagrams.k8s.controlplane.ControllerManager".
Definition Prometheus := Node "diagrams.onprem.monitoring.Prometheus".
Definition Grafana := Node "diagrams.onprem.monitoring.Grafana".
Definition Jaeger := Node "diagrams.onprem.tracing.Jaeger".
Definition FluentBit := Node "diagrams.onprem.logging.FluentBit".
Definition Redis := Node "diagrams.onprem.inmemory.Redis".
Definition RabbitMQ := Node "diagrams.onprem.queue.RabbitMQ".
Definition Kafka := Node "diagrams.onprem.queue.Kafka".
Definition Jenkins := Node "diagrams.onprem.ci.Jenkins".
Definition GitlabCI := Node "diagrams.onprem.ci.GitlabCI".
Definition GithubActions := Node "diagrams.onprem.ci.GithubActions".
Definition Git := Node "diagrams.onprem.vcs.Git".
Definition Github := Node "diagrams.onprem.vcs.Github".
Definition Nodejs := Node "diagrams.programming.language.Nodejs".
Definition Rack := Node "diagrams.generic.compute.Rack".
Definition Mobile := Node "diagrams.generic.device.Mobile".
Definition Tablet := Node "diagrams.generic.device.Tablet".
Definition Switch := Node "diagrams.generic.network.Switch".
Definition Android := Node "diagrams.generic.os.Android".
Definition IOS := Node "diagrams.generic.os.IOS".
Definition Datacenter := Node "diagrams.generic.place.Datacenter".
Definition Storage := Node "diagrams.generic.storage.Storage".
Definition User := Node "diagrams.onprem.client.User".

Definition main : Script := [
  with_ (Diagram (str "AWS EKS Deployment - E-commerce Platform")
      [("show", VBool false); ("direction", VStr "TB");
      ("outformat", VStr "jpg");
      ("filename", VStr "aws_eks_deployment_diagram")]) (Some "diag") [
    "user" ::= User "End User (Web/Mobile)" [];
    with_ (Cluster (str "AWS Cloud") []) None [
      with_ (Cluster (str "Region (e.g., us-east-1)") []) None [
        "ecr" ::= ECR "Elastic Container Registry" [];
        "s3_config_backups" ::= S3 "Config/Backups" [];
        "github_actions" ::= GithubActions "GitHub Actions CI/CD" [];
        with_ (Cluster (str "VPC") []) None [
          "igw" ::= InternetGateway "Internet Gateway" [];
          "nat_gw" ::= NATGateway "NAT Gateway" [];
          with_ (Cluster (str "Public Subnets") []) None [
            "alb" ::= ELB "Application Load Balancer" []
          ];
          with_ (Cluster (str "Private Subnets") []) None [
            with_ (Cluster (str "EKS Cluster (Managed Kubernetes)") []) None [
              "eks_control_plane" ::= EKS "EKS Control Plane" [];
              with_ (Cluster (str "Kubernetes Worker Nodes (EC2 Instances)")
                  []) None [
                "nodes_group" ::= Cluster (str "Nodes Group")
                    [("graph_attr", VDict [("bgcolor", "transparent")])];
                with_ $"nodes_group" None [
                  "nodes" ::= PyList [
                      EC2 "Worker Node 1" [];
                      EC2 "Worker Node 2" [];
                      EC2 "Worker Node 3" []
                    ]
                ];
                with_ (Cluster (str "Observability Stack") []) None [
                  "prometheus" ::= Prometheus "Prometheus" [];
                  "grafana" ::= Grafana "Grafana" [];
                  "alertmanager" ::= Prometheus "Alertmanager" [];
                  "jaeger_collector" ::= Jaeger "Jaeger Collector" [];
                  "jaeger_query" ::= Jaeger "Jaeger Query" [];
                  "fluentd_ds" ::= Deployment "FluentBit DaemonSet" [];
                  for_ "node_instance" $"nodes" [
                    expr ($"node_instance"
                        >> Edge [("style", "dotted"); ("label", "logs")]
                        >> $"fluentd_ds")
                  ];
                  expr ($"eks_control_plane"
                      >> Edge [("color", "grey"); ("style", "dashed")]
                      >> PyList [$"prometheus"; $"grafana"; $"jaeger_query"])
                ];
                with_ (Cluster (str "Core Services Namespace") []) None [
                  with_ (Cluster (str "User Service") []) None [
                    "user_svc_deploy" ::= Deployment "Deployment" [];
                    "user_svc_pods" ::= PyList [Pod "Pod 1" []; Pod "Pod 2" []];
                    "user_svc_service" ::= Service "Service (ClusterIP)" [];
                    "user_svc_hpa" ::= HPA "HPA" [];
                    expr ($"user_svc_deploy" >> $"user_svc_pods");
                    expr ($"user_svc_service" >> $"user_svc_deploy");
                    expr ($"user_svc_deploy" >> $"user_svc_hpa");
                    for_ "pod_instance" $"user_svc_pods" [
                      with_ (Cluster (attr $"pod_instance" "label")
                          [("graph_attr", VDict [("bgcolor", "transparent");
                          ("style", "dotted"); ("labeljust", "l");
                          ("labelloc", "b")])]) None [
                        "nestjs_app" ::= Nodejs "NestJS App" [];
                        expr ($"pod_instance" -- $"nestjs_app")
                      ]
                    ]
                  ];
                  with_ (Cluster (str "Product Service") []) None [
                    "product_svc_deploy" ::= Deployment "Deployment" [];
                    "product_svc_pods" ::= PyList [Pod "Pod 1" [];
                        Pod "Pod 2" []];
                    "product_svc_service" ::= Service "Service (ClusterIP)" [];
                    "product_svc_hpa" ::= HPA "HPA" [];
                    expr ($"product_svc_deploy" >> $"product_svc_pods");
                    expr ($"product_svc_service" >> $"product_svc_deploy");
                    expr ($"product_svc_deploy" >> $"product_svc_hpa");
                    for_ "pod_instance" $"product_svc_pods" [
                      with_ (Cluster (attr $"pod_instance" "label")
                          [("graph_attr", VDict [("bgcolor", "transparent");
                          ("style", "dotted"); ("labeljust", "l");
                          ("labelloc", "b")])]) None [
                        "nestjs_app" ::= Nodejs "NestJS App" [];
                        expr ($"pod_instance" -- $"nestjs_app")
                      ]
                    ]
                  ];
                  with_ (Cluster (str "Order Service") []) None [
                    "order_svc_deploy" ::= Deployment "Deployment" [];
                    "order_svc_pods" ::= PyList [Pod "Pod 1" [];
                        Pod "Pod 2" []];
                    "order_svc_service" ::= Service "Service (ClusterIP)" [];
                    "order_svc_hpa" ::= HPA "HPA" [];
                    expr ($"order_svc_deploy" >> $"order_svc_pods");
                    expr ($"order_svc_service" >> $"order_svc_deploy");
                    expr ($"order_svc_deploy" >> $"order_svc_hpa");
                    for_ "pod_instance" $"order_svc_pods" [
                      with_ (Cluster (attr $"pod_instance" "label")
                          [("graph_attr", VDict [("bgcolor", "transparent");
                          ("style", "dotted"); ("labeljust", "l");
                          ("labelloc", "b")])]) None [
                        "nestjs_app" ::= Nodejs "NestJS App" [];
                        expr ($"pod_instance" -- $"nestjs_app")
                      ]
                    ]
                  ]
                ];
                with_ (Cluster (str "Messaging Namespace") []) None [
                  with_ (Cluster (str "RabbitMQ Cluster") []) None [
                    "rabbitmq_sts" ::= StatefulSet "StatefulSet" [];
                    "rabbitmq_pods" ::= PyList [Pod "Pod 1" []; Pod "Pod 2" []];
                    "rabbitmq_service" ::= Service "Service (Headless)" [];
                    expr ($"rabbitmq_sts" >> $"rabbitmq_pods");
                    expr ($"rabbitmq_service" >> $"rabbitmq_sts")
                  ]
                ];
                with_ (Cluster (str "Kubernetes System & Config") []) None [
                  "kube_api" ::= APIServer "Kube API Server (Control Plane)" [];
                  "config_maps" ::= StorageClass "ConfigMaps" [];
                  "secrets" ::= StorageClass "Sealed Secrets" [];
                  expr ($"eks_control_plane" -- $"kube_api")
                ]
              ]
            ];
            with_ (Cluster (str "Databases (Managed AWS Services)") []) None [
              "user_db" ::= RDS "User DB (Postgres)" [];
              "product_db" ::= RDS "Product DB (Postgres)" [];
              "order_db" ::= RDS "Order DB (Postgres)" [];
              "cache_redis" ::= ElastiCache "Cache (Redis)" []
            ];
            expr ($"user" >> $"alb"
                >> PyList [$"user_svc_service"; $"product_svc_service";
                $"order_svc_service"]);
            expr ($"igw" >> $"alb");
            for_ "node_instance" $"nodes" [
              expr ($"nat_gw" << Edge [("label", "egress")] << $"node_instance")
            ];
            expr ($"user_svc_deploy" >> Edge [("label", "reads/writes")]
                >> $"user_db");
            expr ($"user_svc_deploy" >> Edge [("label", "reads/writes")]
                >> $"cache_redis");
            expr ($"product_svc_deploy" >> Edge [("label", "reads/writes")]
                >> $"product_db");
            expr ($"order_svc_deploy" >> Edge [("label", "reads/writes")]
                >> $"order_db");
            expr ($"order_svc_deploy"
                >> Edge [("label", "K8s DNS"); ("style", "dashed")]
                >> $"user_svc_service");
            expr ($"order_svc_deploy"
                >> Edge [("label", "K8s DNS"); ("style", "dashed")]
                >> $"product_svc_service");
            for_ "svc_deploy" (PyList [$"user_svc_deploy";
                $"product_svc_deploy"; $"order_svc_deploy"]) [
              expr ($"svc_deploy"
                  >> Edge [("label", "AMQP"); ("style", "dashed")]
                  >> $"rabbitmq_service");
              expr ($"svc_deploy"
                  >> Edge [("color", "darkgreen"); ("style", "dashed");
                  ("label", "metrics")] >> $"prometheus");
              expr ($"svc_deploy"
                  >> Edge [("color", "blue"); ("style", "dashed");
                  ("label", "traces")] >> $"jaeger_collector");
              expr ($"svc_deploy"
                  >> Edge [("color", "orange"); ("style", "dotted");
                  ("label", "uses")] >> $"config_maps");
              expr ($"svc_deploy"
                  >> Edge [("color", "red"); ("style", "dotted");
                  ("label", "uses")] >> $"secrets")
            ]
          ]
        ]
      ]
    ];
    expr ($"github_actions" >> Edge [("label", "docker push")] >> $"ecr");
    expr ($"github_actions" >> Edge [("label", "kubectl apply/helm upgrade")]
        >> $"eks_control_plane");
    for_ "node_instance" $"nodes" [
      expr ($"ecr" >> Edge [("label", "docker pull")] >> $"node_instance")
    ]
  ];
  expr ($"diag")
].

End aws_eks_deployment_diagram.


(** *** [deployment/cicd_pipeline_diagram.py] *)

Module cicd_pipeline_diagram.
Import diagrams.

Definition GithubActions := Node "diagrams.onprem.ci.GithubActions".
Definition Github := Node "diagrams.onprem.vcs.Github".
Definition Git := Node "diagrams.onprem.vcs.Git".
Definition Codebuild := Node "diagrams.aws.devtools.Codebuild".
Definition Codepipeline := Node "diagrams.aws.devtools.Codepipeline".
Definition CloudwatchEventEventBased := Node "diagrams.aws.management.CloudwatchEventEventBased".
Definition SystemsManagerParameterStore := Node "diagrams.aws.management.SystemsManagerParameterStore".
Definition ECR := Node "diagrams.aws.compute.ECR".
Definition S3 := Node "diagrams.aws.storage.S3".
Definition IAM := Node "diagrams.aws.security.IAM".
Definition SecretsManager := Node "diagrams.aws.security.SecretsManager".
Definition Deployment := Node "diagrams.k8s.compute.Deployment".
Definition Helm := Node "diagrams.k8s.ecosystem.Helm".
Definition Docker := Node "diagrams.onprem.container.Docker".
Definition Nodejs := Node "diagrams.programming.language.Nodejs".
Definition User := Node "diagrams.onprem.client.User".
Definition Client := Node "diagrams.onprem.client.Client".
Definition Internet := Node "diagrams.onprem.network.Internet".
Definition EKS := Node "diagrams.aws.compute.EKS".

Definition graph_attr : Attrs :=
  [("fontsize", "45");
   ("bgcolor", "transparent")].

Definition main : Script := [
  with_ (Diagram (str "CI/CD Pipeline - E-commerce Platform")
      [("show", VBool false); ("direction", VStr "LR");
      ("outformat", VStr "jpg"); ("filename", VStr "cicd_pipeline_diagram");
      ("graph_attr", VDict graph_attr)]) None [
    "developer" ::= User "Developer" [];
    with_ (Cluster (str "Source Code Management") []) None [
      "repo" ::= Github "GitHub Repository" [];
      "pr" ::= Github "Pull Request" [];
      "code" ::= Git "Feature Branch" [];
      "main" ::= Git "Main Branch" [];
      expr ($"developer" >> $"code");
      expr ($"code" >> $"pr");
      expr ($"pr" >> $"main");
      expr ($"main" >> $"repo")
    ];
    with_ (Cluster (str "CI/CD Pipeline (GitHub Actions)") []) None [
      with_ (Cluster (str "Continuous Integration") []) None [
        "ci_workflow" ::= GithubActions "CI Workflow" [];
        with_ (Cluster (str "Build & Test") []) None [
          "unit_tests" ::= GithubActions "Unit Tests" [];
          "integration_tests" ::= GithubActions "Integration Tests" [];
          "static_analysis" ::= GithubActions "Static Analysis" [];
          "linter" ::= GithubActions "Linter" [];
          "build" ::= Docker "Build Container" []
        ];
        with_ (Cluster (str "Security Checks") []) None [
          "sast" ::= GithubActions "SAST Scan" [];
          "dependency_check" ::= GithubActions "Dependency Scan" [];
          "secrets_scan" ::= GithubActions "Secrets Scan" []
        ];
        expr ($"ci_workflow" >> $"unit_tests");
        expr ($"ci_workflow" >> $"integration_tests");
        expr ($"ci_workflow" >> $"static_analysis");
        expr ($"ci_workflow" >> $"linter");
        expr ($"ci_workflow" >> $"build");
        expr ($"ci_workflow" >> $"dependency_check");
        expr ($"ci_workflow" >> $"sast");
        expr ($"ci_workflow" >> $"secrets_scan")
      ];
      with_ (Cluster (str "Continuous Delivery") []) None [
        "cd_workflow" ::= GithubActions "CD Workflow" [];
        with_ (Cluster (str "Artifact Creation & Storage") []) None [
          "ecr" ::= ECR "Container Registry" [];
          "version" ::= GithubActions "Semantic Versioning" []
        ];
        with_ (Cluster (str "Deployment") []) None [
          "helm" ::= Helm "Helm Charts" [];
          "deploy_dev" ::= GithubActions "Deploy to Dev" [];
          "deploy_stage" ::= GithubActions "Deploy to Staging" [];
          "deploy_prod" ::= GithubActions "Deploy to Production" []
        ];
        expr ($"cd_workflow" >> $"version");
        expr ($"build" >> $"ecr");
        expr ($"cd_workflow" >> $"helm");
        expr ($"cd_workflow" >> $"deploy_dev");
        expr ($"deploy_dev" >> $"deploy_stage");
        expr ($"deploy_stage" >> $"deploy_prod")
      ]
    ];
    with_ (Cluster (str "Kubernetes Environments") []) None [
      "dev" ::= EKS "Development" [];
      "staging" ::= EKS "Staging" [];
      "prod" ::= EKS "Production" [];
      expr ($"deploy_dev" >> $"dev");
      expr ($"deploy_stage" >> $"staging");
      expr ($"deploy_prod" >> $"prod")
    ];
    expr ($"pr"
        >> Edge [("color", "green"); ("style", "dashed"); ("label", "triggers")]
        >> $"ci_workflow");
    expr ($"main"
        >> Edge [("color", "blue"); ("style", "dashed"); ("label", "triggers")]
        >> $"cd_workflow");
    "approver" ::= Client "Release Manager" [];
    expr ($"approver" >> Edge [("color", "red"); ("label", "approves")]
        >> $"deploy_prod")
  ]
].

End cicd_pipeline_diagram.


(** *** [deployment/disaster_recovery_deployment_diagram.py] *)

Module disaster_recovery_deployment_diagram.
Import diagrams.

Definition EKS := Node "diagrams.aws.compute.EKS".
Definition EC2 := Node "diagrams.aws.compute.EC2".
Definition Lambda := Node "diagrams.aws.compute.Lambda".
Definition ELB := Node "diagrams.aws.network.ELB".
Definition VPC := Node "diagrams.aws.network.VPC".
Definition Route53 := Node "diagrams.aws.network.Route53".
Definition CloudFront := Node "diagrams.aws.network.CloudFront".
Definition DirectConnect := Node "diagrams.aws.network.DirectConnect".
Definition RDS := Node "diagrams.aws.database.RDS".
Definition ElastiCache := Node "diagrams.aws.database.ElastiCache".
Definition Aurora := Node "diagrams.aws.database.Aurora".
Definition Database := Node "diagrams.aws.database.Database".
Definition S3 := Node "diagrams.aws.storage.S3".
Definition CloudwatchEventEventBased := Node "diagrams.aws.management.CloudwatchEventEventBased".
Definition Cloudwatch := Node "diagrams.aws.management.Cloudwatch".
Definition AutoScaling := Node "diagrams.aws.management.AutoScaling".
Definition SQS := Node "diagrams.aws.integration.SQS".
Definition SNS := Node "diagrams.aws.integration.SNS".
Definition MQ := Node "diagrams.aws.integration.MQ".
Definition WAF := Node "diagrams.aws.security.WAF".
Definition SecretsManager := Node "diagrams.aws.security.SecretsManager".
Definition General := Node "diagrams.aws.general.General".
Definition Deployment := Node "diagrams.k8s.compute.Deployment".
Definition Service := Node "diagrams.k8s.network.Service".
Definition Client := Node "diagrams.onprem.client.Client".
Definition Users := Node "diagrams.onprem.client.Users".
Definition Internet := Node "diagrams.onprem.network.Internet".

Definition graph_attr : Attrs :=
  [("fontsize", "45");
   ("bgcolor", "transparent")].

Definition main : Script := [
  with_ (Diagram (str "Disaster Recovery Deployment - E-commerce Platform")
      [("show", VBool false); ("direction", VStr "TB");
      ("outformat", VStr "jpg");
      ("filename", VStr "disaster_recovery_deployment_diagram");
      ("graph_attr", VDict graph_attr)]) None [
    "users" ::= Users "Global Users" [];
    "internet" ::= Internet "Internet" [];
    with_ (Cluster (str "Global AWS Resources") []) None [
      "dns" ::= Route53 "Route53 with Health Checks" [];
      "cdn" ::= CloudFront "CloudFront CDN" [];
      "static_content" ::= S3 "S3 - Static Content" [];
      "waf" ::= WAF "WAF" []
    ];
    with_ (Cluster (str "Primary Region (us-east-1)") []) None [
      with_ (Cluster (str "Primary Infrastructure") []) None [
        "primary_vpc" ::= VPC "Primary VPC" [];
        "primary_alb" ::= ELB "Primary ALB" [];
        with_ (Cluster (str "Primary EKS Cluster") []) None [
          "primary_eks" ::= EKS "Primary EKS" [];
          with_ (Cluster (str "Primary Microservices") []) None [
            "primary_services" ::= PyList [
                Deployment "User Service (Active)" [];
                Deployment "Order Service (Active)" [];
                Deployment "Product Service (Active)" [];
                Deployment "Payment Service (Active)" []
              ];
            "primary_service_mesh" ::= Service "Service Mesh" [];
            for_ "svc" $"primary_services" [
              expr ($"svc" >> $"primary_service_mesh")
            ]
          ]
        ];
        with_ (Cluster (str "Primary Data Storage") []) None [
          "primary_db" ::= Aurora "Aurora Primary Cluster" [];
          "primary_db_replica" ::= Aurora "Aurora Read Replica" [];
          "primary_cache" ::= ElastiCache "ElastiCache (Redis Cluster)" [];
          "primary_rabbit" ::= MQ "RabbitMQ - Primary" [];
          expr ($"primary_db" >> Edge [("label", "sync replication")]
              >> $"primary_db_replica")
        ];
        "primary_monitor" ::= Cloudwatch "CloudWatch Primary" [];
        "primary_scaling" ::= AutoScaling "AutoScaling" []
      ]
    ];
    with_ (Cluster (str "DR Region (us-west-2)") []) None [
      with_ (Cluster (str "DR Infrastructure") []) None [
        "dr_vpc" ::= VPC "DR VPC" [];
        "dr_alb" ::= ELB "DR ALB (Standby)" [];
        with_ (Cluster (str "DR EKS Cluster") []) None [
          "dr_eks" ::= EKS "DR EKS" [];
          with_ (Cluster (str "DR Microservices") []) None [
            "dr_services" ::= PyList [
                Deployment "User Service (Standby)" [];
                Deployment "Order Service (Standby)" [];
                Deployment "Product Service (Standby)" [];
                Deployment "Payment Service (Standby)" []
              ];
            "dr_service_mesh" ::= Service "Service Mesh" [];
            for_ "svc" $"dr_services" [
              expr ($"svc" >> $"dr_service_mesh")
            ]
          ]
        ];
        with_ (Cluster (str "DR Data Storage") []) None [
          "dr_db" ::= Aurora "Aurora DR Cluster" [];
          "dr_cache" ::= ElastiCache "ElastiCache (Redis Cluster)" [];
          "dr_rabbit" ::= MQ "RabbitMQ - DR" []
        ];
        "dr_monitor" ::= Cloudwatch "CloudWatch DR" [];
        "dr_scaling" ::= AutoScaling "AutoScaling" []
      ]
    ];
    with_ (Cluster (str "Cross-Region Resources") []) None [
      "s3_backup" ::= S3 "Cross-Region Backup Bucket" [];
      "events" ::= SNS "SNS for Cross-Region Events" [];
      "failover" ::= Route53 "R53 Failover" [];
      "db_replication" ::= Edge [("label", "async replication");
          ("style", "dashed"); ("color", "blue")];
      expr ($"primary_db" >> $"db_replication" >> $"dr_db");
      expr ($"primary_rabbit"
          >> Edge [("label", "mirror queue"); ("style", "dashed");
          ("color", "orange")] >> $"dr_rabbit");
      expr ($"primary_db" >> Edge [("label", "backup"); ("style", "dotted")]
          >> $"s3_backup");
      expr ($"s3_backup"
          >> Edge [("label", "restore if needed"); ("style", "dotted")]
          >> $"dr_db")
    ];
    expr ($"users" >> $"internet");
    expr ($"internet" >> $"dns");
    expr ($"dns" >> $"cdn");
    expr ($"cdn" >> $"static_content");
    expr ($"dns" >> Edge [("color", "green"); ("label", "active")] >> $"waf"
        >> $"primary_alb" >> $"primary_eks");
    expr ($"dns"
        >> Edge [("color", "red"); ("style", "dashed"); ("label", "standby")]
        >> $"dr_alb");
    expr ($"primary_monitor" >> $"events");
    expr ($"dr_monitor" >> $"events");
    expr ($"events" >> $"failover");
    expr ($"failover"
        >> Edge [("color", "red"); ("style", "bold");
        ("label", "failover trigger")] >> $"dns");
    expr ($"primary_monitor"
        >> Edge [("style", "dotted"); ("label", "health check")]
        >> index $"primary_services" 0);
    expr ($"dr_monitor" >> Edge [("style", "dotted"); ("label", "health check")]
        >> index $"dr_services" 0)
  ]
].

End disaster_recovery_deployment_diagram.


(** *** [deployment/multi_environment_deployment_diagram.py] *)

Module multi_environment_deployment_diagram.
Import diagrams.

Definition EKS := Node "diagrams.aws.compute.EKS".
Definition EC2 := Node "diagrams.aws.compute.EC2".
Definition ELB := Node "diagrams.aws.network.ELB".
Definition VPC := Node "diagrams.aws.network.VPC".
Definition PrivateSubnet := Node "diagrams.aws.network.PrivateSubnet".
Definition PublicSubnet := Node "diagrams.aws.network.PublicSubnet".
Definition InternetGateway := Node "diagrams.aws.network.InternetGateway".
Definition NATGateway := Node "diagrams.aws.network.NATGateway".
Definition RDS := Node "diagrams.aws.database.RDS".
Definition ElastiCache := Node "diagrams.aws.database.ElastiCache".
Definition S3 := Node "diagrams.aws.storage.S3".
Definition IAM := Node "diagrams.aws.security.IAM".
Definition SecretsManager := Node "diagrams.aws.security.SecretsManager".
Definition Deployment := Node "diagrams.k8s.compute.Deployment".
Definition Pod := Node "diagrams.k8s.compute.Pod".
Definition StatefulSet := Node "diagrams.k8s.compute.StatefulSet".
Definition Service := Node "diagrams.k8s.network.Service".
Definition PV := Node "diagrams.k8s.storage.PV".
Definition Prometheus := Node "diagrams.onprem.monitoring.Prometheus".
Definition Grafana := Node "diagrams.onprem.monitoring.Grafana".
Definition Jaeger := Node "diagrams.onprem.tracing.Jaeger".
Definition FluentBit := Node "diagrams.onprem.logging.FluentBit".
Definition RabbitMQ := Node "diagrams.onprem.queue.RabbitMQ".
Definition GithubActions := Node "diagrams.onprem.ci.GithubActions".
Definition Nodejs := Node "diagrams.programming.language.Nodejs".
Definition Client := Node "diagrams.onprem.client.Client".
Definition User := Node "diagrams.onprem.client.User".

Definition graph_attr : Attrs :=
  [("fontsize", "45");
   ("bgcolor", "transparent")].

Definition main : Script := [
  with_ (Diagram (str "Multi-Environment Deployment - E-commerce Platform")
      [("show", VBool false); ("direction", VStr "TB");
      ("outformat", VStr "jpg");
      ("filename", VStr "multi_environment_deployment_diagram");
      ("graph_attr", VDict graph_attr)]) None [
    "developers" ::= User "Developers" [];
    "qa_team" ::= User "QA Team" [];
    "business" ::= User "Business Users" [];
    "customers" ::= Client "Customers" [];
    with_ (Cluster (str "CI/CD Pipeline") []) None [
      "cicd" ::= GithubActions "GitHub Actions" []
    ];
    with_ (Cluster (str "Development Environment") []) None [
      with_ (Cluster (str "AWS Dev Account") []) None [
        "dev_vpc" ::= VPC "Dev VPC" [];
        with_ (Cluster (str "Dev EKS Cluster (Small)") []) None [
          "dev_eks" ::= EKS "Dev EKS" [];
          with_ (Cluster (str "Dev Namespace: Core") []) None [
            "dev_user_svc" ::= Deployment "User Service (1 replica)" [];
            "dev_order_svc" ::= Deployment "Order Service (1 replica)" [];
            "dev_product_svc" ::= Deployment "Product Service (1 replica)" []
          ];
          with_ (Cluster (str "Dev Namespace: Infrastructure") []) None [
            "dev_rabbitmq" ::= StatefulSet "RabbitMQ (1 node)" [];
            "dev_monitoring" ::= Prometheus "Prometheus (minimal)" []
          ]
        ];
        "dev_dbs" ::= RDS "Shared Dev DB (Small)" [];
        "dev_cache" ::= ElastiCache "Dev Cache (t3.small)" [];
        "dev_elb" ::= ELB "Dev Internal ALB" []
      ]
    ];
    with_ (Cluster (str "Staging Environment") []) None [
      with_ (Cluster (str "AWS Staging Account") []) None [
        "stage_vpc" ::= VPC "Staging VPC" [];
        with_ (Cluster (str "Staging EKS Cluster (Medium)") []) None [
          "stage_eks" ::= EKS "Staging EKS" [];
          with_ (Cluster (str "Staging Namespace: Core") []) None [
            "stage_user_svc" ::= Deployment "User Service (2 replicas)" [];
            "stage_order_svc" ::= Deployment "Order Service (2 replicas)" [];
            "stage_product_svc" ::= Deployment "Product Service (2 replicas)" []
          ];
          with_ (Cluster (str "Staging Namespace: Infrastructure") []) None [
            "stage_rabbitmq" ::= StatefulSet "RabbitMQ (3 nodes)" [];
            "stage_monitoring" ::= Prometheus "Full Monitoring Stack" [];
            "stage_tracing" ::= Jaeger "Jaeger Tracing" []
          ]
        ];
        "stage_dbs" ::= RDS "Staging DB (Medium)" [];
        "stage_cache" ::= ElastiCache "Staging Cache (m5.large)" [];
        "stage_elb" ::= ELB "Staging ALB" []
      ]
    ];
    with_ (Cluster (str "Production Environment") []) None [
      with_ (Cluster (str "AWS Production Account") []) None [
        "prod_vpc" ::= VPC "Production VPC" [];
        with_ (Cluster (str "Production EKS Cluster (Large)") []) None [
          "prod_eks" ::= EKS "Production EKS" [];
          with_ (Cluster (str "Production Namespace: Core") []) None [
            "prod_user_svc" ::= Deployment "User Service (3+ replicas, HPA)" [];
            "prod_order_svc" ::=
                Deployment "Order Service (3+ replicas, HPA)" [];
            "prod_product_svc" ::=
                Deployment "Product Service (3+ replicas, HPA)" []
          ];
          with_ (Cluster (str "Production Namespace: Infrastructure") []) None [
            "prod_rabbitmq" ::= StatefulSet "RabbitMQ (3+ nodes)" [];
            "prod_monitoring" ::= Prometheus "Full Monitoring + Alerting" [];
            "prod_tracing" ::= Jaeger "Distributed Tracing" [];
            "prod_logging" ::= FluentBit "Centralized Logging" []
          ]
        ];
        "prod_dbs" ::= RDS "Production DB Cluster (m5.xlarge)" [];
        "prod_cache" ::= ElastiCache "Production Cache Cluster" [];
        "prod_elb" ::= ELB "Production ALB with WAF" [];
        "prod_backup" ::= S3 "Backup Bucket" [];
        "prod_secrets" ::= SecretsManager "Enhanced Secrets" []
      ]
    ];
    expr ($"developers" >> $"dev_elb");
    expr ($"developers" >> $"stage_elb");
    expr ($"qa_team" >> $"stage_elb");
    expr ($"business" >> $"stage_elb");
    expr ($"customers" >> $"prod_elb");
    expr ($"cicd"
        >> Edge [("color", "blue"); ("label", "continuous deployment")]
        >> $"dev_eks");
    expr ($"cicd" >> Edge [("color", "green"); ("label", "on approved PR")]
        >> $"stage_eks");
    expr ($"cicd" >> Edge [("color", "red"); ("label", "manual release")]
        >> $"prod_eks");
    expr ($"dev_user_svc" >> $"dev_dbs");
    expr ($"dev_user_svc" >> $"dev_cache");
    expr ($"dev_order_svc" >> $"dev_rabbitmq");
    expr ($"stage_user_svc" >> $"stage_dbs");
    expr ($"stage_user_svc" >> $"stage_cache");
    expr ($"stage_order_svc" >> $"stage_rabbitmq");
    expr ($"prod_user_svc" >> $"prod_dbs");
    expr ($"prod_user_svc" >> $"prod_cache");
    expr ($"prod_order_svc" >> $"prod_rabbitmq");
    expr ($"prod_dbs" >> $"prod_backup");
    expr ($"dev_vpc"
        -- Edge [("style", "dotted"); ("color", "red"); ("label", "isolated")]
        -- $"stage_vpc");
    expr ($"stage_vpc"
        -- Edge [("style", "dotted"); ("color", "red"); ("label", "isolated")]
        -- $"prod_vpc")
  ]
].

End multi_environment_deployment_diagram.


(** *** [deployment/observability_stack_diagram.py] *)

Module observability_stack_diagram.
Import diagrams.

Definition Prometheus := Node "diagrams.onprem.monitoring.Prometheus".
Definition Grafana := Node "diagrams.onprem.monitoring.Grafana".
Definition Loki := Node "diagrams.onprem.logging.Loki".
Definition FluentBit := Node "diagrams.onprem.logging.FluentBit".
Definition Jaeger := Node "diagrams.onprem.tracing.Jaeger".
Definition Tempo := Node "diagrams.onprem.tracing.Tempo".
Definition Cloudwatch := Node "diagrams.aws.management.Cloudwatch".
Definition Deployment := Node "diagrams.k8s.compute.Deployment".
Definition Pod := Node "diagrams.k8s.compute.Pod".
Definition StatefulSet := Node "diagrams.k8s.compute.StatefulSet".
Definition DaemonSet := Node "diagrams.k8s.compute.DaemonSet".
Definition Service := Node "diagrams.k8s.network.Service".
Definition S3 := Node "diagrams.aws.storage.S3".
Definition RabbitMQ := Node "diagrams.onprem.queue.RabbitMQ".
Definition Internet := Node "diagrams.onprem.network.Internet".
Definition Nodejs := Node "diagrams.programming.language.Nodejs".
Definition User := Node "diagrams.onprem.client.User".
Definition Client := Node "diagrams.onprem.client.Client".

Definition graph_attr : Attrs :=
  [("fontsize", "45");
   ("bgcolor", "transparent")].

Definition main : Script := [
  with_ (Diagram (str "Observability Stack - E-commerce Platform")
      [("show", VBool false); ("direction", VStr "TB");
      ("outformat", VStr "jpg");
      ("filename", VStr "observability_stack_diagram");
      ("graph_attr", VDict graph_attr)]) None [
    "sre" ::= User "SRE Team" [];
    "developer" ::= User "Developers" [];
    "business" ::= Client "Business Analysts" [];
    with_ (Cluster (str "Microservice Instrumentation") []) None [
      "user_svc" ::= Nodejs "User Service" [];
      "order_svc" ::= Nodejs "Order Service" [];
      "product_svc" ::= Nodejs "Product Service" [];
      "payment_svc" ::= Nodejs "Payment Service" []
    ];
    with_ (Cluster (str "Monitoring & Alerting (PGA Stack)") []) None [
      with_ (Cluster (str "Metrics Collection & Storage") []) None [
        "prometheus" ::= Prometheus "Prometheus" [];
        "prom_am" ::= Prometheus "Alertmanager" [];
        "prom_stateful" ::= StatefulSet "Prometheus StatefulSet" [];
        "prom_service" ::= Service "Prometheus Service" [];
        expr ($"prometheus" -- $"prom_stateful");
        expr ($"prometheus" -- $"prom_service");
        expr ($"prometheus" -- $"prom_am")
      ];
      with_ (Cluster (str "Visualization") []) None [
        "grafana" ::= Grafana "Grafana" [];
        "grafana_deploy" ::= Deployment "Grafana Deployment" [];
        "grafana_svc" ::= Service "Grafana Service" [];
        expr ($"grafana" -- $"grafana_deploy");
        expr ($"grafana" -- $"grafana_svc")
      ];
      "slo_dash" ::= Grafana "SLO Dashboards" [];
      "service_dash" ::= Grafana "Service Dashboards" [];
      expr ($"grafana" >> $"slo_dash");
      expr ($"grafana" >> $"service_dash")
    ];
    with_ (Cluster (str "Distributed Tracing (OpenTelemetry)") []) None [
      "otel_collector" ::= Deployment "OpenTelemetry Collector" [];
      with_ (Cluster (str "Trace Storage & Visualization") []) None [
        "jaeger_collector" ::= Jaeger "Jaeger Collector" [];
        "jaeger_query" ::= Jaeger "Jaeger Query" [];
        "jaeger_svc" ::= Service "Jaeger Service" [];
        expr ($"jaeger_collector" -- $"jaeger_query");
        expr ($"jaeger_query" -- $"jaeger_svc")
      ]
    ];
    with_ (Cluster (str "Logging Infrastructure") []) None [
      "fluentbit" ::= FluentBit "FluentBit DaemonSet" [];
      "loki" ::= Loki "Loki" [];
      "loki_svc" ::= Service "Loki Service" [];
      "logs_bucket" ::= S3 "Log Archives" [];
      expr ($"fluentbit" >> $"loki");
      expr ($"loki" -- $"loki_svc");
      expr ($"loki" >> $"logs_bucket")
    ];
    expr ($"prometheus"
        >> Edge [("color", "darkgreen"); ("label", "scrapes metrics");
        ("style", "dashed")] >> $"otel_collector");
    for_ "service" (PyList [$"user_svc"; $"order_svc"; $"product_svc";
        $"payment_svc"]) [
      expr ($"service" >> Edge [("color", "darkgreen"); ("label", "metrics")]
          >> $"prometheus");
      expr ($"service" >> Edge [("color", "darkblue"); ("label", "traces")]
          >> $"otel_collector");
      expr ($"service" >> Edge [("color", "darkorange"); ("label", "logs")]
          >> $"fluentbit")
    ];
    expr ($"otel_collector" >> $"jaeger_collector");
    expr ($"sre" >> Edge [("color", "blue")] >> $"grafana");
    expr ($"sre" >> Edge [("color", "red")] >> $"prom_am");
    expr ($"developer" >> Edge [("color", "blue")] >> $"jaeger_query");
    expr ($"prometheus" << Edge [("label", "data source"); ("style", "dotted")]
        << $"grafana");
    expr ($"loki" << Edge [("label", "data source"); ("style", "dotted")]
        << $"grafana");
    expr ($"jaeger_query"
        << Edge [("label", "data source"); ("style", "dotted")] << $"grafana");
    expr ($"business" >> Edge [("color", "green")] >> $"service_dash")
  ]
].

End observability_stack_diagram.


(** The sixteen scripts of the repository. *)
Definition all_scripts : list (string * Script) :=
  [("c1_system_context_diagram", c1_system_context_diagram.main);
   ("c2_container_diagram", c2_container_diagram.main);
   ("c3_inventory_service_diagram", c3_inventory_service_diagram.main);
   ("c3_notification_service_diagram", c3_notification_service_diagram.main);
   ("c3_order_service_diagram", c3_order_service_diagram.main);
   ("c3_payment_service_diagram", c3_payment_service_diagram.main);
   ("c3_product_service_diagram", c3_product_service_diagram.main);
   ("c3_search_service_diagram", c3_search_service_diagram.main);
   ("c3_user_service_diagram", c3_user_service_diagram.main);
   ("communication_styles_patterns_diagram",
    communication_styles_patterns_diagram.main);
   ("data_flow_diagram", data_flow_diagram.main);
   ("aws_eks_deployment_diagram", aws_eks_deployment_diagram.main);
   ("cicd_pipeline_diagram", cicd_pipeline_diagram.main);
   ("disaster_recovery_deployment_diagram",
    disaster_recovery_deployment_diagram.main);
   ("multi_environment_deployment_diagram",
    multi_environment_deployment_diagram.main);
   ("observability_stack_diagram", observability_stack_diagram.main)].

(** * What a run has declared *)

Local Open Scope list_scope.

Definition nodes (w : World) : list NodeObj :=
  omap (fun d => match d with DNode n => Some n | _ => None end) (graph w).

Definition clusters (w : World) : list ClusterObj :=
  omap (fun d => match d with DCluster c => Some c | _ => None end) (graph w).

(** A declared edge draws an arrow from its tail to its head when its
    direction is [forward], from its head to its tail when it is [back], both
    when it is [both], and a plain line otherwise.  An [Arrow] is the source,
    the target and the label. *)
Record Arrow := mkArrow {
  source : NodeObj;
  target : NodeObj;
  label : string
}.

Definition arrows_of (d : Decl) : list Arrow :=
  match d with
  | DEdge _ t h a =>
      let l := default "" (dict_get "label" a) in
      match dict_get "dir" a with
      | Some dir =>
          if decide (dir = "forward") then [mkArrow t h l]
          else if decide (dir = "back") then [mkArrow h t l]
          else if decide (dir = "both") then [mkArrow t h l; mkArrow h t l]
          else []
      | None => []
      end
  | _ => []
  end.

Definition arrows (w : World) : list Arrow :=
  concat (map arrows_of (graph w)).

(** Undirected lines, as the operator [-] declares them. *)
Definition lines (w : World) : list (NodeObj * NodeObj) :=
  omap (fun d => match d with
                 | DEdge _ t h a =>
                     if decide (dict_get "dir" a = Some "none")
                     then Some (t, h) else None
                 | _ => None
                 end) (graph w).

(** The node a name of the script is bound to when the run ends. *)
Definition node_named (w : World) (x : string) : option NodeObj :=
  match globals w !! x with
  | Some (VNode n) => Some n
  | _ => None
  end.

(** Two references to the same Python object. *)
Definition same_node (n m : NodeObj) : bool := (nd_key n =? nd_key m)%nat.

Definition inbound (w : World) (n : NodeObj) : list Arrow :=
  filter (fun a => same_node (target a) n) (arrows w).

Definition outbound (w : World) (n : NodeObj) : list Arrow :=
  filter (fun a => same_node (source a) n) (arrows w).

(** The cluster a node was registered in, by label. *)
Definition cluster_of (w : World) (n : NodeObj) : option string :=
  k ← nd_cluster n;
  c ← list_find (fun c => cl_key c = k) (clusters w);
  Some (cl_label c.2).

(** A run in which neither the package nor the layout program fails. *)
Definition calm (a : list string) (v : list (string * string))
    (d : gmap string File) (u : nat -> string) (r : nat -> DotFile -> nat)
  : ProcessEnv := mkEnv a v d u r no_faults.

(** The declared edges: tail, head and attributes. *)
Definition edges (w : World) : list (NodeObj * NodeObj * Attrs) :=
  omap (fun d => match d with DEdge _ t h a => Some (t, h, a) | _ => None end)
       (graph w).

(** The state after one successful connection: the clock has advanced and
    one edge is appended. *)
Definition connected (self n : NodeObj) (e : EdgeObj) (w : World) : World :=
  set_graph (graph w ++
             [DEdge (nd_diagram self) self n (diagrams.Edge_attrs e)])
            (set_clock (S (clock w)) w).

(** The edges [x >> y] and [x << y] declare when no [Edge] object is given. *)
Definition forward_edge (x y : NodeObj) : Decl :=
  DEdge (nd_diagram x) x y [("dir", "forward")].
Definition back_edge (x y : NodeObj) : Decl :=
  DEdge (nd_diagram x) x y [("dir", "back")].

(** ** Dangling references *)

Fixpoint find_node (k : nat) (seen : list NodeObj) : option NodeObj :=
  match seen with
  | [] => None
  | n :: r => if decide (nd_key n = k) then Some n else find_node k r
  end.

(** Walking the declarations in order, every edge finds both its ends among
    the nodes declared before it, in its own diagram. *)
Fixpoint resolves (seen : list NodeObj) (g : list Decl) : Prop :=
  match g with
  | [] => True
  | DNode n :: r => resolves (n :: seen) r
  | DEdge dg t h _ :: r =>
      find_node (nd_key t) seen = Some t /\
      find_node (nd_key h) seen = Some h /\
      nd_diagram t = dg /\ nd_diagram h = dg /\
      resolves seen r
  | _ :: r => resolves seen r
  end.

(** ** Nesting of clusters *)

(** The hand-overs of a cluster to its parent ([Some p]) or to the diagram
    ([None]), as they were declared. *)
Definition subgraphs (g : list Decl) : list (option nat * nat) :=
  omap (fun d => match d with
                 | DSubgraph _ p c => Some (p, c)
                 | _ => None
                 end) g.

(** Cluster [p] directly contains cluster [c]. *)
Definition contains (g : list Decl) (p c : nat) : Prop :=
  (Some p, c) ∈ subgraphs g.

Definition cluster_keys (g : list Decl) : list nat :=
  omap (fun d => match d with DCluster c => Some (cl_key c) | _ => None end) g.

(** What makes the nesting a forest: every cluster is handed over once, to a
    cluster constructed before it (or to the diagram), and both are clusters
    of the run. *)
Definition well_nested (g : list Decl) (pc : option nat * nat) : Prop :=
  pc.2 ∈ cluster_keys g /\
  match pc.1 with
  | Some p => p < pc.2 /\ p ∈ cluster_keys g
  | None => True
  end.

#[local] Instance well_nested_dec g pc : Decision (well_nested g pc).
Proof. unfold well_nested. destruct pc as [[p|] c]; simpl; apply _. Defined.

Definition nested_once (g : list Decl) : Prop :=
  NoDup (subgraphs g).*2 /\ Forall (well_nested g) (subgraphs g).

(** ** The logical graph *)

Definition anonymous (n : NodeObj) : NodeObj :=
  mkNode (nd_key n) "" (nd_class n) (nd_label n) (nd_attrs n) (nd_cluster n)
         (nd_diagram n).

(** A declaration without the random identifiers. *)
Definition logical_decl (d : Decl) : Decl :=
  match d with
  | DNode n => DNode (anonymous n)
  | DEdge dg t h a => DEdge dg (anonymous t) (anonymous h) a
  | _ => d
  end.

Definition logical_graph (w : World) : list Decl := logical_decl <$> graph w.

(** ** The system-context and the container script *)

Definition is_actor (n : NodeObj) : Prop :=
  nd_class n = "diagrams.onprem.client.User".

#[local] Instance is_actor_dec n : Decision (is_actor n).
Proof. unfold is_actor. apply _. Defined.

(** The number of arrows that leave the object with key [k]. *)
Definition out_degree (w : World) (k : nat) : nat :=
  length (filter (fun a => same_node (source a) (mkNode k "" "" "" [] None 0))
                 (arrows w)).

(** An environment with empty command line, environment variables and disk,
    in which nothing fails. *)
Definition quiet_env : ProcessEnv :=
  calm [] [] ∅ (fun _ => "") (fun _ _ => 0).

(** One run of the container script and one of the system-context script. *)
Definition container_run : World :=
  final (run c2_container_diagram.main quiet_env).

Definition context_run : World :=
  final (run c1_system_context_diagram.main quiet_env).

(** ** Failures

    A computation is [polite] when it keeps to the discipline every script
    relies on: it prints nothing, it ends with an exception exactly when an
    exception was raised while it ran, and it ends normally only if none of
    the steps it took was made to fail by the environment. *)

Definition raises (evs : list Event) : Prop := exists x, EvRaise x ∈ evs.
Definition prints (evs : list Event) : Prop := exists l, EvPrint l ∈ evs.

Record outcome {A} (w : World) (r : Res A) (evs : list Event) : Prop := {
  oc_trace : trace (final r) = trace w ++ evs;
  oc_env : env (final r) = env w;
  oc_clock : clock w <= clock (final r);
  oc_quiet : ~ prints evs;
  oc_ok : succeeded r = true ->
          ~ raises evs /\
          forall k, clock w <= k < clock (final r) -> faults (env w) k = None;
  oc_fail : succeeded r = false -> raises evs
}.

Definition polite {A} (m : M A) : Prop :=
  forall w, exists evs, outcome w (m w) evs.

(** An [__exit__] that never swallows the exception of the body. *)
Definition never_suppresses (exit : M bool) : Prop :=
  forall w b w', exit w = Ok b w' -> b = false.

(** A computation that, when it ends normally, has closed a diagram. *)
Definition closing (m : M unit) : Prop :=
  forall w a w', m w = Ok a w' -> exists k, EvClosed k ∈ trace w'.

(** A script fails loudly when, in every environment: the run ends with an
    exception exactly when an exception was raised during it (nothing catches
    one, nothing is retried); a run that ends with an exception has printed
    nothing; whatever is printed is printed after a diagram context was left
    and no exception raised before; and a failure the environment injects at
    a step the run takes ends the run with an exception. *)
Definition fails_loudly (s : Script) : Prop :=
  forall e,
    let r := run s e in
    (succeeded r = false <-> raises (trace (final r))) /\
    (succeeded r = false -> ~ prints (trace (final r))) /\
    (forall pre l post,
        trace (final r) = pre ++ EvPrint l :: post ->
        (exists k, EvClosed k ∈ pre) /\ ~ raises pre) /\
    (forall k x, k < clock (final r) -> faults e k = Some x ->
                 succeeded r = false).

Definition is_print (s : M unit) : Prop := exists l, s = print l.

(** ** Export *)

Definition structure_of (f : File) : option (string * DotFile) :=
  match f with
  | ImageFile fmt s _ => Some (fmt, s)
  | _ => None
  end.

Definition image_path (d : DiagramObj) : string :=
  (dg_filename d ++ "." ++ dg_outformat d)%string.

(** What the image file of a diagram holds, pixels apart. *)
Definition image_structure (w : World) (d : DiagramObj)
  : option (string * DotFile) :=
  match file_at w (image_path d) with
  | Some f => structure_of f
  | None => None
  end.

(** ** Sample objects *)

Definition node_a : NodeObj :=
  mkNode 1 "a" "diagrams.onprem.compute.Server" "A" [] None 0.
Definition node_b : NodeObj :=
  mkNode 2 "b" "diagrams.onprem.compute.Server" "B" [] None 0.
Definition node_c : NodeObj :=
  mkNode 3 "c" "diagrams.onprem.compute.Server" "C" [] None 0.

Definition sample_diagram : DiagramObj :=
  mkDiagram 0 "Sample" "sample" "LR" "ortho" "jpg" false [] [] [].

(** The diagram object an image file on disk was made from. *)
Definition exported (w : World) (path : string) : option DiagramObj :=
  match file_at w path with
  | Some (ImageFile _ s _) => Some (df_diagram s)
  | _ => None
  end.

(** The diagram object of the system-context script: [Diagram(diagram_name,
    show=False, filename=output_filename, graph_attr=graph_attr,
    direction="LR", outformat="jpg")]. *)
Definition context_diagram : DiagramObj :=
  mkDiagram 0 c1_system_context_diagram.diagram_name
            c1_system_context_diagram.output_filename "LR" "ortho" "jpg"
            false c1_system_context_diagram.graph_attr [] [].

(** ** Files, scopes and identities of a run *)

(** The image files a run has written: path and structure. *)
Definition images (w : World) : list (string * DotFile) :=
  omap (fun pf => match pf.2 with
                  | Some (ImageFile _ s _) => Some (pf.1, s)
                  | _ => None
                  end) (files w).

(** What the file at [path] holds when it is an image: its format and the
    declarations it was made from. *)
Definition image_at (w : World) (path : string)
  : option (string * list Decl) :=
  match file_at w path with
  | Some (ImageFile fmt s _) => Some (fmt, df_body s)
  | _ => None
  end.

(** The run has written or removed no file other than [p1] and [p2]. *)
Definition touches_only (w : World) (p1 p2 : string) : bool :=
  forallb (fun q => bool_decide (q = p1) || bool_decide (q = p2))
          (files w).*1.

(** The declarations of a run are well bracketed over the stack [open] of the
    clusters not yet left: a cluster is constructed in, and a node registered
    in, the innermost open cluster (or in none); the cluster handed over is
    the innermost open one, and it goes to the one below it (or to the
    diagram); at the end no cluster is open. *)
Fixpoint scoped (open : list nat) (g : list Decl) : Prop :=
  match g with
  | [] => open = []
  | DCluster c :: r =>
      cl_key <$> cl_parent c = head open /\
      cl_depth c = length open /\
      scoped (cl_key c :: open) r
  | DNode n :: r => nd_cluster n = head open /\ scoped open r
  | DSubgraph _ p c :: r =>
      head open = Some c /\ p = head (tail open) /\ scoped (tail open) r
  | DEdge _ _ _ _ :: r => scoped open r
  end.

(** [needle in hay] for strings. *)
Fixpoint occurs (needle hay : string) : bool :=
  String.prefix needle hay ||
  match hay with
  | EmptyString => false
  | String _ r => occurs needle r
  end.

(** The lines a run has printed. *)
Definition printed (w : World) : list string :=
  omap (fun ev => match ev with EvPrint l => Some l | _ => None end) (trace w).

(** The directions an edge operator of the scripts can give an edge. *)
Definition one_way_or_plain (dir : option string) : Prop :=
  dir = Some "forward" \/ dir = Some "back" \/ dir = Some "none".

#[local] Instance one_way_or_plain_dec dir : Decision (one_way_or_plain dir).
Proof. unfold one_way_or_plain. apply _. Defined.

(** The attributes of the edge [add_invisible_edge] declares. *)
Definition invisible_attrs : Attrs :=
  [("style", "invis"); ("constraint", "true"); ("dir", "forward")].

(** The node [create_rank_node] constructs in state [w] under diagram
    [dg]. *)
Definition rank_node (w : World) (dg : DiagramObj) : NodeObj :=
  mkNode (allocated w) (uuid4 (env w) (allocated w))
         "diagrams.programming.flowchart.StartEnd" ""
         [("shape", "point"); ("width", "0.01"); ("height", "0.01");
          ("style", "invis")]
         (cl_key <$> cluster_ctx w) (dg_key dg).

(** The loop of the disaster-recovery script,
    [for svc in services: svc >> mesh], over the names of the list and of
    the node the services are connected to. *)
Definition connect_to_mesh (services mesh : string) : M unit :=
  for_ "svc" (getvar services) [expr (getvar "svc" >> getvar mesh)].

(** Drawn invisibly: the style the two helpers of the data-flow script
    pass. *)
Definition hidden (a : Attrs) : bool :=
  bool_decide (dict_get "style" a = Some "invis").

(** The exceptions raised and the diagrams closed during a run. *)
Definition raised (w : World) : list Exn :=
  omap (fun ev => match ev with EvRaise x => Some x | _ => None end) (trace w).

Definition closed (w : World) : list nat :=
  omap (fun ev => match ev with EvClosed k => Some k | _ => None end)
       (trace w).

(** The plain lines that start at a pod, in the order of their
    declaration. *)
Definition pod_lines (w : World) : list (NodeObj * NodeObj) :=
  filter (fun p => nd_class p.1 = "diagrams.k8s.compute.Pod") (lines w).

(** The nodes of the list a name of the script is bound to. *)
Definition list_named (w : World) (x : string) : list NodeObj :=
  match globals w !! x with
  | Some (VList l) =>
      omap (fun v => match v with VNode n => Some n | _ => None end) l
  | _ => []
  end.

(** The cluster around the cluster a node was registered in, by label. *)
Definition enclosing (w : World) (n : NodeObj) : option string :=
  k ← nd_cluster n;
  c ← list_find (fun c => cl_key c = k) (clusters w);
  cl_label <$> cl_parent c.2.

(** A disk with one file that no script names. *)
Definition kept_disk : gmap string File :=
  {["notes.txt" := ConfigFile "keep"]}.

(** A state inside the context of [sample_diagram], and one in which a list
    of two services and a mesh node are bound. *)
Definition inside_sample : World :=
  set_diagram_ctx (Some sample_diagram) (boot quiet_env).

Definition with_services : World :=
  set_globals (<["mesh" := VNode node_c]>
                 (<["services" := VList (VNode <$> [node_a; node_b])]> ∅))
              (boot quiet_env).

(** * Properties of the edge operators *)

Section Operators.

Import diagrams.

Lemma dict_get_set k v d : dict_get k (dict_set k v d) = Some v.
Proof.
  induction d as [|[k' v'] d IH]; simpl.
  - by rewrite decide_True.
  - destruct (decide (k = k')) as [->|Hne]; simpl.
    + by rewrite decide_True.
    + by rewrite decide_False.
Qed.

Lemma dict_get_set_ne k k' v d :
  k <> k' -> dict_get k (dict_set k' v d) = dict_get k d.
Proof.
  intros Hne. induction d as [|[k'' v''] d IH]; simpl.
  - by rewrite decide_False.
  - destruct (decide (k' = k'')) as [->|Hne']; simpl.
    + by rewrite !decide_False.
    + destruct (decide (k = k'')); [done | apply IH].
Qed.

(** The arrow a declared edge draws is decided by the two flags of the edge
    object. *)
Lemma arrows_of_edge dg t h e :
  arrows_of (DEdge dg t h (Edge_attrs e)) =
    let l := default "" (dict_get "label" (ed_attrs e)) in
    match ed_forward e, ed_reverse e with
    | true, true => [mkArrow t h l; mkArrow h t l]
    | true, false => [mkArrow t h l]
    | false, true => [mkArrow h t l]
    | false, false => []
    end.
Proof.
  unfold arrows_of, Edge_attrs.
  rewrite dict_get_set, dict_get_set_ne by done.
  unfold direction_of. by destruct (ed_forward e), (ed_reverse e).
Qed.

Lemma Node_connect_ok self n e w :
  faults (env w) (clock w) = None ->
  Node_connect self (VNode n) e w = Ok (VNode n) (connected self n e w).
Proof.
  intros H. unfold Node_connect, bind, fault_point. by rewrite H.
Qed.

Lemma Edge_ok kw w :
  has_dup kw.*1 = false ->
  Edge kw w = Ok (VEdge (Edge_init None false false kw)) w.
Proof.
  intros H. unfold Edge, reject_duplicates, bind. by rewrite H.
Qed.


Lemma dict_get_update_other k d extra :
  Forall (fun kv => kv.1 <> k) extra ->
  dict_get k (dict_update d extra) = dict_get k d.
Proof.
  unfold dict_update. revert d.
  induction extra as [|[k' v'] extra IH]; intros d H; simpl; [done|].
  inversion H as [|? ? Hk Hrest]; subst. simpl in Hk.
  rewrite IH by done. by apply dict_get_set_ne.
Qed.

(** The label an edge object carries is the [label] keyword it was
    constructed with. *)
Lemma Edge_init_label n f r kw :
  default "" (dict_get "label" (ed_attrs (Edge_init n f r kw))) =
  default "" (dict_get "label" kw).
Proof.
  unfold Edge_init. simpl.
  rewrite dict_get_update_other.
  2:{ unfold dict_del. apply list.Forall_forall. intros kv Hin.
      by apply list_elem_of_filter in Hin as [Hne _]. }
  destruct (dict_get "label" kw) as [l|]; simpl.
  - destruct (decide (l = "")) as [->|Hl]; simpl.
    + by destruct (dict_get "color" kw) as [x|];
        [destruct (decide (x = ""))|];
        (destruct (dict_get "style" kw) as [y|];
          [destruct (decide (y = ""))|]).
    + done.
  - by destruct (dict_get "color" kw) as [x|];
      [destruct (decide (x = ""))|];
      (destruct (dict_get "style" kw) as [y|];
        [destruct (decide (y = ""))|]).
Qed.

(** C3. For all nodes [a], [b] (in particular two nodes of one diagram),
    [a >> b] and [a >> Edge(...) >> b] each append exactly one edge to the
    declarations of the diagram, drawn as an arrow from [a] to [b], and
    evaluate to the target [b]; hence [a >> b >> c] appends exactly the two
    edges from [a] to [b] and from [b] to [c]. The steps taken are those at
    which the package does not fail. *)
Theorem rshift_appends_edge_and_chains (a b c : NodeObj) (kw : Attrs)
    (w : World) :
  faults (env w) (clock w) = None ->
  faults (env w) (S (clock w)) = None ->
  has_dup kw.*1 = false ->
  (exists w1,
      (ret (VNode a) >> ret (VNode b)) w = Ok (VNode b) w1 /\
      graph w1 = graph w ++ [forward_edge a b] /\
      arrows_of (forward_edge a b) = [mkArrow a b ""]) /\
  (exists w2 attrs,
      (ret (VNode a) >> Edge kw >> ret (VNode b)) w = Ok (VNode b) w2 /\
      graph w2 = graph w ++ [DEdge (nd_diagram a) a b attrs] /\
      arrows_of (DEdge (nd_diagram a) a b attrs) =
        [mkArrow a b (default "" (dict_get "label" kw))]) /\
  (exists w3,
      (ret (VNode a) >> ret (VNode b) >> ret (VNode c)) w = Ok (VNode c) w3 /\
      graph w3 = graph w ++ [forward_edge a b; forward_edge b c]).
Proof.
  intros H0 H1 Hkw. repeat split.
  - eexists. unfold binop, bind, ret. simpl.
    rewrite Node_connect_ok by done. repeat split.
  - set (e := set_node a (set_forward (Edge_init None false false kw))).
    exists (connected a b e w), (Edge_attrs e). split; [|split; [done|]].
    + unfold binop, bind, ret. rewrite Edge_ok by done. simpl.
      by rewrite Node_connect_ok.
    + rewrite arrows_of_edge. simpl.
      by rewrite <- (Edge_init_label None false false kw).
  - eexists. unfold binop, bind, ret. simpl.
    rewrite Node_connect_ok by done. simpl.
    rewrite Node_connect_ok by done. split; [done|].
    simpl. by rewrite <- app_assoc.
Qed.

(** C9. For all nodes [a], [b], [a << b] and [a << Edge(...) << b] each
    append exactly one edge, declared with tail [a], head [b] and direction
    [back], that is, drawn as an arrow from [b] to [a]; [a << Edge(...)]
    evaluates to the edge hung on [a] without declaring anything, and the
    whole chain evaluates to [b]. *)
Theorem lshift_appends_reversed_edge (a b : NodeObj) (kw : Attrs) (w : World) :
  faults (env w) (clock w) = None ->
  has_dup kw.*1 = false ->
  (exists w1,
      (ret (VNode a) << ret (VNode b)) w = Ok (VNode b) w1 /\
      graph w1 = graph w ++ [back_edge a b] /\
      arrows_of (back_edge a b) = [mkArrow b a ""]) /\
  (exists e,
      (ret (VNode a) << Edge kw) w = Ok (VEdge e) w /\
      ed_node e = Some a) /\
  (exists w2 attrs,
      (ret (VNode a) << Edge kw << ret (VNode b)) w = Ok (VNode b) w2 /\
      graph w2 = graph w ++ [DEdge (nd_diagram a) a b attrs] /\
      dict_get "dir" attrs = Some "back" /\
      arrows_of (DEdge (nd_diagram a) a b attrs) =
        [mkArrow b a (default "" (dict_get "label" kw))]).
Proof.
  intros H0 Hkw. repeat split.
  - eexists. unfold binop, bind, ret. simpl.
    rewrite Node_connect_ok by done. repeat split.
  - eexists. unfold binop, bind, ret. rewrite Edge_ok by done. simpl.
    split; reflexivity.
  - set (e := set_reverse
                (set_node a (set_reverse (Edge_init None false false kw)))).
    exists (connected a b e w), (Edge_attrs e).
    split; [|split; [done|split; [apply dict_get_set|]]].
    + unfold binop, bind, ret. rewrite Edge_ok by done. simpl.
      by rewrite Node_connect_ok.
    + rewrite arrows_of_edge. simpl.
      by rewrite <- (Edge_init_label None false false kw).
Qed.


End Operators.

(** * The graphs the scripts declare *)

Lemma find_node_elem k seen n : find_node k seen = Some n -> n ∈ seen.
Proof.
  induction seen as [|m seen IH]; simpl; [done|].
  destruct (decide (nd_key m = k)).
  - intros [= ->]. apply list_elem_of_here.
  - intros H. apply list_elem_of_further. by apply IH.
Qed.

Lemma resolves_spec g : forall seen,
  resolves seen g ->
  forall pre dg t h attrs post,
    g = pre ++ DEdge dg t h attrs :: post ->
    (t ∈ seen \/ DNode t ∈ pre) /\ (h ∈ seen \/ DNode h ∈ pre) /\
    nd_diagram t = dg /\ nd_diagram h = dg.
Proof.
  induction g as [|x g IH]; intros seen Hres pre dg t h attrs post Heq.
  - by destruct pre.
  - destruct pre as [|y pre]; simpl in Heq; injection Heq as -> ->.
    + simpl in Hres. destruct Hres as (Ht & Hh & Hdt & Hdh & _).
      repeat split; try done; left; by eapply find_node_elem.
    + assert (Hrest : exists seen', resolves seen' (pre ++ DEdge dg t h attrs :: post)
                /\ forall n, n ∈ seen' -> n ∈ seen \/ DNode n = y).
      { destruct y; simpl in Hres.
        - eexists. split; [exact Hres|]. intros m Hm.
          apply elem_of_cons in Hm as [->|Hm]; [by right | by left].
        - exists seen. split; [done | by left].
        - exists seen. split; [done | by left].
        - exists seen. split; [tauto | by left]. }
      destruct Hrest as (seen' & Hres' & Hsub).
      destruct (IH seen' Hres' pre dg t h attrs post eq_refl)
        as (Ht & Hh & Hdt & Hdh).
      repeat split; try done.
      * destruct Ht as [Ht|Ht]; [|right; by apply list_elem_of_further].
        destruct (Hsub _ Ht) as [?| <-]; [by left | right; apply list_elem_of_here].
      * destruct Hh as [Hh|Hh]; [|right; by apply list_elem_of_further].
        destruct (Hsub _ Hh) as [?| <-]; [by left | right; apply list_elem_of_here].
Qed.

Lemma nested_once_tree g :
  nested_once g ->
  (forall c p1 p2, contains g p1 c -> contains g p2 c -> p1 = p2) /\
  (forall c, ~ tc (contains g) c c) /\
  (forall p c, contains g p c -> p ∈ cluster_keys g /\ c ∈ cluster_keys g).
Proof.
  intros [Hnd Hall]. rewrite list.Forall_forall in Hall. repeat split.
  - intros c p1 p2 H1 H2. unfold contains in *.
    assert (Some p1 = Some p2) as [= ->]; [|done].
    revert Hnd H1 H2. generalize (subgraphs g). intros l.
    induction l as [|[q k] l IH]; intros Hnd H1 H2.
    { by apply elem_of_nil in H1. }
    rewrite fmap_cons in Hnd. apply NoDup_cons in Hnd as [Hk Hnd]. simpl in Hk.
    apply elem_of_cons in H1 as [H1|H1], H2 as [H2|H2].
    + congruence.
    + injection H1 as -> ->. exfalso. apply Hk.
      apply list_elem_of_fmap. by exists (Some p2, k).
    + injection H2 as -> ->. exfalso. apply Hk.
      apply list_elem_of_fmap. by exists (Some p1, k).
    + by apply IH.
  - intros c Hc.
    assert (Hlt : forall x y, tc (contains g) x y -> x < y).
    { intros x y Hxy. induction Hxy as [x y H|x y z H _ IH].
      - by apply Hall in H as [_ [? _]].
      - apply Hall in H as [_ [? _]]. simpl in *. lia. }
    apply Hlt in Hc. lia.
  - by apply Hall in H as [_ [_ ?]].
  - by apply Hall in H as [? _].
Qed.

(** ** Theorems about the sixteen scripts *)

Ltac each_script :=
  unfold all_scripts;
  repeat (apply List.Forall_cons; [cbv beta; cbn [snd] | ]);
  [.. | apply List.Forall_nil].

(** Every script runs to completion when nothing fails. *)
Lemma scripts_succeed :
  Forall (fun s => forall a v d u r,
            succeeded (run s.2 (calm a v d u r)) = true) all_scripts.
Proof. each_script; intros; vm_compute; reflexivity. Qed.

(** C4. In every script, when the run is through, each declared edge has as
    tail and as head a node that was declared before the edge, and both belong
    to the diagram the edge was added to. *)
Theorem edges_reference_earlier_nodes :
  Forall (fun s => forall a v d u r pre dg t h attrs post,
            graph (final (run s.2 (calm a v d u r))) =
              pre ++ DEdge dg t h attrs :: post ->
            DNode t ∈ pre /\ DNode h ∈ pre /\
            nd_diagram t = dg /\ nd_diagram h = dg) all_scripts.
Proof.
  each_script; intros a v d u r pre dg t h attrs post Heq;
    (eapply resolves_spec with (seen := []) in Heq;
      [ destruct Heq as ([Ht|Ht] & [Hh|Hh] & ? & ?);
          try (by apply elem_of_nil in Ht); try (by apply elem_of_nil in Hh);
          done
      | vm_compute; repeat split; reflexivity ]).
Qed.

(** C5. In every script the clusters form a forest under nesting: a cluster
    has at most one direct parent, no cluster contains itself directly or
    through other clusters, and what is nested are clusters the script has
    constructed. *)
Theorem clusters_form_a_tree :
  Forall (fun s => forall a v d u r,
            let g := graph (final (run s.2 (calm a v d u r))) in
            (forall c p1 p2, contains g p1 c -> contains g p2 c -> p1 = p2) /\
            (forall c, ~ tc (contains g) c c) /\
            (forall p c, contains g p c ->
                         p ∈ cluster_keys g /\ c ∈ cluster_keys g))
         all_scripts.
Proof.
  each_script; intros a v d u r; cbv zeta; apply nested_once_tree;
    (split; apply (bool_decide_unpack _); vm_compute; reflexivity).
Qed.

(** C7, as the code has it. Two runs of the same script in which nothing
    fails declare the same logical graph (nodes with their clusters, clusters,
    nestings and edges) up to the random identifiers the package draws for
    the nodes, whatever the command line, the environment variables, the
    files on disk, the random identifiers and the layout program are; with
    the same random identifiers the declarations are identical. *)
Theorem scripts_are_deterministic :
  Forall (fun s => forall a1 v1 d1 u1 r1 a2 v2 d2 u2 r2,
            logical_graph (final (run s.2 (calm a1 v1 d1 u1 r1))) =
            logical_graph (final (run s.2 (calm a2 v2 d2 u2 r2))) /\
            graph (final (run s.2 (calm a1 v1 d1 u1 r1))) =
            graph (final (run s.2 (calm a2 v2 d2 u1 r2))) /\
            trace (final (run s.2 (calm a1 v1 d1 u1 r1))) =
            trace (final (run s.2 (calm a2 v2 d2 u2 r2))))
         all_scripts.
Proof.
  each_script; intros; (split; [|split]); vm_compute; reflexivity.
Qed.

(** C7, as the specification has it, fails: with the same command line,
    environment variables and disk, two runs of the system-context script
    that draw different random identifiers do not declare identical nodes. *)
Lemma declared_nodes_differ_between_runs :
  ~ forall u1 u2 : nat -> string,
      nodes (final (run c1_system_context_diagram.main
                        (calm [] [] ∅ u1 (fun _ _ => 0)))) =
      nodes (final (run c1_system_context_diagram.main
                        (calm [] [] ∅ u2 (fun _ _ => 0)))).
Proof.
  intros H. specialize (H (fun _ => "a") (fun _ => "b")).
  apply (f_equal (fun l => nd_id <$> head l)) in H.
  vm_compute in H. discriminate H.
Qed.

(** Conjunctions of facts about a run, each settled by evaluating the run. *)
Ltac by_running :=
  repeat match goal with |- _ /\ _ => split end; (vm_compute; reflexivity).

(** ** The system-context script *)

(** C2. The system-context script declares six nodes: the two actors, the
    three external systems outside any cluster, and the one system node
    inside the cluster of the system; and exactly five edges, each an arrow:
    customer to system, admin to system, system to payment gateway, system to
    shipping provider, system to identity provider. *)
Theorem system_context_graph a v d u r :
  let w := final (run c1_system_context_diagram.main (calm a v d u r)) in
  exists customer admin_user payment_gateway shipping_provider
         identity_provider ecommerce_system,
    node_named w "customer" = Some customer /\
    node_named w "admin_user" = Some admin_user /\
    node_named w "payment_gateway" = Some payment_gateway /\
    node_named w "shipping_provider" = Some shipping_provider /\
    node_named w "identity_provider" = Some identity_provider /\
    node_named w "ecommerce_system" = Some ecommerce_system /\
    nodes w = [customer; admin_user; payment_gateway; shipping_provider;
               identity_provider; ecommerce_system] /\
    filter is_actor (nodes w) = [customer; admin_user] /\
    filter (fun n => cluster_of w n = Some "Our E-Commerce Ecosystem")
           (nodes w) = [ecommerce_system] /\
    cl_label <$> clusters w = ["Our E-Commerce Ecosystem"] /\
    filter (fun n => ~ is_actor n /\ nd_cluster n = None) (nodes w) =
      [payment_gateway; shipping_provider; identity_provider] /\
    length (edges w) = 5 /\
    (fun x => (source x, target x)) <$> arrows w =
      [(customer, ecommerce_system); (admin_user, ecommerce_system);
       (ecommerce_system, payment_gateway);
       (ecommerce_system, shipping_provider);
       (ecommerce_system, identity_provider)].
Proof. intros w. subst w. do 6 eexists. by_running. Qed.

(** ** The container script *)

(** C1, as the code has it. In the container script the message broker has
    exactly five inbound edges, the five publications, and exactly six
    outbound edges, the six deliveries to consumers, whatever the layout
    program does. *)
Theorem message_broker_edges a v d u r :
  let w := final (run c2_container_diagram.main (calm a v d u r)) in
  exists mb,
    node_named w "message_broker" = Some mb /\
    length (inbound w mb) = 5 /\
    label <$> inbound w mb =
      ["Publishes OrderCreated event"; "Publishes PaymentProcessed event";
       "Publishes ProductUpdated event"; "Publishes StockUpdated event";
       "Publishes UserRegistered event"] /\
    Some <$> (source <$> inbound w mb) =
      [node_named w "order_service"; node_named w "payment_service";
       node_named w "product_service"; node_named w "inventory_service";
       node_named w "user_service"] /\
    length (outbound w mb) = 6 /\
    label <$> outbound w mb =
      ["OrderCreated event"; "PaymentProcessed event"; "ProductUpdated event";
       "PaymentProcessed event"; "StockUpdated event";
       "UserRegistered event"] /\
    Some <$> (target <$> outbound w mb) =
      [node_named w "notification_service"; node_named w "order_service";
       node_named w "search_service_container";
       node_named w "notification_service"; node_named w "product_service";
       node_named w "notification_service"].
Proof.
  intros w.
  assert (Hk : nd_key <$> node_named w "message_broker" = Some 30)
    by (subst w; vm_compute; reflexivity).
  destruct (node_named w "message_broker") as [mb|] eqn:E; [|discriminate].
  injection Hk as Hkey. exists mb. split; [done|].
  unfold inbound, outbound, same_node. rewrite Hkey. subst w. by_running.
Qed.

Lemma outbound_by_key w n : length (outbound w n) = out_degree w (nd_key n).
Proof. reflexivity. Qed.

Lemma container_run_broker_key :
  nd_key <$> node_named container_run "message_broker" = Some 30.
Proof. vm_compute. reflexivity. Qed.

Lemma container_run_broker_out : out_degree container_run 30 = 6.
Proof. vm_compute. reflexivity. Qed.

(** C1, as the specification has it, fails: the broker does not have five
    outbound edges. *)
Lemma message_broker_outbound_not_five :
  ~ exists mb,
      node_named container_run "message_broker" = Some mb /\
      length (inbound container_run mb) = 5 /\
      length (outbound container_run mb) = 5.
Proof.
  intros (mb & Hmb & _ & Hout).
  pose proof container_run_broker_key as Hk.
  rewrite Hmb in Hk. injection Hk as Hkey.
  rewrite outbound_by_key, Hkey, container_run_broker_out in Hout.
  discriminate.
Qed.

(** * Failures *)

Lemma not_raises_nil : ~ raises [].
Proof. intros [x H]. by apply elem_of_nil in H. Qed.

Lemma not_prints_nil : ~ prints [].
Proof. intros [x H]. by apply elem_of_nil in H. Qed.

Lemma raises_app evs1 evs2 : raises (evs1 ++ evs2) <-> raises evs1 \/ raises evs2.
Proof.
  unfold raises. split.
  - intros [x H]. apply elem_of_app in H as [H|H]; eauto.
  - intros [[x H]|[x H]]; exists x; apply elem_of_app; auto.
Qed.

Lemma prints_app evs1 evs2 : prints (evs1 ++ evs2) <-> prints evs1 \/ prints evs2.
Proof.
  unfold prints. split.
  - intros [x H]. apply elem_of_app in H as [H|H]; eauto.
  - intros [[x H]|[x H]]; exists x; apply elem_of_app; auto.
Qed.

(** A step that only changes the interpreter state. *)
Lemma polite_silent {A} (m : M A) :
  (forall w, exists a w', m w = Ok a w' /\ trace w' = trace w /\
                          env w' = env w /\ clock w' = clock w) ->
  polite m.
Proof.
  intros H w. destruct (H w) as (a & w' & -> & Ht & He & Hc).
  exists []. constructor; simpl.
  - by rewrite app_nil_r.
  - done.
  - lia.
  - apply not_prints_nil.
  - intros _. split; [apply not_raises_nil | intros k Hk; lia].
  - done.
Qed.

Lemma polite_ret {A} (a : A) : polite (ret a).
Proof. apply polite_silent. intros w. by exists a, w. Qed.

Lemma polite_ask {A} (f : World -> A) : polite (ask f).
Proof. apply polite_silent. intros w. by exists (f w), w. Qed.

Lemma polite_setvar x v : polite (setvar x v).
Proof. apply polite_silent. intros w. by eexists _, _. Qed.

Lemma polite_declare d : polite (declare d).
Proof. apply polite_silent. intros w. by eexists _, _. Qed.

Lemma polite_fresh : polite fresh.
Proof. apply polite_silent. intros w. by eexists _, _. Qed.

Lemma polite_raise {A} (e : Exn) : polite (@raise A e).
Proof.
  intros w. exists [EvRaise e]. constructor; simpl; try done.
  - intros [l H]. apply list_elem_of_singleton in H. discriminate.
  - intros _. exists e. by apply list_elem_of_singleton.
Qed.

Lemma polite_closed k : polite (note (EvClosed k)).
Proof.
  intros w. exists [EvClosed k]. constructor; simpl; try done.
  - intros [l H]. apply list_elem_of_singleton in H. discriminate.
  - intros _. split; [|intros j Hj; lia].
    intros [x H]. apply list_elem_of_singleton in H. discriminate.
Qed.

Lemma polite_fault_point : polite fault_point.
Proof.
  intros w. unfold fault_point.
  destruct (faults (env w) (clock w)) as [e|] eqn:E.
  - exists [EvRaise e]. constructor; simpl; try done.
    + lia.
    + intros [l H]. apply list_elem_of_singleton in H. discriminate.
    + intros _. exists e. by apply list_elem_of_singleton.
  - exists []. constructor; simpl; try done.
    + by rewrite app_nil_r.
    + lia.
    + apply not_prints_nil.
    + intros _. split; [apply not_raises_nil|].
      intros k Hk. by replace k with (clock w) by lia.
Qed.

Lemma polite_bind {A B} (m : M A) (k : A -> M B) :
  polite m -> (forall a, polite (k a)) -> polite (bind m k).
Proof.
  intros Hm Hk w. destruct (Hm w) as [evs1 H1]. unfold bind.
  destruct (m w) as [a w1|x w1]; simpl in *.
  - destruct (Hk a w1) as [evs2 H2]. exists (evs1 ++ evs2).
    destruct H1 as [T1 E1 C1 Q1 O1 _], H2 as [T2 E2 C2 Q2 O2 F2].
    simpl in *. destruct (O1 eq_refl) as [R1 N1].
    constructor.
    + by rewrite T2, T1, app_assoc.
    + by rewrite E2.
    + lia.
    + rewrite prints_app. tauto.
    + intros Hok. destruct (O2 Hok) as [R2 N2]. split.
      * rewrite raises_app. tauto.
      * intros j Hj. destruct (decide (j < clock w1)).
        -- apply N1. lia.
        -- rewrite <- E1. apply N2. lia.
    + intros Hf. apply raises_app. right. by apply F2.
  - exists evs1. destruct H1 as [T1 E1 C1 Q1 O1 F1]. by constructor.
Qed.

(** [__exit__] after the body, on both ways out. *)
Lemma polite_finally_exit (exit : M bool) (body : M unit) :
  polite exit ->
  (forall w b w', exit w = Ok b w' -> b = false) ->
  polite body ->
  polite (finally_exit exit body).
Proof.
  intros Hexit Hfalse Hbody w. unfold finally_exit.
  destruct (Hbody w) as [evs1 H1].
  destruct (body w) as [[] w1|x w1]; simpl in *.
  - assert (Hrest : polite (bind exit (fun _ => ret tt))).
    { apply polite_bind; [done | intros; apply polite_ret]. }
    destruct (Hrest w1) as [evs2 H2]. exists (evs1 ++ evs2).
    destruct H1 as [T1 E1 C1 Q1 O1 _], H2 as [T2 E2 C2 Q2 O2 F2].
    simpl in *. destruct (O1 eq_refl) as [R1 N1].
    constructor.
    + by rewrite T2, T1, app_assoc.
    + by rewrite E2.
    + lia.
    + rewrite prints_app. tauto.
    + intros Hok. destruct (O2 Hok) as [R2 N2]. split.
      * rewrite raises_app. tauto.
      * intros j Hj. destruct (decide (j < clock w1)).
        -- apply N1. lia.
        -- rewrite <- E1. apply N2. lia.
    + intros Hf. apply raises_app. right. by apply F2.
  - destruct (Hexit w1) as [evs2 H2]. exists (evs1 ++ evs2).
    destruct H1 as [T1 E1 C1 Q1 _ F1], H2 as [T2 E2 C2 Q2 _ _].
    simpl in *. specialize (F1 eq_refl).
    destruct (exit w1) as [b w2|x' w2] eqn:Ex; simpl in *.
    + rewrite (Hfalse _ _ _ Ex). constructor; simpl.
      * by rewrite T2, T1, app_assoc.
      * by rewrite E2.
      * lia.
      * rewrite prints_app. tauto.
      * done.
      * intros _. apply raises_app. by left.
    + constructor; simpl.
      * by rewrite T2, T1, app_assoc.
      * by rewrite E2.
      * lia.
      * rewrite prints_app. tauto.
      * done.
      * intros _. apply raises_app. by left.
Qed.

Lemma polite_block (stmts : list (M unit)) :
  Forall polite stmts -> polite (block stmts).
Proof.
  induction 1 as [|s r Hs _ IH]; simpl.
  - apply polite_ret.
  - apply polite_bind; [done | by intros].
Qed.

Lemma polite_for_each x l (body : M unit) :
  polite body -> polite (for_each x l body).
Proof.
  intros Hb. induction l as [|v l IH]; simpl.
  - apply polite_ret.
  - apply polite_bind; [apply polite_setvar | intros _].
    apply polite_bind; [done | by intros].
Qed.

Lemma polite_getvar x : polite (getvar x).
Proof.
  intros w. unfold getvar. destruct (globals w !! x) as [v|].
  - apply (polite_ret v w).
  - apply (polite_raise _ w).
Qed.

Lemma polite_PyList_eval es : Forall polite es -> polite (PyList_eval es).
Proof.
  induction 1 as [|e r He _ IH]; simpl.
  - apply polite_ret.
  - apply polite_bind; [done | intros v].
    apply polite_bind; [done | intros vs]. apply polite_ret.
Qed.

Section PackagePoliteness.

Import diagrams.

Ltac polite_step :=
  lazymatch goal with
  | |- polite (bind _ _) => apply polite_bind; [|intros]
  | |- polite (ret _) => apply polite_ret
  | |- polite (raise _) => apply polite_raise
  | |- polite (ask _) => apply polite_ask
  | |- polite fault_point => apply polite_fault_point
  | |- polite fresh => apply polite_fresh
  | |- polite (declare _) => apply polite_declare
  | |- polite (setvar _ _) => apply polite_setvar
  | |- polite (getvar _) => apply polite_getvar
  | |- polite (note (EvClosed _)) => apply polite_closed
  | |- polite (match ?x with _ => _ end) => destruct x
  | |- polite (let _ := _ in _) => cbv zeta
  end.

Ltac polite_auto := repeat (polite_step || assumption).

Lemma polite_reject_duplicates {V} (kw : list (string * V)) :
  polite (reject_duplicates kw).
Proof. unfold reject_duplicates. polite_auto. Qed.

Lemma polite_reject_unknown known kw : polite (reject_unknown known kw).
Proof. unfold reject_unknown. polite_auto. Qed.

Lemma polite_kw_str kw k dflt : polite (kw_str kw k dflt).
Proof. unfold kw_str. polite_auto. Qed.

Lemma polite_kw_bool kw k dflt : polite (kw_bool kw k dflt).
Proof. unfold kw_bool. polite_auto. Qed.

Lemma polite_kw_dict kw k : polite (kw_dict kw k).
Proof. unfold kw_dict. polite_auto. Qed.

Lemma polite_str s : polite (str s).
Proof. apply polite_ret. Qed.

Lemma polite_Edge kw : polite (Edge kw).
Proof.
  unfold Edge. apply polite_bind; [apply polite_reject_duplicates|intros].
  apply polite_ret.
Qed.

Lemma polite_Node cls l kw : polite (Node cls l kw).
Proof.
  unfold Node, getdiagram, getcluster.
  apply polite_bind; [apply polite_fault_point|intros].
  apply polite_bind; [apply polite_reject_duplicates|intros].
  polite_auto.
Qed.

Lemma polite_Node_connect self n e : polite (Node_connect self n e).
Proof. unfold Node_connect. polite_auto. Qed.

Lemma polite_connect_each self l e : polite (connect_each self l e).
Proof.
  induction l as [|n l IH]; simpl; [apply polite_ret|].
  apply polite_bind; [apply polite_Node_connect | by intros].
Qed.

Lemma polite_Edge_connect self other : polite (Edge_connect self other).
Proof.
  unfold Edge_connect.
  destruct other; try destruct (ed_node self);
    repeat first [ apply polite_Node_connect | apply polite_connect_each
                 | polite_step ].
Qed.

Lemma polite_connect_all mark fe self l : polite (connect_all mark fe self l).
Proof.
  induction l as [|o l IH]; [apply polite_ret|].
  destruct o; cbn [connect_all]; try apply polite_raise.
  - apply polite_bind; [apply polite_Node_connect | by intros].
  - apply polite_bind; [apply polite_Edge_connect | by intros].
Qed.

Lemma polite_rshift a b : polite (rshift a b).
Proof.
  unfold rshift, Node_rshift, Edge_rshift, Node_rrshift, Node_reflected,
    unsupported.
  destruct a, b;
    repeat first [ apply polite_Node_connect | apply polite_connect_each
                 | apply polite_Edge_connect | apply polite_connect_all
                 | polite_step ].
Qed.

Lemma polite_lshift a b : polite (lshift a b).
Proof.
  unfold lshift, Node_lshift, Edge_lshift, Node_rlshift, Node_reflected,
    unsupported.
  destruct a, b;
    repeat first [ apply polite_Node_connect | apply polite_connect_each
                 | apply polite_Edge_connect | apply polite_connect_all
                 | polite_step ].
Qed.

Lemma polite_sub a b : polite (sub a b).
Proof.
  unfold sub, Node_sub, Edge_sub, Node_rsub, Node_reflected, unsupported.
  destruct a, b;
    repeat first [ apply polite_Node_connect | apply polite_connect_each
                 | apply polite_Edge_connect | apply polite_connect_all
                 | polite_step ].
Qed.

Lemma polite_binop op e1 e2 :
  (forall a b, polite (op a b)) -> polite e1 -> polite e2 ->
  polite (binop op e1 e2).
Proof.
  intros Hop H1 H2. unfold binop.
  apply polite_bind; [done|intros a]. apply polite_bind; [done|intros b].
  apply Hop.
Qed.

Lemma polite_PyList es : Forall polite es -> polite (PyList es).
Proof.
  intros H. unfold PyList.
  apply polite_bind; [by apply polite_PyList_eval | intros; apply polite_ret].
Qed.

Lemma polite_index e i : polite e -> polite (index e i).
Proof. intros H. unfold index. polite_auto. Qed.

Lemma polite_attr e name : polite e -> polite (attr e name).
Proof. intros H. unfold attr. polite_auto. Qed.

Lemma polite_assign x e : polite e -> polite (assign x e).
Proof. intros H. unfold assign. polite_auto. Qed.

Lemma polite_expr e : polite e -> polite (expr e).
Proof. intros H. unfold expr. polite_auto. Qed.

Lemma polite_for x it body :
  polite it -> Forall polite body -> polite (for_ x it body).
Proof.
  intros Hit Hb. unfold for_. apply polite_bind; [done|intros v].
  destruct v; try apply polite_raise.
  apply polite_for_each. by apply polite_block.
Qed.

Lemma polite_Cluster l kw : polite l -> polite (Cluster l kw).
Proof.
  intros H. unfold Cluster, getdiagram, getcluster.
  apply polite_bind; [done|intros].
  apply polite_bind; [apply polite_fault_point|intros].
  apply polite_bind; [apply polite_reject_duplicates|intros].
  apply polite_bind; [apply polite_reject_unknown|intros].
  apply polite_bind; [apply polite_kw_str|intros].
  apply polite_bind; [apply polite_kw_dict|intros].
  polite_auto.
Qed.

Lemma polite_Diagram n kw : polite n -> polite (Diagram n kw).
Proof.
  intros H. unfold Diagram.
  apply polite_bind; [done|intros].
  apply polite_bind; [apply polite_fault_point|intros].
  apply polite_bind; [apply polite_reject_duplicates|intros].
  apply polite_bind; [apply polite_reject_unknown|intros].
  do 4 (apply polite_bind; [apply polite_kw_str|intros]).
  apply polite_bind; [apply polite_kw_bool|intros].
  do 3 (apply polite_bind; [apply polite_kw_dict|intros]).
  polite_auto.
Qed.

Lemma polite_write_file path f : polite (write_file path f).
Proof. apply polite_silent. intros w. by eexists _, _. Qed.

Lemma polite_setdiagram d : polite (setdiagram d).
Proof. apply polite_silent. intros w. by eexists _, _. Qed.

Lemma polite_setcluster c : polite (setcluster c).
Proof. apply polite_silent. intros w. by eexists _, _. Qed.

Lemma polite_os_remove path : polite (os_remove path).
Proof.
  unfold os_remove. apply polite_bind; [apply polite_fault_point|intros].
  apply polite_bind; [apply polite_ask|intros f]. destruct f.
  - apply polite_silent. intros w. by eexists _, _.
  - apply polite_raise.
Qed.

Lemma polite_render d : polite (render d).
Proof.
  unfold render.
  repeat first [ apply polite_write_file | polite_step ].
Qed.

Lemma polite_enter mgr : polite (enter mgr).
Proof.
  unfold enter, Diagram_enter, Cluster_enter.
  destruct mgr; repeat first [ apply polite_setdiagram | apply polite_setcluster
                             | polite_step ].
Qed.

Lemma polite_exit mgr : polite (exit mgr).
Proof.
  unfold exit, Diagram_exit, Cluster_exit.
  destruct mgr;
    repeat first [ apply polite_setdiagram | apply polite_setcluster
                 | apply polite_render | apply polite_os_remove
                 | polite_step ].
Qed.

End PackagePoliteness.

(** ** Leaving a [with] block *)

Lemma bind_Ok {A B} (m : M A) (k : A -> M B) w b w' :
  bind m k w = Ok b w' -> exists a w1, m w = Ok a w1 /\ k a w1 = Ok b w'.
Proof. unfold bind. destruct (m w) as [a w1|]; [eauto | done]. Qed.

Ltac invert_run H :=
  repeat lazymatch type of H with
    | bind _ _ _ = Ok _ _ =>
        let a := fresh "a" in let w := fresh "w" in let E := fresh "E" in
        apply bind_Ok in H as (a & w & E & H)
    | raise _ _ = Ok _ _ => discriminate H
    | (match ?x with _ => _ end) _ = Ok _ _ => destruct x
    end.

Lemma exit_never_suppresses mgr : never_suppresses (diagrams.exit mgr).
Proof.
  intros w b w' H. unfold diagrams.exit in H.
  destruct mgr; try discriminate H.
  - unfold diagrams.Cluster_exit in H. invert_run H.
    unfold ret in H. congruence.
  - unfold diagrams.Diagram_exit in H. invert_run H.
    unfold ret in H. congruence.
Qed.

Lemma polite_with ctx tgt body :
  polite ctx -> Forall polite body -> polite (with_ ctx tgt body).
Proof.
  intros Hctx Hbody. unfold with_, with_as.
  apply polite_bind; [done|intros mgr].
  apply polite_bind; [apply polite_enter|intros v].
  apply polite_bind.
  { destruct tgt; [apply polite_setvar | apply polite_ret]. }
  intros _. apply polite_finally_exit.
  - apply polite_exit.
  - apply exit_never_suppresses.
  - by apply polite_block.
Qed.

Lemma Diagram_value n kw w v w' :
  diagrams.Diagram n kw w = Ok v w' -> exists d, v = VDiagram d.
Proof.
  intros H. unfold diagrams.Diagram in H. invert_run H.
  unfold ret in H. injection H as <- _. eauto.
Qed.

Lemma Diagram_exit_closed d w b w' :
  diagrams.Diagram_exit d w = Ok b w' -> EvClosed (dg_key d) ∈ trace w'.
Proof.
  intros H. unfold diagrams.Diagram_exit in H. invert_run H.
  unfold ret in H. injection H as _ <-.
  unfold note in E2. injection E2 as _ <-. simpl.
  apply elem_of_app. right. apply list_elem_of_here.
Qed.

Lemma closing_with_Diagram n kw tgt body :
  closing (with_ (diagrams.Diagram n kw) tgt body).
Proof.
  intros w a w' H. unfold with_, with_as in H.
  apply bind_Ok in H as (mgr & w1 & Hctx & H).
  apply Diagram_value in Hctx as [d ->].
  apply bind_Ok in H as (v & w2 & _ & H).
  apply bind_Ok in H as (u & w3 & _ & H).
  unfold finally_exit in H.
  destruct (block body w3) as [[] w4|exn w4].
  - apply bind_Ok in H as (b & w5 & Hexit & H).
    unfold ret in H. injection H as _ <-.
    exists (dg_key d). by eapply Diagram_exit_closed.
  - destruct (diagrams.exit (VDiagram d) w4) as [[] w5|] eqn:Hexit;
      try discriminate H.
    by apply exit_never_suppresses in Hexit.
Qed.

(** ** What a failing script does *)

Lemma loud_of_polite s : Forall polite s -> fails_loudly s.
Proof.
  intros H e r. subst r. unfold run.
  destruct (polite_block s H (boot e)) as [evs [T E C Q O F]].
  simpl in *. rewrite T. repeat split.
  - apply F.
  - intros Hr. destruct (succeeded (block s (boot e))); [|done].
    by destruct (O eq_refl).
  - done.
  - exfalso. apply Q. exists l. rewrite H0. apply elem_of_app. right.
    apply list_elem_of_here.
  - exfalso. apply Q. exists l. rewrite H0. apply elem_of_app. right.
    apply list_elem_of_here.
  - intros k x Hk Hx.
    destruct (succeeded (block s (boot e))) eqn:Hs; [|done].
    destruct (O eq_refl) as [_ N]. rewrite N in Hx; [done | lia].
Qed.

Lemma run_prints tail : Forall is_print tail ->
  forall w, exists ls,
    block tail w = Ok tt (set_trace (trace w ++ (EvPrint <$> ls)) w).
Proof.
  induction 1 as [|s tail [l ->] _ IH]; intros w; simpl.
  - exists []. simpl. rewrite app_nil_r. by destruct w.
  - unfold bind, print, note.
    destruct (IH (set_trace (trace w ++ [EvPrint l]) w)) as [ls ->].
    exists (l :: ls). simpl. by rewrite <- app_assoc.
Qed.

Lemma split_at_print evs ls pre l post :
  ~ prints evs ->
  evs ++ (EvPrint <$> ls) = pre ++ EvPrint l :: post ->
  exists pre', pre = evs ++ pre' /\ forall x, EvRaise x ∉ pre'.
Proof.
  revert pre. induction evs as [|ev evs IH]; intros pre Hq Heq; simpl in *.
  - exists pre. split; [done|]. intros x Hx.
    assert (Hin : EvRaise x ∈ EvPrint <$> ls).
    { rewrite Heq. apply elem_of_app. by left. }
    apply list_elem_of_fmap in Hin as (? & ? & _). discriminate.
  - destruct pre as [|p pre]; simpl in Heq.
    + injection Heq as -> _. exfalso. apply Hq. exists l.
      apply list_elem_of_here.
    + injection Heq as -> Heq. destruct (IH pre) as (pre' & -> & Hn).
      * intros [y Hy]. apply Hq. exists y. by apply list_elem_of_further.
      * done.
      * by exists pre'.
Qed.

Lemma loud_with_prints (W : M unit) tail :
  polite W -> closing W -> Forall is_print tail -> fails_loudly (W :: tail).
Proof.
  intros HW HC Ht e r. subst r. unfold run. simpl. unfold bind.
  destruct (HW (boot e)) as [evs [T E C Q O F]].
  destruct (W (boot e)) as [[] w1|x w1] eqn:EW; simpl in *.
  - destruct (O eq_refl) as [R N].
    destruct (run_prints tail Ht w1) as [ls ->]. simpl. rewrite T.
    destruct (HC _ _ _ EW) as [k Hk]. rewrite T in Hk.
    repeat split; try done.
    + intros Hr. apply raises_app in Hr as [Hr|[y Hy]]; [done|].
      apply list_elem_of_fmap in Hy as (? & ? & _). discriminate.
    + apply split_at_print in H as (pre' & -> & _); [|done].
      exists k. apply elem_of_app. by left.
    + apply split_at_print in H as (pre' & -> & Hn); [|done].
      intros Hr. apply raises_app in Hr as [Hr|[y Hy]]; [done|].
      by apply Hn in Hy.
    + intros j y Hj Hy. rewrite N in Hy; [done | lia].
  - rewrite T. repeat split; try done; try (intros _; by apply F);
      exfalso; apply Q; exists l; rewrite H; apply elem_of_app; right;
      apply list_elem_of_here.
Qed.

(** ** Every script fails loudly *)

Ltac head_of t := lazymatch t with ?f _ => head_of f | _ => t end.

Ltac polite_script :=
  lazymatch goal with
  | |- Forall polite [] => apply List.Forall_nil
  | |- Forall polite (_ :: _) =>
      apply List.Forall_cons; [polite_script | polite_script]
  | |- polite (assign _ _) => apply polite_assign; polite_script
  | |- polite (expr _) => apply polite_expr; polite_script
  | |- polite (with_ _ _ _) =>
      apply polite_with; [polite_script | polite_script]
  | |- polite (for_ _ _ _) => apply polite_for; [polite_script | polite_script]
  | |- polite (binop diagrams.rshift _ _) =>
      apply polite_binop; [apply polite_rshift | polite_script | polite_script]
  | |- polite (binop diagrams.lshift _ _) =>
      apply polite_binop; [apply polite_lshift | polite_script | polite_script]
  | |- polite (binop diagrams.sub _ _) =>
      apply polite_binop; [apply polite_sub | polite_script | polite_script]
  | |- polite (binop _ _ _) =>
      apply polite_binop; [intros; polite_script | polite_script | polite_script]
  | |- polite (getvar _) => apply polite_getvar
  | |- polite (ret _) => apply polite_ret
  | |- polite (str _) => apply polite_str
  | |- polite (PyList _) => apply polite_PyList; polite_script
  | |- polite (index _ _) => apply polite_index; polite_script
  | |- polite (attr _ _) => apply polite_attr; polite_script
  | |- polite (diagrams.Edge _) => apply polite_Edge
  | |- polite (diagrams.Cluster _ _) => apply polite_Cluster; polite_script
  | |- polite (diagrams.Diagram _ _) => apply polite_Diagram; polite_script
  | |- polite (diagrams.Node _ _ _) => apply polite_Node
  | |- polite ?m => let h := head_of m in unfold h; polite_script
  end.

Ltac all_prints :=
  repeat (apply List.Forall_cons; [eexists; reflexivity|]);
  apply List.Forall_nil.

Ltac loud :=
  lazymatch goal with |- fails_loudly ?s => unfold s end;
  first [ apply loud_with_prints;
          [ polite_script | apply closing_with_Diagram | all_prints ]
        | apply loud_of_polite; polite_script ].

(** C8. In every script and every environment: a run ends with an
    exception exactly when an exception was raised during assembly or
    rendering (nothing handles, retries or recovers from one); a run that
    ends with an exception prints no message; a message is printed only after
    the diagram context has been left with no exception raised before; and a
    failure injected at any step the run takes (a call of the package, the
    layout program, a file operation) ends the run with an exception. *)
Theorem scripts_fail_loudly :
  Forall (fun s => fails_loudly s.2) all_scripts.
Proof. each_script; loud. Qed.

(** * Export *)

Lemma fault_point_ok w :
  faults (env w) (clock w) = None ->
  fault_point w = Ok tt (set_clock (S (clock w)) w).
Proof. intros H. unfold fault_point. by rewrite H. Qed.

Lemma render_ok d w :
  faults (env w) (clock w) = None ->
  faults (env w) (S (clock w)) = None ->
  exists w',
    diagrams.render d w = Ok tt w' /\
    graph w' = graph w /\ env w' = env w /\ clock w' = S (S (clock w)) /\
    image_structure w' d =
      Some (dg_outformat d, mkDot d (diagrams.body_of (dg_key d) (graph w))).
Proof.
  intros H0 H1. unfold diagrams.render, bind.
  rewrite fault_point_ok by done. simpl.
  rewrite fault_point_ok by done. simpl.
  eexists. split; [reflexivity|]. simpl. repeat split.
  unfold image_structure, file_at, image_path. simpl. by rewrite decide_True.
Qed.

(** C6. For any diagram object and any state, when the steps of two
    exports do not fail: both exports end normally, the declarations of the
    diagram (its nodes, edges and clusters) are the same after each as
    before, and the image file left by the second export has the same
    format and the same structure as the one left by the first. *)
Theorem export_twice (d : DiagramObj) (w : World) :
  (forall k, k < 4 -> faults (env w) (clock w + k) = None) ->
  exists w1 w2,
    diagrams.render d w = Ok tt w1 /\ diagrams.render d w1 = Ok tt w2 /\
    graph w1 = graph w /\ graph w2 = graph w /\
    (nodes w2 = nodes w /\ edges w2 = edges w /\ clusters w2 = clusters w) /\
    is_Some (image_structure w1 d) /\
    image_structure w2 d =
    image_structure w1 d.
Proof.
  intros H.
  destruct (render_ok d w) as (w1 & R1 & G1 & E1 & C1 & F1).
  { rewrite <- (H 0) by lia. f_equal. lia. }
  { rewrite <- (H 1) by lia. f_equal. lia. }
  destruct (render_ok d w1) as (w2 & R2 & G2 & E2 & C2 & F2).
  { rewrite E1, C1, <- (H 2) by lia. f_equal. lia. }
  { rewrite E1, C1, <- (H 3) by lia. f_equal. lia. }
  exists w1, w2. unfold nodes, edges, clusters.
  rewrite F1, F2, G2, G1. by repeat split.
Qed.


(** * Instances

    The general statements above, applied to sample objects and to runs of
    two scripts. *)

Lemma rshift_appends_edge_and_chains_witness :
  exists w3,
    (ret (VNode node_a) >> ret (VNode node_b) >> ret (VNode node_c))
      (boot quiet_env) = Ok (VNode node_c) w3 /\
    graph w3 = graph (boot quiet_env) ++
               [forward_edge node_a node_b; forward_edge node_b node_c].
Proof.
  pose proof (rshift_appends_edge_and_chains node_a node_b node_c
                [("label", "uses")] (boot quiet_env)
                eq_refl eq_refl eq_refl) as (_ & _ & H).
  exact H.
Defined.

Lemma lshift_appends_reversed_edge_witness :
  exists w1,
    (ret (VNode node_a) << ret (VNode node_b)) (boot quiet_env) =
      Ok (VNode node_b) w1 /\
    graph w1 = graph (boot quiet_env) ++ [back_edge node_a node_b] /\
    arrows_of (back_edge node_a node_b) = [mkArrow node_b node_a ""].
Proof.
  pose proof (lshift_appends_reversed_edge node_a node_b
                [("label", "data source")] (boot quiet_env)
                eq_refl eq_refl) as (H & _).
  exact H.
Defined.


Lemma export_twice_witness :
  exported context_run "c1_system_context_diagram.jpg" =
    Some context_diagram /\
  diagrams.body_of (dg_key context_diagram) (graph context_run) =
    graph context_run /\
  (length (nodes context_run) = 6 /\ length (edges context_run) = 5 /\
   length (clusters context_run) = 1) /\
  exists w1 w2,
    diagrams.render context_diagram context_run = Ok tt w1 /\
    diagrams.render context_diagram w1 = Ok tt w2 /\
    graph w1 = graph context_run /\ graph w2 = graph context_run /\
    (nodes w2 = nodes context_run /\ edges w2 = edges context_run /\
     clusters w2 = clusters context_run) /\
    is_Some (image_structure w1 context_diagram) /\
    image_structure w2 context_diagram = image_structure w1 context_diagram.
Proof.
  split; [vm_compute; reflexivity|].
  split; [vm_compute; reflexivity|].
  split; [repeat split; vm_compute; reflexivity|].
  apply (export_twice context_diagram context_run).
  intros k _. vm_compute. reflexivity.
Defined.

Lemma edges_reference_earlier_nodes_witness :
  exists dg t h attrs,
    graph context_run !! 8 = Some (DEdge dg t h attrs) /\
    DNode t ∈ take 8 (graph context_run) /\
    DNode h ∈ take 8 (graph context_run).
Proof.
  pose proof (List.Forall_inv edges_reference_earlier_nodes) as H.
  cbv beta in H. cbn [snd] in H.
  specialize (H [] [] ∅ (fun _ => "") (fun _ _ => 0)).
  unfold context_run, quiet_env.
  destruct (graph (final (run c1_system_context_diagram.main
                              (calm [] [] ∅ (fun _ => "") (fun _ _ => 0))))
              !! 8) as [[n|c|dg p c|dg t h attrs]|] eqn:E;
    try (vm_compute in E; discriminate E).
  exists dg, t, h, attrs. split; [reflexivity|].
  apply take_drop_middle in E. symmetry in E.
  destruct (H _ _ _ _ _ _ E) as (Ht & Hh & _).
  split; assumption.
Defined.

Lemma clusters_form_a_tree_witness :
  ~ tc (contains (graph container_run)) 7 7.
Proof.
  pose proof (List.Forall_inv (List.Forall_inv_tail clusters_form_a_tree))
    as H.
  cbv beta in H. cbn [snd] in H.
  specialize (H [] [] ∅ (fun _ => "") (fun _ _ => 0)).
  cbv zeta in H. destruct H as (_ & H & _).
  unfold container_run, quiet_env. exact (H 7).
Defined.

(** * Further properties of the scripts *)

(** A file the run has neither written nor removed is as it was on the disk
    the run started with. *)
Lemma untouched_file (w : World) (p1 p2 p : string) :
  touches_only w p1 p2 = true -> p <> p1 -> p <> p2 ->
  file_at w p = disk (env w) !! p.
Proof.
  unfold touches_only, file_at. intros H H1 H2.
  induction (files w) as [|[q f] log IH]; [done|].
  simpl in H. apply andb_prop in H as [Hq Hlog]. simpl.
  destruct (decide (p = q)) as [->|_]; [|by apply IH].
  apply orb_prop in Hq as [Hq|Hq]; apply bool_decide_eq_true in Hq; congruence.
Qed.

(** X1. Every script, when nothing fails and whatever is on the disk: at the
    end the file named after the script with the extension [jpg] is an image
    in the format [jpg] made from all the declarations of the run (nothing is
    declared after the export and everything belongs to the one diagram); the
    graph source written for the layout program is gone again; every other
    file is as it was when the run started; that image is the only one the
    run has written; and both context variables are clear. *)
Theorem scripts_export_one_complete_image :
  Forall (fun s => forall a v d u r,
            let w := final (run s.2 (calm a v d u r)) in
            image_at w (s.1 ++ ".jpg") = Some ("jpg", graph w) /\
            file_at w s.1 = None /\
            (forall p, p <> s.1 -> p <> (s.1 ++ ".jpg")%string ->
                       file_at w p = d !! p) /\
            (fun ps => (ps.1, df_body ps.2)) <$> images w =
              [((s.1 ++ ".jpg")%string, graph w)] /\
            diagram_ctx w = None /\ cluster_ctx w = None) all_scripts.
Proof.
  each_script; intros a v d u r; cbv zeta; cbn [fst];
    (split; [vm_compute; reflexivity|]);
    (split; [vm_compute; reflexivity|]);
    (split; [|by_running]);
    intros p H1 H2;
    match type of H1 with
    | _ <> ?n1 =>
        match type of H2 with
        | _ <> ?n2 =>
            match goal with
            | |- file_at ?W _ = _ =>
                rewrite (untouched_file W n1 n2 p
                           ltac:(vm_compute; reflexivity) H1 H2);
                apply (f_equal (fun m : gmap string File => m !! p));
                vm_compute; reflexivity
            end
        end
    end.
Qed.

(** X2. In every script the clusters are entered and left as a stack, every
    node is registered in the innermost cluster open where it is constructed,
    and every cluster has been left when the run ends. *)
Theorem scripts_are_well_scoped :
  Forall (fun s => forall a v d u r,
            scoped [] (graph (final (run s.2 (calm a v d u r))))) all_scripts.
Proof.
  each_script; intros; vm_compute; repeat split; reflexivity.
Qed.

(** X3. No script declares a two-way edge or an edge from a node to itself:
    every declared edge is an arrow one way or a plain line. *)
Theorem scripts_declare_no_two_way_edge :
  Forall (fun s => forall a v d u r,
            let w := final (run s.2 (calm a v d u r)) in
            Forall (fun e => one_way_or_plain (dict_get "dir" e.2) /\
                             nd_key e.1.1 <> nd_key e.1.2) (edges w) /\
            length (arrows w) + length (lines w) = length (edges w))
         all_scripts.
Proof.
  each_script; intros; cbv zeta;
    (split; [apply (bool_decide_unpack _)|]; vm_compute; reflexivity).
Qed.

(** X4. [add_invisible_edge(node1, node2)] of the data-flow script, for any
    two nodes at a step that does not fail: it declares exactly one edge,
    from [node1] to [node2], invisible and constraining the layout, and
    returns [node2]. *)
Theorem add_invisible_edge_declares_hidden_arrow (n1 n2 : NodeObj) (w : World) :
  faults (env w) (clock w) = None ->
  data_flow_diagram.add_invisible_edge (VNode n1) (VNode n2) w =
    Ok (VNode n2)
       (set_graph (graph w ++ [DEdge (nd_diagram n1) n1 n2 invisible_attrs])
                  (set_clock (S (clock w)) w)) /\
  arrows_of (DEdge (nd_diagram n1) n1 n2 invisible_attrs) = [mkArrow n1 n2 ""].
Proof.
  intros H. split; [|reflexivity].
  unfold data_flow_diagram.add_invisible_edge, binop, bind, ret.
  rewrite Edge_ok by reflexivity. simpl.
  by rewrite Node_connect_ok.
Qed.

(** One successful call of [create_rank_node]. *)
Lemma create_rank_node_ok (w : World) (dg : DiagramObj) :
  faults (env w) (clock w) = None ->
  diagram_ctx w = Some dg ->
  data_flow_diagram.create_rank_node w =
    Ok (VNode (rank_node w dg))
       (set_graph (graph w ++ [DNode (rank_node w dg)])
          (set_allocated (S (allocated w)) (set_clock (S (clock w)) w))).
Proof.
  intros H Hd.
  unfold data_flow_diagram.create_rank_node, data_flow_diagram.StartEnd,
    diagrams.Node, bind.
  rewrite fault_point_ok by done.
  unfold diagrams.reject_duplicates, diagrams.getdiagram,
    diagrams.getcluster, ask, fresh, declare, ret. simpl.
  by rewrite Hd.
Qed.

(** X5. [create_rank_node()] of the data-flow script, at a step that does not
    fail: inside a diagram context it constructs a new node with an empty
    label, drawn as an invisible point, registers it in the cluster scope
    that is active, and returns it; two calls in a row return two distinct
    nodes; outside a diagram context it raises [EnvironmentError] and
    declares nothing. *)
Theorem create_rank_node_makes_fresh_hidden_node (w : World) :
  faults (env w) (clock w) = None ->
  faults (env w) (S (clock w)) = None ->
  match diagram_ctx w with
  | Some dg =>
      exists w1 w2 n2,
        data_flow_diagram.create_rank_node w = Ok (VNode (rank_node w dg)) w1 /\
        graph w1 = graph w ++ [DNode (rank_node w dg)] /\
        data_flow_diagram.create_rank_node w1 = Ok (VNode n2) w2 /\
        graph w2 = graph w ++ [DNode (rank_node w dg); DNode n2] /\
        nd_key n2 <> nd_key (rank_node w dg) /\
        nd_label n2 = "" /\ nd_attrs n2 = nd_attrs (rank_node w dg) /\
        nd_cluster n2 = cl_key <$> cluster_ctx w
  | None =>
      exists w1,
        data_flow_diagram.create_rank_node w =
          Raise (EnvironmentError "Global diagrams context not set up") w1 /\
        graph w1 = graph w /\ files w1 = files w
  end.
Proof.
  intros H0 H1. destruct (diagram_ctx w) as [dg|] eqn:Hd.
  - eexists _, _, _. split; [by apply create_rank_node_ok|].
    split; [done|]. split; [by apply create_rank_node_ok|].
    simpl. rewrite <- app_assoc. repeat split. lia.
  - unfold data_flow_diagram.create_rank_node, data_flow_diagram.StartEnd,
      diagrams.Node, bind.
    rewrite fault_point_ok by done.
    unfold diagrams.reject_duplicates, diagrams.getdiagram, ask, fresh, ret.
    simpl. rewrite Hd. eexists. by repeat split.
Qed.

(** X6. In every script that prints, the first line printed names the image
    file the run has written. *)
Theorem first_message_names_the_image :
  Forall (fun s => forall a v d u r,
            let w := final (run s.2 (calm a v d u r)) in
            match head (printed w) with
            | Some line => (fun ps => occurs ps.1 line) <$> images w = [true]
            | None => printed w = []
            end) all_scripts.
Proof. each_script; intros; cbv zeta; vm_compute; reflexivity. Qed.

(** X7. In the observability script the three statements of the form
    [store << Edge(label="data source") << grafana] declare arrows that leave
    [grafana]: to [prometheus], to [loki] and to [jaeger_query], in this
    order, and nothing else carries that label. *)
Theorem grafana_reads_its_data_sources a v d u r :
  let w := final (run observability_stack_diagram.main (calm a v d u r)) in
  (fun x => (Some (source x), Some (target x))) <$>
      filter (fun x => label x = "data source") (arrows w) =
    [(node_named w "grafana", node_named w "prometheus");
     (node_named w "grafana", node_named w "loki");
     (node_named w "grafana", node_named w "jaeger_query")].
Proof. intros w. subst w. vm_compute. reflexivity. Qed.

(** X8. In the AWS deployment script, [user >> alb >> [...]] declares the
    arrow from [user] to [alb] and one arrow from [alb] to each of the three
    services of the list, in order; with [igw >> alb], these are all the
    arrows at [alb]. *)
Theorem load_balancer_fans_out a v d u r :
  let w := final (run aws_eks_deployment_diagram.main (calm a v d u r)) in
  exists alb,
    node_named w "alb" = Some alb /\
    Some <$> (target <$> outbound w alb) =
      [node_named w "user_svc_service"; node_named w "product_svc_service";
       node_named w "order_svc_service"] /\
    Some <$> (source <$> inbound w alb) =
      [node_named w "user"; node_named w "igw"].
Proof.
  intros w.
  destruct (node_named w "alb") as [alb|] eqn:E;
    [|subst w; vm_compute in E; discriminate E].
  assert (Hk : nd_key <$> node_named w "alb" = Some 11)
    by (subst w; vm_compute; reflexivity).
  rewrite E in Hk. injection Hk as Hkey. exists alb. split; [done|].
  unfold inbound, outbound, same_node. rewrite Hkey. subst w. by_running.
Qed.

(** Sequencing is associative. *)
Lemma bind_bind {A B C} (m : M A) (f : A -> M B) (g : B -> M C) (w : World) :
  bind m (fun a => bind (f a) g) w = bind (bind m f) g w.
Proof. unfold bind. by destruct (m w). Qed.

(** One round of the loop [for svc in ...: svc >> mesh]. *)
Lemma connect_to_mesh_round (mesh : string) (n m : NodeObj) (w : World) :
  mesh <> "svc" ->
  globals w !! mesh = Some (VNode m) ->
  faults (env w) (clock w) = None ->
  (setvar "svc" (VNode n) ;;
   block [expr (getvar "svc" >> getvar mesh)])%py w =
    Ok tt (set_graph (graph w ++ [forward_edge n m])
             (set_clock (S (clock w))
                (set_globals (<["svc" := VNode n]> (globals w)) w))).
Proof.
  intros Hne Hm Hf.
  unfold bind, setvar, block, expr, binop, bind, getvar. simpl.
  rewrite lookup_insert_eq. simpl.
  rewrite lookup_insert_ne, Hm by done. simpl.
  unfold diagrams.Node_connect, bind, fault_point. simpl. by rewrite Hf.
Qed.

(** X9. The loop [for svc in services: svc >> mesh] of the disaster-recovery
    script, for every list of nodes bound to [services] and every node bound
    to [mesh], at steps that do not fail: it declares one forward edge from
    each service to the mesh, in the order of the list, and nothing else; the
    loop variable stays bound to the last service when the loop is over, and
    is not bound by a loop over the empty list. *)
Theorem loop_connects_each_service (services mesh : string)
    (l : list NodeObj) (m : NodeObj) (w : World) :
  mesh <> "svc" ->
  globals w !! services = Some (VList (VNode <$> l)) ->
  globals w !! mesh = Some (VNode m) ->
  (forall k, k < length l -> faults (env w) (clock w + k) = None) ->
  exists w',
    connect_to_mesh services mesh w = Ok tt w' /\
    graph w' = graph w ++ ((fun n => forward_edge n m) <$> l) /\
    globals w' = match last l with
                 | Some n => <["svc" := VNode n]> (globals w)
                 | None => globals w
                 end /\
    clock w' = clock w + length l /\
    trace w' = trace w /\ files w' = files w.
Proof.
  intros Hne Hl Hm Hf.
  assert (Hget : getvar services w = Ok (VList (VNode <$> l)) w)
    by (unfold getvar; by rewrite Hl).
  unfold connect_to_mesh, for_, bind. rewrite Hget. clear Hl Hget.
  revert w Hm Hf. induction l as [|n l IH]; intros w Hm Hf.
  - exists w. simpl. by rewrite app_nil_r, Nat.add_0_r.
  - assert (H0 : faults (env w) (clock w) = None).
    { specialize (Hf 0). rewrite Nat.add_0_r in Hf. apply Hf. simpl. lia. }
    pose proof (connect_to_mesh_round mesh n m w Hne Hm H0) as Hround.
    destruct (IH (set_graph (graph w ++ [forward_edge n m])
                    (set_clock (S (clock w))
                       (set_globals (<["svc" := VNode n]> (globals w)) w))))
      as (w' & Hrun & Hg & Hgl & Hc & Ht & Hfi); [| | exists w'; split].
    + simpl. rewrite lookup_insert_ne by done. exact Hm.
    + intros k Hk. simpl. specialize (Hf (S k)).
      replace (S (clock w + k)) with (clock w + S k) by lia.
      apply Hf. simpl. lia.
    + cbn [fmap list_fmap for_each]. rewrite bind_bind.
      unfold bind at 1. rewrite Hround. exact Hrun.
    + simpl in *. rewrite Hg, Hgl, Hc, Ht, Hfi, last_cons.
      rewrite <- app_assoc. repeat split; [|lia].
      destruct (last l); [by rewrite insert_insert_eq | done].
Qed.

(** X10. In the data-flow script the two anchors made by
    [create_rank_node()] are the only hidden nodes, the four edges made by
    [add_invisible_edge] are the only hidden edges, each leaves an anchor for
    the node named in the call, and no visible edge touches an anchor. *)
Theorem anchors_carry_only_hidden_edges a v d u r :
  let w := final (run data_flow_diagram.main (calm a v d u r)) in
  Some <$> filter (fun n => hidden (nd_attrs n)) (nodes w) =
    [node_named w "anchor1"; node_named w "anchor2"] /\
  (fun e => (Some e.1.1, Some e.1.2)) <$>
      filter (fun e => hidden e.2) (edges w) =
    [(node_named w "anchor1", node_named w "order_process");
     (node_named w "anchor1", node_named w "cart_process");
     (node_named w "anchor2", node_named w "payment_db");
     (node_named w "anchor2", node_named w "product_db")] /\
  forallb (fun e => implb (hidden (nd_attrs e.1.1) || hidden (nd_attrs e.1.2))
                          (hidden e.2)) (edges w) = true.
Proof. intros w. subst w. by_running. Qed.

(** X11. No script raises an exception of its own: when neither the package
    nor the layout program fails, every script runs to its end, no exception
    is raised on the way (no name is read before it is assigned, no operator
    gets an operand it does not support, no keyword is repeated), and exactly
    one diagram is closed. *)
Theorem scripts_raise_nothing_of_their_own :
  Forall (fun s => forall a v d u r,
            let res := run s.2 (calm a v d u r) in
            succeeded res = true /\
            raised (final res) = [] /\
            length (closed (final res)) = 1) all_scripts.
Proof. each_script; intros; cbv zeta; by_running. Qed.

(** X12. In the AWS deployment script the lists [user_svc_pods],
    [product_svc_pods], [order_svc_pods] and [rabbitmq_pods] hold two pods
    each, all distinct. The plain lines that start at a pod start at the six
    pods of the first three lists, in this order, and at no other: each of
    these pods, registered in the cluster of its service, is joined to one
    [NestJS App] node that lies in a cluster of its own, labelled with the
    label of the pod (the loops pass [pod_instance.label]) and nested in the
    cluster of the service. The two RabbitMQ pods lie in [RabbitMQ Cluster],
    which has no cluster inside. *)
Theorem pods_get_a_cluster_of_their_own a v d u r :
  let w := final (run aws_eks_deployment_diagram.main (calm a v d u r)) in
  let core := list_named w "user_svc_pods" ++
              list_named w "product_svc_pods" ++
              list_named w "order_svc_pods" in
  length <$> (list_named w <$> ["user_svc_pods"; "product_svc_pods";
                                "order_svc_pods"; "rabbitmq_pods"]) =
    [2; 2; 2; 2] /\
  NoDup (nd_key <$> core ++ list_named w "rabbitmq_pods") /\
  (pod_lines w).*1 = core /\
  (fun p => (cluster_of w p.1, nd_label p.1, nd_label p.2,
             cluster_of w p.2, enclosing w p.2)) <$> pod_lines w =
    [(Some "User Service", "Pod 1", "NestJS App",
      Some "Pod 1", Some "User Service");
     (Some "User Service", "Pod 2", "NestJS App",
      Some "Pod 2", Some "User Service");
     (Some "Product Service", "Pod 1", "NestJS App",
      Some "Pod 1", Some "Product Service");
     (Some "Product Service", "Pod 2", "NestJS App",
      Some "Pod 2", Some "Product Service");
     (Some "Order Service", "Pod 1", "NestJS App",
      Some "Pod 1", Some "Order Service");
     (Some "Order Service", "Pod 2", "NestJS App",
      Some "Pod 2", Some "Order Service")] /\
  NoDup ((fun p => nd_cluster p.2) <$> pod_lines w) /\
  cluster_of w <$> list_named w "rabbitmq_pods" =
    [Some "RabbitMQ Cluster"; Some "RabbitMQ Cluster"] /\
  filter (fun c => cl_label <$> cl_parent c = Some "RabbitMQ Cluster")
         (clusters w) = [] /\
  length (filter (fun n => nd_class n = "diagrams.k8s.compute.Pod")
                 (nodes w)) = 8.
Proof.
  intros w core. subst core w.
  split; [vm_compute; reflexivity|].
  split; [apply (bool_decide_unpack _); vm_compute; reflexivity|].
  split; [vm_compute; reflexivity|].
  split; [vm_compute; reflexivity|].
  split; [apply (bool_decide_unpack _); vm_compute; reflexivity|].
  by_running.
Qed.

(** ** Instances of the further properties *)

Lemma scripts_export_one_complete_image_witness :
  file_at (final (run c1_system_context_diagram.main
                      (calm [] [] kept_disk (fun _ => "") (fun _ _ => 0))))
          "notes.txt" = kept_disk !! "notes.txt".
Proof.
  pose proof (List.Forall_inv scripts_export_one_complete_image) as H.
  cbv beta in H. cbn [fst snd] in H.
  specialize (H [] [] kept_disk (fun _ => "") (fun _ _ => 0)).
  cbv zeta in H. destruct H as (_ & _ & H & _).
  apply (H "notes.txt"); [discriminate | cbn; discriminate].
Defined.

Lemma add_invisible_edge_declares_hidden_arrow_witness :
  data_flow_diagram.add_invisible_edge (VNode node_a) (VNode node_b)
      (boot quiet_env) =
    Ok (VNode node_b)
       (set_graph (graph (boot quiet_env) ++
                   [DEdge (nd_diagram node_a) node_a node_b invisible_attrs])
                  (set_clock (S (clock (boot quiet_env))) (boot quiet_env))) /\
  arrows_of (DEdge (nd_diagram node_a) node_a node_b invisible_attrs) =
    [mkArrow node_a node_b ""].
Proof.
  exact (add_invisible_edge_declares_hidden_arrow node_a node_b
           (boot quiet_env) eq_refl).
Defined.

Lemma create_rank_node_makes_fresh_hidden_node_witness :
  exists w1 w2 n2,
    data_flow_diagram.create_rank_node inside_sample =
      Ok (VNode (rank_node inside_sample sample_diagram)) w1 /\
    graph w1 = graph inside_sample ++
               [DNode (rank_node inside_sample sample_diagram)] /\
    data_flow_diagram.create_rank_node w1 = Ok (VNode n2) w2 /\
    graph w2 = graph inside_sample ++
               [DNode (rank_node inside_sample sample_diagram); DNode n2] /\
    nd_key n2 <> nd_key (rank_node inside_sample sample_diagram) /\
    nd_label n2 = "" /\
    nd_attrs n2 = nd_attrs (rank_node inside_sample sample_diagram) /\
    nd_cluster n2 = cl_key <$> cluster_ctx inside_sample.
Proof.
  exact (create_rank_node_makes_fresh_hidden_node inside_sample
           eq_refl eq_refl).
Defined.

Lemma loop_connects_each_service_witness :
  exists w',
    connect_to_mesh "services" "mesh" with_services = Ok tt w' /\
    graph w' = graph with_services ++
               ((fun n => forward_edge n node_c) <$> [node_a; node_b]) /\
    globals w' = <["svc" := VNode node_b]> (globals with_services) /\
    clock w' = clock with_services + 2 /\
    trace w' = trace with_services /\ files w' = files with_services.
Proof.
  apply (loop_connects_each_service "services" "mesh" [node_a; node_b]
           node_c with_services).
  - discriminate.
  - vm_compute; reflexivity.
  - vm_compute; reflexivity.
  - intros k _. reflexivity.
Defined.
